(** * Survey / administrative-data pipeline: merge, recode, sample, ICC

    A shallow embedding of the core of the pipeline
    ([src/transform.py], [src/merge.py], [src/analyze.py],
    [run_pipeline.py], [config.py]) together with the properties its
    specification states about it.

    Conventions of the embedding.
    - A pandas cell is a [value]: [NaN], a number or a string.  Numbers
      are exact rationals ([Q]); float64 rounding and infinities are not
      modelled, and numeric results are compared with [==].
    - A [DataFrame] is its list of columns (name and dtype) and its list
      of rows; a row maps column names to cells.
    - Python [str] values are sequences of ASCII characters.
    - A Python exception is a [None] result in [Transform]; the
      functions of [Merge], [Analyze] and [RunPipeline] print and raise,
      and are computations that give the lines printed and then an
      exception or a value.
    - What numpy / statsmodels compute numerically (printing a float,
      square roots, parsing a float, fitting a model) is a parameter of
      the development. *)

From Stdlib Require Import QArith Qabs Qround Lqa Lia Ascii String.
From stdpp Require Import base gmap strings list pretty.
Open Scope string_scope.

(** ** Python string methods used by the pipeline *)

Module PyStr.

(** [str.isspace] on one ASCII character: TAB, LF, VT, FF, CR,
    FS, GS, RS, US and the space. *)
Definition is_space (c : ascii) : bool :=
  let n := nat_of_ascii c in
  (Nat.leb 9 n && Nat.leb n 13) || (Nat.leb 28 n && Nat.leb n 32).

Fixpoint lstrip (s : string) : string :=
  match s with
  | String c s' => if is_space c then lstrip s' else s
  | EmptyString => EmptyString
  end.

Fixpoint rstrip (s : string) : string :=
  match s with
  | EmptyString => EmptyString
  | String c s' =>
      match rstrip s' with
      | EmptyString => if is_space c then EmptyString else String c EmptyString
      | r => String c r
      end
  end.

(** [s.strip()] *)
Definition strip (s : string) : string := lstrip (rstrip s).

(** [s[:n]] *)
Fixpoint slice_to (n : nat) (s : string) : string :=
  match n, s with
  | S n', String c s' => String c (slice_to n' s')
  | _, _ => EmptyString
  end.

(** [s[n:]] *)
Fixpoint slice_from (n : nat) (s : string) : string :=
  match n, s with
  | S n', String _ s' => slice_from n' s'
  | _, _ => s
  end.

(** [s[a:b]] *)
Definition slice (a b : nat) (s : string) : string :=
  slice_to (b - a) (slice_from a s).

Fixpoint zeros (n : nat) : string :=
  match n with
  | O => EmptyString
  | S n' => String "0" (zeros n')
  end.

Definition is_sign (c : ascii) : bool :=
  Ascii.eqb c "+" || Ascii.eqb c "-".

(** [s.zfill(width)]: zeros are put in front, after a leading sign
    when there is one; a string of [width] characters or more is
    returned as it is. *)
Definition zfill (width : nat) (s : string) : string :=
  let n := String.length s in
  if Nat.leb width n then s
  else match s with
       | String c s' =>
           if is_sign c then String c (zeros (width - n) +:+ s')
           else zeros (width - n) +:+ s
       | EmptyString => zeros width
       end.

Definition newline : string := String (ascii_of_nat 10) EmptyString.

(** [re.sub(r"\.0$", "", s)]: [$] matches at the end of the string
    and also just before a newline that ends the string. *)
Fixpoint sub_dot0_end (s : string) : string :=
  match s with
  | EmptyString => EmptyString
  | String c s' =>
      if String.eqb s ".0" then EmptyString
      else if String.eqb s (".0" +:+ newline) then newline
      else String c (sub_dot0_end s')
  end.

(** [s.startswith(p)] *)
Definition startswith (p s : string) : bool := String.prefix p s.

(** [s.lower()] on ASCII letters. *)
Definition lower_char (c : ascii) : ascii :=
  let n := nat_of_ascii c in
  if Nat.leb 65 n && Nat.leb n 90 then ascii_of_nat (n + 32) else c.

Fixpoint lower (s : string) : string :=
  match s with
  | EmptyString => EmptyString
  | String c s' => String (lower_char c) (lower s')
  end.

(** [sep.join(l)] *)
Fixpoint join (sep : string) (l : list string) : string :=
  match l with
  | [] => EmptyString
  | [x] => x
  | x :: xs => x +:+ sep +:+ join sep xs
  end.


Definition left_pad_zeros (width : nat) (s : string) : string :=
  zeros (width - String.length s) +:+ s.

Definition is_digit (c : ascii) : bool :=
  let n := nat_of_ascii c in Nat.leb 48 n && Nat.leb n 57.

(** A code written with digits and dots only, such as ["3630100"] or
    ["3630100.0"]. *)
Fixpoint plain_code (s : string) : bool :=
  match s with
  | EmptyString => true
  | String c s' => (is_digit c || Ascii.eqb c ".") && plain_code s'
  end.

Lemma app_cons (c : ascii) (s t : string) :
  String c s +:+ t = String c (s +:+ t).
Proof. reflexivity. Qed.

Lemma app_empty_l (t : string) : EmptyString +:+ t = t.
Proof. reflexivity. Qed.

Lemma length_app (s t : string) :
  String.length (s +:+ t) = String.length s + String.length t.
Proof.
  induction s as [|c s IH]; [done|].
  rewrite app_cons. simpl. by rewrite IH.
Qed.

Lemma app_empty_r (s : string) : s +:+ EmptyString = s.
Proof. induction s as [|c s IH]; [done|]. by rewrite app_cons, IH. Qed.

Lemma length_zeros (n : nat) : String.length (zeros n) = n.
Proof. induction n as [|n IH]; simpl; [done | by rewrite IH]. Qed.

Lemma zfill_short_unsigned (w : nat) (c : ascii) (s : string) :
  is_sign c = false →
  zfill w (String c s) = left_pad_zeros w (String c s).
Proof.
  intros Hc. unfold zfill, left_pad_zeros.
  destruct (Nat.leb w (String.length (String c s))) eqn:Hw.
  - apply Nat.leb_le in Hw.
    replace (w - String.length (String c s)) with 0 by lia. done.
  - by rewrite Hc.
Qed.

Lemma plain_code_unsigned (c : ascii) (s : string) :
  plain_code (String c s) = true → is_sign c = false.
Proof.
  simpl. intros [Hc _]%andb_prop. revert Hc.
  destruct c as [[] [] [] [] [] [] [] []]; vm_compute; intros; congruence.
Qed.

(** On plain codes, [zfill] is literal left-padding with zeros. *)
Lemma zfill_plain (w : nat) (s : string) :
  plain_code s = true → zfill w s = left_pad_zeros w s.
Proof.
  destruct s as [|c s]; intros Hp.
  - unfold zfill, left_pad_zeros. simpl. rewrite Nat.sub_0_r, app_empty_r.
    by destruct w.
  - apply zfill_short_unsigned. by eapply plain_code_unsigned.
Qed.




Lemma zfill_length (w : nat) (s : string) :
  (w <= String.length (zfill w s))%nat.
Proof.
  unfold zfill. destruct (Nat.leb w (String.length s)) eqn:Hw.
  - by apply Nat.leb_le in Hw.
  - apply Nat.leb_gt in Hw. destruct s as [|c s].
    + by rewrite length_zeros.
    + destruct (is_sign c); simpl in *;
        rewrite length_app, length_zeros; simpl; lia.
Qed.

Lemma zfill_length_short (w : nat) (s : string) :
  (String.length s <= w)%nat → String.length (zfill w s) = w.
Proof.
  intros Hs. unfold zfill. destruct (Nat.leb w (String.length s)) eqn:Hw.
  - apply Nat.leb_le in Hw. lia.
  - apply Nat.leb_gt in Hw. destruct s as [|c s].
    + by rewrite length_zeros.
    + destruct (is_sign c); simpl in *;
        rewrite length_app, length_zeros; simpl; lia.
Qed.

Lemma slice_to_length (n : nat) (s : string) :
  String.length (slice_to n s) = n `min` String.length s.
Proof.
  revert s. induction n as [|n IH]; intros [|c s]; simpl; try done.
  by rewrite IH.
Qed.

(** [s[:m]] of [s[:n]] is [s[:m]] when [m ≤ n]: a gemeente code is
    also the first four characters of the wijk code. *)
Lemma slice_to_slice_to (m n : nat) (s : string) :
  (m <= n)%nat → slice_to m (slice_to n s) = slice_to m s.
Proof.
  revert n s. induction m as [|m IH]; intros [|n] [|c s] Hmn; simpl; try done; try lia.
  f_equal. apply IH. lia.
Qed.

#[global] Arguments slice_to : simpl never.
#[global] Arguments slice_from : simpl never.
#[global] Arguments zfill : simpl never.
#[global] Arguments sub_dot0_end : simpl never.
#[global] Arguments strip : simpl never.

End PyStr.

(** ** The pandas objects the pipeline works on *)

Module Pandas.

(** One cell of a table. *)
Inductive value :=
| NaN
| Num (q : Q)
| Str (s : string).

(** Numerical routines of numpy that the embedding does not define:
    how a number prints under [str] (a whole float prints with a
    final [".0"]), the float square root, and [float] of a string. *)
Class NumLib := {
  num_repr : Q → string;
  float_sqrt : Q → Q;
  float_of_str : string → option Q
}.

Definition isna (v : value) : bool :=
  match v with NaN => true | _ => false end.

Definition notna (v : value) : bool := negb (isna v).

(** Equality of two cells as pandas uses it for join keys, duplicate
    detection, [value_counts], [isin] and dict lookups: missing keys
    are equal to each other. *)
Definition value_eqb (a b : value) : bool :=
  match a, b with
  | NaN, NaN => true
  | Num x, Num y => Qeq_bool x y
  | Str s, Str t => String.eqb s t
  | _, _ => false
  end.

Inductive dtype := float64 | int64 | object | category.

Definition dtype_eqb (a b : dtype) : bool :=
  match a, b with
  | float64, float64 | int64, int64 | object, object
  | category, category => true
  | _, _ => false
  end.

Abbreviation row := (gmap string value).

Record DataFrame := mkDF {
  columns : list (string * dtype);
  rows : list row
}.

(** The empty [pd.DataFrame()]. *)
Definition empty_frame : DataFrame := mkDF [] [].

Definition cell (r : row) (c : string) : value := default NaN (r !! c).

Definition column_names (df : DataFrame) : list string := (columns df).*1.

(** [c in df.columns] *)
Definition has_column (df : DataFrame) (c : string) : bool :=
  bool_decide (c ∈ column_names df).

(** [len(df)] *)
Definition nrows (df : DataFrame) : nat := length (rows df).

(** [df[c]] as the list of its cells. *)
Definition series (df : DataFrame) (c : string) : list value :=
  map (λ r, cell r c) (rows df).

Fixpoint lookup_dtype (c : string) (cols : list (string * dtype)) :
    option dtype :=
  match cols with
  | [] => None
  | (c', d) :: cols' => if String.eqb c' c then Some d else lookup_dtype c cols'
  end.

(** [df[c].dtype] *)
Definition dtype_of (df : DataFrame) (c : string) : option dtype :=
  lookup_dtype c (columns df).

(** The column list after [df[c] = ...]: an existing column keeps its
    place, a new one goes last. *)
Definition set_dtype (c : string) (dt : dtype)
    (cols : list (string * dtype)) : list (string * dtype) :=
  if bool_decide (c ∈ cols.*1)
  then map (λ cd, if String.eqb cd.1 c then (c, dt) else cd) cols
  else cols ++ [(c, dt)].

(** [df[c] = f(row)], cell by cell. *)
Definition assign (df : DataFrame) (c : string) (dt : dtype)
    (f : row → value) : DataFrame :=
  mkDF (set_dtype c dt (columns df))
       (map (λ r, <[c := f r]> r) (rows df)).

(** The same when computing a cell can raise. *)
Definition assign_try (df : DataFrame) (c : string) (dt : dtype)
    (f : row → option value) : option DataFrame :=
  rs ← mapM (λ r, v ← f r; Some (<[c := v]> r)) (rows df);
  Some (mkDF (set_dtype c dt (columns df)) rs).

Definition set_cells (cs : list string) (v : value) (r : row) : row :=
  foldr (λ c r', <[c := v]> r') r cs.

(** [df.loc[mask, cs] = v] for columns that exist. *)
Definition loc_set (mask : row → bool) (cs : list string) (v : value)
    (df : DataFrame) : DataFrame :=
  mkDF (columns df)
       (map (λ r, if mask r then set_cells cs v r else r) (rows df)).

(** [df[mask]] *)
Definition select_rows (mask : row → bool) (df : DataFrame) : DataFrame :=
  mkDF (columns df) (List.filter mask (rows df)).

(** [df.rename(columns=d)].  A row is rebuilt from the cells of the
    columns in order; should two columns come to bear one name, the
    cell of the first is the one read under that name. *)
Fixpoint rename_of (d : list (string * string)) (c : string) : string :=
  match d with
  | [] => c
  | (k, v) :: d' => if String.eqb k c then v else rename_of d' c
  end.

Definition rebuild_row (cs : list string) (ren : string → string)
    (r : row) : row :=
  list_to_map (map (λ c, (ren c, cell r c)) cs).

Definition rename_columns (d : list (string * string)) (df : DataFrame) :
    DataFrame :=
  mkDF (map (λ cd, (rename_of d cd.1, cd.2)) (columns df))
       (map (rebuild_row (column_names df) (rename_of d)) (rows df)).

(** [df[cs]] for columns that exist. *)
Definition select_columns (cs : list string) (df : DataFrame) : DataFrame :=
  mkDF (omap (λ c, (c,.) <$> lookup_dtype c (columns df)) cs)
       (map (rebuild_row cs id) (rows df)).

(** [df.drop_duplicates(subset=[c])]: a row is dropped when an earlier
    row has the same cell in column [c]. *)
Fixpoint drop_seen (c : string) (seen : list value) (rs : list row) :
    list row :=
  match rs with
  | [] => []
  | r :: rs' =>
      if existsb (value_eqb (cell r c)) seen then drop_seen c seen rs'
      else r :: drop_seen c (cell r c :: seen) rs'
  end.

Definition drop_duplicates (c : string) (df : DataFrame) : DataFrame :=
  mkDF (columns df) (drop_seen c [] (rows df)).

(** [.astype(str)] of one cell. *)
Definition astype_str `{NumLib} (v : value) : string :=
  match v with
  | NaN => "nan"
  | Num q => num_repr q
  | Str s => s
  end.

(** The [.str] accessor: a cell that is not a string gives [NaN]. *)
Definition str_apply (f : string → string) (v : value) : value :=
  match v with
  | Str s => Str (f s)
  | _ => NaN
  end.

(** [.map(dict)]: keys that are not in the dict give [NaN]. *)
Fixpoint map_dict (d : list (value * value)) (v : value) : value :=
  match d with
  | [] => NaN
  | (k, x) :: d' => if value_eqb k v then x else map_dict d' v
  end.

(** *** Arithmetic on cells

    [None] is the [TypeError] that Python raises when a string meets
    a number.  A missing operand gives a missing result. *)

Definition vadd (a b : value) : option value :=
  match a, b with
  | Num x, Num y => Some (Num (x + y)%Q)
  | Str s, Str t => Some (Str (s +:+ t))
  | Str _, _ | _, Str _ => None
  | _, _ => Some NaN
  end.

Definition vsub (a b : value) : option value :=
  match a, b with
  | Num x, Num y => Some (Num (x - y)%Q)
  | Str _, _ | _, Str _ => None
  | _, _ => Some NaN
  end.

Definition vmul (a b : value) : option value :=
  match a, b with
  | Num x, Num y => Some (Num (x * y)%Q)
  | Str _, _ | _, Str _ => None
  | _, _ => Some NaN
  end.

(** Division of float columns does not raise: [0/0] is [NaN].  (A
    non-zero number over zero is an infinity in numpy; infinities are
    outside this model and are [NaN] here too.) *)
Definition vdiv (a b : value) : option value :=
  match a, b with
  | Num x, Num y => Some (if Qeq_bool y 0%Q then NaN else Num (x / y)%Q)
  | Str _, _ | _, Str _ => None
  | _, _ => Some NaN
  end.

Definition vabs (a : value) : option value :=
  match a with
  | Num x => Some (Num (Qabs x))
  | NaN => Some NaN
  | Str _ => None
  end.

(** The numbers of a column, missing cells skipped; [None] when the
    column holds a string. *)
Fixpoint numbers (l : list value) : option (list Q) :=
  match l with
  | [] => Some []
  | NaN :: l' => numbers l'
  | Num x :: l' => xs ← numbers l'; Some (x :: xs)
  | Str _ :: _ => None
  end.

Definition Qsum (xs : list Q) : Q := foldr Qplus 0%Q xs.

Definition Qmean (xs : list Q) : Q :=
  (Qsum xs / inject_Z (Z.of_nat (length xs)))%Q.

(** [Series.mean()]: missing cells are skipped, an empty column gives
    [NaN]. *)
Definition series_mean (l : list value) : option value :=
  xs ← numbers l;
  Some (match xs with [] => NaN | _ => Num (Qmean xs) end).

(** [Series.std()], the sample standard deviation (one degree of
    freedom lost): fewer than two numbers give [NaN]. *)
Definition series_std `{NumLib} (l : list value) : option value :=
  xs ← numbers l;
  Some (match xs with
        | [] | [_] => NaN
        | _ =>
            let m := Qmean xs in
            Num (float_sqrt
                   (Qsum (map (λ x, (x - m) * (x - m))%Q xs)
                    / inject_Z (Z.of_nat (length xs - 1)))%Q)
        end).

(** [v > 0], which is false for a missing [v]. *)
Definition gt_zero (v : value) : bool :=
  match v with
  | Num x => negb (Qle_bool x 0%Q)
  | _ => false
  end.

(** [.isin(vs)] *)
Definition isin (vs : list value) (v : value) : bool :=
  existsb (value_eqb v) vs.

(** [.astype(int)] of a boolean. *)
Definition of_bool (b : bool) : value := Num (if b then 1 else 0).

(** [.astype(float)] of one cell; [None] is the [ValueError] for a
    string that is not a number. *)
Definition astype_float `{NumLib} (v : value) : option value :=
  match v with
  | Str s => Num <$> float_of_str s
  | _ => Some v
  end.

(** [pd.Categorical(values, categories=cats)]: a value outside the
    categories becomes missing. *)
Definition keep_categories (cats : list value) (v : value) : value :=
  if isin cats v then v else NaN.

(** [v >= q], which is false for a missing [v]. *)
Definition ge_num (q : Q) (v : value) : bool :=
  match v with
  | Num x => Qle_bool q x
  | _ => false
  end.

(** [df[cs].fillna(0).sum(axis=1)] on one row. *)
Definition row_sum_fillna0 (cs : list string) (r : row) : option value :=
  foldr (λ c acc, a ← acc;
                  vadd (match cell r c with NaN => Num 0 | v => v end) a)
        (Some (Num 0)) cs.

Lemma cell_insert_eq (r : row) (c : string) (v : value) :
  cell (<[c := v]> r) c = v.
Proof. unfold cell. by rewrite lookup_insert_eq. Qed.

Lemma cell_insert_ne (r : row) (c c' : string) (v : value) :
  c ≠ c' → cell (<[c := v]> r) c' = cell r c'.
Proof. intros Hne. unfold cell. by rewrite lookup_insert_ne. Qed.


Lemma value_eqb_sym (a b : value) : value_eqb a b = value_eqb b a.
Proof.
  destruct a as [|x|s], b as [|y|t]; simpl; try done.
  - apply eq_true_iff_eq. rewrite !Qeq_bool_iff. split; intros ->; reflexivity.
  - apply String.eqb_sym.
Qed.

Lemma value_eqb_trans (a b c : value) :
  value_eqb a b = true → value_eqb b c = true → value_eqb a c = true.
Proof.
  destruct a as [|x|s], b as [|y|t], c as [|z|u]; simpl; try done.
  - rewrite !Qeq_bool_iff. intros -> ->. reflexivity.
  - rewrite !String.eqb_eq. congruence.
Qed.

(** Cells that are equal as keys look the same to every key
    comparison. *)
Lemma value_eqb_congr (a b c : value) :
  value_eqb a b = true → value_eqb a c = value_eqb b c.
Proof.
  intros Hab. apply eq_true_iff_eq. split; intros H.
  - rewrite value_eqb_sym in Hab. by eapply value_eqb_trans.
  - by eapply value_eqb_trans.
Qed.



Lemma existsb_value_eqb_congr (a b : value) (l : list value) :
  value_eqb a b = true →
  existsb (value_eqb a) l = existsb (value_eqb b) l.
Proof.
  intros Hab. induction l as [|x l IH]; [done|]. simpl.
  by rewrite IH, (value_eqb_congr a b x).
Qed.

Lemma filter_map_comm {A B : Type} (f : A → B) (p : B → bool) (l : list A) :
  List.filter p (map f l) = map f (List.filter (λ x, p (f x)) l).
Proof.
  induction l as [|x l IH]; [done|]. simpl.
  destruct (p (f x)); simpl; by rewrite IH.
Qed.

Lemma filter_filter_sub {A : Type} (p q : A → bool) (l : list A) :
  (∀ x, p x = true → q x = true) →
  List.filter p (List.filter q l) = List.filter p l.
Proof.
  intros Hpq. induction l as [|x l IH]; [done|]. simpl.
  destruct (q x) eqn:Hq; simpl.
  - by rewrite IH.
  - destruct (p x) eqn:Hp; [|done]. apply Hpq in Hp. congruence.
Qed.

(** *** Column lists *)

Lemma set_dtype_names (c : string) (dt : dtype) (cols : list (string * dtype)) :
  (set_dtype c dt cols).*1 =
    if bool_decide (c ∈ cols.*1) then cols.*1 else (cols.*1 ++ [c])%list.
Proof.
  unfold set_dtype. destruct (bool_decide (c ∈ cols.*1)).
  - induction cols as [|[c' d] cols IH]; [done|].
    rewrite !fmap_cons. f_equal; [|apply IH]. simpl.
    destruct (String.eqb c' c) eqn:E; [|done].
    apply String.eqb_eq in E. by subst.
  - by rewrite fmap_app.
Qed.

Lemma elem_of_names_assign (df : DataFrame) (c c' : string) (dt : dtype)
    (f : row → value) :
  c' ∈ column_names (assign df c dt f) ↔ c' = c ∨ c' ∈ column_names df.
Proof.
  unfold column_names, assign. simpl. rewrite set_dtype_names.
  destruct (bool_decide (c ∈ (columns df).*1)) eqn:E.
  - apply bool_decide_eq_true in E. split; [by right|]. by intros [->|].
  - rewrite elem_of_app, list_elem_of_singleton. tauto.
Qed.

Lemma has_column_true (df : DataFrame) (c : string) :
  has_column df c = true ↔ c ∈ column_names df.
Proof. unfold has_column. apply bool_decide_eq_true. Qed.

(** *** Rebuilt rows *)

Lemma cell_rebuild_row (cs : list string) (ren : string → string) (r : row)
    (k c : string) :
  c ∈ cs → ren c = k →
  (∀ c', c' ∈ cs → ren c' = k → cell r c' = cell r c) →
  cell (rebuild_row cs ren r) k = cell r c.
Proof.
  intros Hc Hk Hpre. unfold rebuild_row.
  induction cs as [|c0 cs IH]; [by apply elem_of_nil in Hc|].
  simpl. destruct (decide (ren c0 = k)) as [E|E].
  - rewrite E. unfold cell at 1. rewrite lookup_insert_eq. simpl.
    apply Hpre; [left|done].
  - unfold cell at 1. rewrite lookup_insert_ne by done.
    apply IH.
    + apply elem_of_cons in Hc as [->|Hc]; [congruence|done].
    + intros c' Hc'. apply Hpre. by right.
Qed.


Lemma elem_of_bool_filter {A : Type} (p : A → bool) (l : list A) (x : A) :
  x ∈ List.filter p l ↔ x ∈ l ∧ p x = true.
Proof. rewrite !list_elem_of_In. apply filter_In. Qed.

(** *** Dropping duplicates *)

(** A row that survives is a first occurrence of its key. *)
Lemma drop_seen_first (c : string) (seen : list value) (rs : list row) (r' : row) :
  r' ∈ drop_seen c seen rs →
  ∃ i, rs !! i = Some r' ∧
    existsb (value_eqb (cell r' c)) seen = false ∧
    ∀ j r2, (j < i)%nat → rs !! j = Some r2 →
      value_eqb (cell r2 c) (cell r' c) = false.
Proof.
  revert seen. induction rs as [|r rs IH]; intros seen Hin.
  { by apply elem_of_nil in Hin. }
  simpl in Hin. destruct (existsb (value_eqb (cell r c)) seen) eqn:Hseen.
  - destruct (IH _ Hin) as (i & Hi & Hns & Hearlier).
    exists (S i). split; [done|]. split; [done|].
    intros [|j] r2 Hj Hr2.
    + injection Hr2 as <-.
      destruct (value_eqb (cell r c) (cell r' c)) eqn:E; [|done].
      rewrite (existsb_value_eqb_congr _ _ _ E) in Hseen. congruence.
    + apply (Hearlier j); [lia|done].
  - apply elem_of_cons in Hin as [->|Hin].
    + exists 0%nat. split; [done|]. split; [done|]. intros j r2 Hj. lia.
    + destruct (IH _ Hin) as (i & Hi & Hns & Hearlier).
      simpl in Hns. apply orb_false_elim in Hns as [Hne Hns].
      exists (S i). split; [done|]. split; [done|].
      intros [|j] r2 Hj Hr2.
      * injection Hr2 as <-. by rewrite value_eqb_sym.
      * apply (Hearlier j); [lia|done].
Qed.




(** *** Column assignment *)

Lemma lookup_dtype_set_ne (c c' : string) (dt : dtype) (cols : list (string * dtype)) :
  c ≠ c' → lookup_dtype c' (set_dtype c dt cols) = lookup_dtype c' cols.
Proof.
  intros Hne. unfold set_dtype. destruct (bool_decide (c ∈ cols.*1)).
  - induction cols as [|[c0 d] cols IH]; [done|]. simpl.
    destruct (String.eqb c0 c) eqn:E; simpl.
    + apply String.eqb_eq in E. subst c0.
      destruct (String.eqb c c') eqn:E'; [by apply String.eqb_eq in E'|done].
    + by rewrite IH.
  - induction cols as [|[c0 d] cols IH]; simpl.
    + destruct (String.eqb c c') eqn:E'; [by apply String.eqb_eq in E'|done].
    + by rewrite IH.
Qed.


Lemma length_series (df : DataFrame) (c : string) :
  length (series df c) = nrows df.
Proof. unfold series, nrows. by rewrite length_map. Qed.

Lemma assign_try_Some (df df' : DataFrame) (c : string) (dt : dtype)
    (f : row → option value) :
  assign_try df c dt f = Some df' →
  columns df' = set_dtype c dt (columns df) ∧
  Forall2 (λ r r', ∃ v, f r = Some v ∧ r' = <[c := v]> r) (rows df) (rows df').
Proof.
  unfold assign_try. intros Hdf.
  destruct (mapM _ (rows df)) as [rs|] eqn:Hrs; [|done].
  injection Hdf as <-. split; [done|]. simpl.
  apply mapM_Some_1 in Hrs. eapply Forall2_impl; [exact Hrs|].
  intros r r' Hr. simpl in Hr. destruct (f r) as [v|]; [|done].
  injection Hr as <-. by exists v.
Qed.

Lemma assign_try_is_Some (df : DataFrame) (c : string) (dt : dtype)
    (f : row → option value) :
  (∀ r, r ∈ rows df → is_Some (f r)) → is_Some (assign_try df c dt f).
Proof.
  intros Hf. unfold assign_try.
  assert (Hm : is_Some (mapM (λ r, v ← f r; Some (<[c := v]> r)) (rows df))).
  { apply mapM_is_Some. apply Forall_forall. intros r Hr. simpl.
    destruct (Hf r Hr) as [v ->]. by eexists. }
  destruct Hm as [rs ->]. by eexists.
Qed.

(** What [df[c] = ...] leaves alone and what it writes. *)
Lemma assign_try_frame (df df' : DataFrame) (c : string) (dt : dtype)
    (f : row → option value) :
  assign_try df c dt f = Some df' →
  nrows df' = nrows df ∧
  (∀ c', c' ∈ column_names df' ↔ c' = c ∨ c' ∈ column_names df) ∧
  (∀ c', c' ≠ c → series df' c' = series df c' ∧ dtype_of df' c' = dtype_of df c') ∧
  Forall2 (λ r v', f r = Some v') (rows df) (series df' c).
Proof.
  intros Hdf. destruct (assign_try_Some _ _ _ _ _ Hdf) as [Hcols Hrows].
  split; [|split; [|split]].
  - unfold nrows. symmetry. by eapply Forall2_length.
  - intros c'. unfold column_names. rewrite Hcols, set_dtype_names.
    destruct (bool_decide (c ∈ (columns df).*1)) eqn:E.
    + apply bool_decide_eq_true in E. split; [by right|]. by intros [->|].
    + rewrite elem_of_app, list_elem_of_singleton. tauto.
  - intros c' Hne. split.
    + unfold series. apply list_eq. intros i. rewrite !list_lookup_fmap.
      destruct (rows df !! i) as [r|] eqn:Hr.
      * destruct (Forall2_lookup_l _ _ _ _ _ Hrows Hr) as (r' & -> & v & _ & ->).
        simpl. by rewrite cell_insert_ne.
      * apply lookup_ge_None in Hr. rewrite (Forall2_length _ _ _ Hrows) in Hr.
        apply lookup_ge_None in Hr. by rewrite Hr.
    + unfold dtype_of. rewrite Hcols. by apply lookup_dtype_set_ne.
  - unfold series. apply Forall2_fmap_r. eapply Forall2_impl; [exact Hrows|].
    intros r r' (v & Hv & ->). unfold compose. by rewrite cell_insert_eq.
Qed.

(** *** Operations that write some columns only *)

(** Column [c] is the same in [df'] as in [df]: it exists in both or
    in neither, and row by row its cells are equal. *)
Definition unchanged (c : string) (df df' : DataFrame) : Prop :=
  has_column df' c = has_column df c ∧
  ∀ i r r', rows df !! i = Some r → rows df' !! i = Some r' →
            cell r' c = cell r c.

(** [f] keeps the rows in place and writes no column outside [W]. *)
Definition writes_only (W : list string) (f : DataFrame → option DataFrame) :
    Prop :=
  ∀ df df', f df = Some df' →
    nrows df' = nrows df ∧ ∀ c, c ∉ W → unchanged c df df'.

Lemma unchanged_refl (c : string) (df : DataFrame) : unchanged c df df.
Proof. split; [done|]. intros i r r' Hr Hr'. congruence. Qed.

Lemma unchanged_trans (c : string) (df1 df2 df3 : DataFrame) :
  nrows df2 = nrows df1 →
  unchanged c df1 df2 → unchanged c df2 df3 → unchanged c df1 df3.
Proof.
  intros Hn [Hh1 Hc1] [Hh2 Hc2]. split; [congruence|].
  intros i r r' Hr Hr'.
  destruct (rows df2 !! i) as [r2|] eqn:Hr2.
  - rewrite (Hc2 i r2 r' Hr2 Hr'). by apply (Hc1 i).
  - apply lookup_ge_None in Hr2. apply lookup_lt_Some in Hr.
    unfold nrows in Hn. lia.
Qed.

Lemma writes_only_ret (W : list string) : writes_only W Some.
Proof. intros df df' [= <-]. split; [done|]. intros c _. apply unchanged_refl. Qed.

Lemma writes_only_bind (W : list string) (f g : DataFrame → option DataFrame) :
  writes_only W f → writes_only W g → writes_only W (λ df, f df ≫= g).
Proof.
  intros Hf Hg df df' Hfg.
  destruct (f df) as [df1|] eqn:H1; [|done]. simpl in Hfg.
  destruct (Hf _ _ H1) as [Hn1 Hu1]. destruct (Hg _ _ Hfg) as [Hn2 Hu2].
  split; [congruence|]. intros c Hc.
  eapply unchanged_trans; [done|by apply Hu1|by apply Hu2].
Qed.

(** A step that first computes something from the table (a mean, a
    list of available columns). *)
Lemma writes_only_let {A : Type} (W : list string) (a : DataFrame → option A)
    (g : A → DataFrame → option DataFrame) :
  (∀ x, writes_only W (g x)) → writes_only W (λ df, a df ≫= λ x, g x df).
Proof.
  intros Hg df df' Hdf. destruct (a df) as [x|]; [|done]. by apply (Hg x).
Qed.

Lemma writes_only_if (W : list string) (b : DataFrame → bool)
    (f g : DataFrame → option DataFrame) :
  writes_only W f → writes_only W g →
  writes_only W (λ df, if b df then f df else g df).
Proof. intros Hf Hg df df'. destruct (b df); [apply Hf|apply Hg]. Qed.

Lemma writes_only_assign_try (W : list string) (c : string) (dt : dtype)
    (f : DataFrame → row → option value) :
  c ∈ W → writes_only W (λ df, assign_try df c dt (f df)).
Proof.
  intros Hc df df' Hdf.
  pose proof (assign_try_frame _ _ _ _ _ Hdf) as (Hn & Hnames & _ & _).
  apply assign_try_Some in Hdf as [_ Hrows].
  split; [done|]. intros c' Hc'. assert (c' ≠ c) by congruence. split.
  - unfold has_column. apply bool_decide_ext. rewrite Hnames. tauto.
  - intros i r r' Hr Hr'.
    destruct (Forall2_lookup_l _ _ _ _ _ Hrows Hr) as (r'' & Hr'' & v & _ & ->).
    rewrite Hr' in Hr''. injection Hr'' as ->. by rewrite cell_insert_ne.
Qed.

Lemma writes_only_assign (W : list string) (c : string) (dt : dtype)
    (f : DataFrame → row → value) :
  c ∈ W → writes_only W (λ df, Some (assign df c dt (f df))).
Proof.
  intros Hc df df' [= <-]. split; [unfold nrows, assign; simpl; by rewrite length_map|].
  intros c' Hc'. assert (c' ≠ c) by congruence. split.
  - unfold has_column. apply bool_decide_ext. rewrite elem_of_names_assign. tauto.
  - intros i r r'. cbn [rows assign]. rewrite list_lookup_fmap.
    intros -> [= <-]. by rewrite cell_insert_ne.
Qed.

Lemma cell_set_cells_ne (cs : list string) (v : value) (r : row) (c : string) :
  c ∉ cs → cell (set_cells cs v r) c = cell r c.
Proof.
  induction cs as [|c0 cs IH]; [done|]. intros [Hne Hc]%not_elem_of_cons.
  cbn [set_cells foldr]. rewrite cell_insert_ne by done. by apply IH.
Qed.

Lemma cell_set_cells_eq (cs : list string) (v : value) (r : row) (c : string) :
  c ∈ cs → cell (set_cells cs v r) c = v.
Proof.
  induction cs as [|c0 cs IH]; [by intros ?%elem_of_nil|].
  cbn [set_cells foldr]. destruct (decide (c0 = c)) as [->|Hne].
  - intros _. by rewrite cell_insert_eq.
  - intros [?|Hc]%elem_of_cons; [congruence|].
    rewrite cell_insert_ne by done. by apply IH.
Qed.

Lemma writes_only_loc_set (W : list string) (mask : row → bool)
    (cs : list string) (v : value) :
  (∀ c, c ∈ cs → c ∈ W) → writes_only W (λ df, Some (loc_set mask cs v df)).
Proof.
  intros Hcs df df' [= <-]. split; [unfold nrows, loc_set; simpl; by rewrite length_map|].
  intros c' Hc'. split; [done|].
  intros i r r'. cbn [rows loc_set]. rewrite list_lookup_fmap.
  intros -> [= <-]. destruct (mask r); [|done].
  apply cell_set_cells_ne. intros Hin. by apply Hc', Hcs.
Qed.

Lemma writes_only_weaken (W W' : list string) (f : DataFrame → option DataFrame) :
  (∀ c, c ∈ W → c ∈ W') → writes_only W f → writes_only W' f.
Proof.
  intros Hsub Hf df df' Hdf. destruct (Hf _ _ Hdf) as [Hn Hu].
  split; [done|]. intros c Hc. apply Hu. intros Hin. by apply Hc, Hsub.
Qed.

(** A sequence of steps, each fed the table of the one before. *)
Fixpoint run (fs : list (DataFrame → option DataFrame)) (df : DataFrame) :
    option DataFrame :=
  match fs with
  | [] => Some df
  | f :: fs' => f df ≫= run fs'
  end.

Lemma run_app (fs1 fs2 : list (DataFrame → option DataFrame)) (df : DataFrame) :
  run (fs1 ++ fs2) df = run fs1 df ≫= run fs2.
Proof.
  revert df. induction fs1 as [|f fs1 IH]; intros df; [done|].
  simpl. destruct (f df) as [df1|]; [|done]. simpl. apply IH.
Qed.

Lemma run_split (fs1 : list (DataFrame → option DataFrame))
    (f : DataFrame → option DataFrame)
    (fs2 : list (DataFrame → option DataFrame)) (df df' : DataFrame) :
  run (fs1 ++ f :: fs2) df = Some df' →
  ∃ a b, run fs1 df = Some a ∧ f a = Some b ∧ run fs2 b = Some df'.
Proof.
  rewrite run_app. destruct (run fs1 df) as [a|]; [|done]. simpl.
  destruct (f a) as [b|] eqn:Hf; [|done]. simpl. intros Hrun.
  by exists a, b.
Qed.

Lemma run_writes_only (W : list string)
    (fs : list (DataFrame → option DataFrame)) :
  Forall (writes_only W) fs → writes_only W (run fs).
Proof.
  induction 1 as [|f fs Hf _ IH]; [apply writes_only_ret|].
  by apply (writes_only_bind W f (run fs)).
Qed.

Lemma aligned_row (df df' : DataFrame) (i : nat) (r : row) :
  nrows df' = nrows df → rows df !! i = Some r → ∃ r', rows df' !! i = Some r'.
Proof.
  intros Hn Hr. apply lookup_lt_is_Some. apply lookup_lt_Some in Hr.
  unfold nrows in Hn. lia.
Qed.

(** *** Bounds on means *)

(** A cell that is missing or a number between two bounds. *)
Definition in_range (lo hi : Q) (v : value) : Prop :=
  match v with
  | Num q => (lo <= q <= hi)%Q
  | NaN => True
  | Str _ => False
  end.

Lemma Qsum_bounds (lo hi : Q) (xs : list Q) :
  (∀ x, x ∈ xs → (lo <= x <= hi)%Q) →
  (inject_Z (Z.of_nat (length xs)) * lo <= Qsum xs <=
   inject_Z (Z.of_nat (length xs)) * hi)%Q.
Proof.
  induction xs as [|x xs IH]; intros Hxs.
  - cbn [length Qsum foldr]. change (inject_Z (Z.of_nat 0)) with 0%Q. lra.
  - destruct IH as [IH1 IH2]; [intros y Hy; apply Hxs; by right|].
    destruct (Hxs x) as [Hx1 Hx2]; [left|].
    cbn [length Qsum foldr]. fold (Qsum xs).
    rewrite Nat2Z.inj_succ. unfold Z.succ. rewrite inject_Z_plus.
    change (inject_Z 1) with 1%Q. lra.
Qed.

Lemma Qmean_bounds (lo hi : Q) (xs : list Q) :
  xs ≠ [] → (∀ x, x ∈ xs → (lo <= x <= hi)%Q) →
  (lo <= Qmean xs <= hi)%Q.
Proof.
  intros Hne Hxs. destruct (Qsum_bounds lo hi xs Hxs) as [H1 H2].
  assert (Hpos : (0 < inject_Z (Z.of_nat (length xs)))%Q).
  { destruct xs; [done|]. unfold Qlt. simpl. lia. }
  unfold Qmean. split.
  - apply Qle_shift_div_l; [done|]. lra.
  - apply Qle_shift_div_r; [done|]. lra.
Qed.

Lemma numbers_in_range (lo hi : Q) (l : list value) (xs : list Q) :
  (∀ v, v ∈ l → in_range lo hi v) → numbers l = Some xs →
  ∀ x, x ∈ xs → (lo <= x <= hi)%Q.
Proof.
  revert xs. induction l as [|v l IH]; intros xs Hl Hn.
  { injection Hn as <-. by intros x ?%elem_of_nil. }
  assert (Hl' : ∀ v, v ∈ l → in_range lo hi v) by (intros w Hw; apply Hl; by right).
  destruct v as [|q|s]; simpl in Hn; [by apply IH| |done].
  destruct (numbers l) as [ys|]; [|done]. injection Hn as <-.
  intros x Hx. apply elem_of_cons in Hx as [Hx|Hx]; [|by apply (IH ys)].
  subst x. apply (Hl (Num q)). left.
Qed.

Lemma series_mean_in_range (lo hi : Q) (l : list value) (m : value) :
  (∀ v, v ∈ l → in_range lo hi v) → series_mean l = Some m →
  in_range lo hi m.
Proof.
  intros Hl. unfold series_mean.
  destruct (numbers l) as [xs|] eqn:Hn; [|done]. simpl. intros [= <-].
  destruct xs as [|x xs]; [done|]. simpl.
  apply Qmean_bounds; [done|]. by eapply numbers_in_range.
Qed.

Definition is_str (v : value) : bool :=
  match v with Str _ => true | _ => false end.

Lemma numbers_no_str (l : list value) (v : value) :
  is_Some (numbers l) → v ∈ l → is_str v = false.
Proof.
  induction l as [|x l IH]; intros Hl Hv; [by apply elem_of_nil in Hv|].
  apply elem_of_cons in Hv as [->|Hv].
  - destruct x; try done. simpl in Hl. by destruct Hl.
  - apply IH; [|done]. destruct x as [|q|]; simpl in Hl; [done| |by destruct Hl].
    destruct (numbers l); [by eexists|by destruct Hl].
Qed.

Lemma assign_try_is_Some_iff (df : DataFrame) (c : string) (dt : dtype)
    (f : row → option value) :
  is_Some (assign_try df c dt f) ↔ ∀ r, r ∈ rows df → is_Some (f r).
Proof.
  split; [|apply assign_try_is_Some].
  intros [df' Hdf] r Hr. apply assign_try_Some in Hdf as [_ Hrows].
  apply list_elem_of_lookup in Hr as [i Hi].
  destruct (Forall2_lookup_l _ _ _ _ _ Hrows Hi) as (r' & _ & v & Hv & _).
  by exists v.
Qed.

Lemma numbers_is_Some (l : list value) :
  is_Some (numbers l) ↔ ∀ v, v ∈ l → is_str v = false.
Proof.
  induction l as [|v l IH].
  - split; [by intros _ v ?%elem_of_nil|by eexists].
  - split.
    + intros Hl w Hw. by eapply numbers_no_str.
    + intros Hl. assert (Hv : is_str v = false) by (apply Hl; left).
      destruct IH as [_ IH]. destruct IH as [xs Hxs].
      { intros w Hw. apply Hl. by right. }
      destruct v; simpl in *; [by eexists| |done].
      rewrite Hxs. by eexists.
Qed.

Lemma series_mean_is_Some (l : list value) :
  is_Some (series_mean l) ↔ ∀ v, v ∈ l → is_str v = false.
Proof.
  rewrite <- numbers_is_Some. unfold series_mean.
  destruct (numbers l); split; intros [? ?]; try done; by eexists.
Qed.

Lemma series_mean_not_str (l : list value) (m : value) :
  series_mean l = Some m → is_str m = false.
Proof.
  unfold series_mean. destruct (numbers l) as [xs|]; [|done].
  simpl. intros [= <-]. by destruct xs.
Qed.

(** Reading cells of rows built with [<[c := v]>]. *)
Ltac cells :=
  repeat first [ rewrite cell_insert_eq
               | rewrite cell_insert_ne by done
               | progress cbn [isna notna negb str_apply] ].

(** A library instance for running the definitions on examples:
    whole numbers print as Python prints whole floats, the square
    root is taken to six decimals, and only unsigned whole numbers
    are parsed. *)
Definition whole_repr (q : Q) : string := pretty (Qfloor q) +:+ ".0".

Definition sqrt_6dp (q : Q) : Q :=
  Z.sqrt (Qfloor (q * 1000000000000)) # 1000000.

Fixpoint digits_value (acc : Z) (s : string) : option Z :=
  match s with
  | EmptyString => Some acc
  | String c s' =>
      if PyStr.is_digit c
      then digits_value (10 * acc + (Z.of_nat (nat_of_ascii c) - 48))%Z s'
      else None
  end.

Definition parse_whole (s : string) : option Q :=
  match s with
  | EmptyString => None
  | _ => inject_Z <$> digits_value 0 s
  end.

Definition reference_numlib : NumLib :=
  {| num_repr := whole_repr; float_sqrt := sqrt_6dp;
     float_of_str := parse_whole |}.

End Pandas.

(** ** transform.py *)

Module Transform.
Import PyStr Pandas.

Section GeoIds.
Context `{NumLib}.

(** The chain [.astype(str).str.replace(r"\.0$", "").str.zfill(8)]
    on one cell. *)
Definition buurt_code_text (raw : value) : string :=
  zfill 8 (sub_dot0_end (astype_str raw)).

(** [create_geo_ids]; [None] is the [KeyError] of a survey without
    a [Buurtcode] column. *)
Definition create_geo_ids (survey : DataFrame) : option DataFrame :=
  if has_column survey "Buurtcode" then
    let df := survey in
    let df := assign df "buurt_id" object
                (λ r, Str (buurt_code_text (cell r "Buurtcode"))) in
    let df := loc_set (λ r, isna (cell r "Buurtcode")) ["buurt_id"] NaN df in
    let df := assign df "wijk_id" object
                (λ r, str_apply (slice_to 6) (cell r "buurt_id")) in
    let df := assign df "gemeente_id" object
                (λ r, str_apply (slice_to 4) (cell r "buurt_id")) in
    let df := loc_set (λ r, isna (cell r "buurt_id"))
                ["wijk_id"; "gemeente_id"] NaN df in
    Some df
  else None.





Definition scenario_1 : DataFrame :=
  mkDF [("Buurtcode", object)] [{["Buurtcode" := Str "3630100"]}].


(** Whole floats, as a numeric [Buurtcode] column holds them: the
    [".0"] of their printed form is what the pattern removes. *)
Lemma create_geo_ids_whole_float (z : Z) :
  num_repr (inject_Z z) = pretty z +:+ ".0" →
  plain_code (pretty z) = true →
  buurt_code_text (Num (inject_Z z)) = left_pad_zeros 8 (pretty z).
Proof.
  intros Hrepr Hp. unfold buurt_code_text. cbn [astype_str].
  rewrite Hrepr.
  assert (Hstrip : ∀ t, plain_code t = true →
            sub_dot0_end (t +:+ ".0") = t).
  { clear. induction t as [|c t IH]; [done|]. intros Hp.
    rewrite app_cons. unfold sub_dot0_end; fold sub_dot0_end.
    simpl in Hp. apply andb_prop in Hp as [_ Hp].
    rewrite IH by done.
    destruct (String.eqb (String c (t +:+ ".0")) ".0") eqn:EA.
    { apply String.eqb_eq in EA. apply (f_equal String.length) in EA.
      cbn [String.length] in EA. rewrite length_app in EA.
      cbn [String.length] in EA. lia. }
    destruct (String.eqb (String c (t +:+ ".0")) (".0" +:+ newline)) eqn:EB;
      [|done].
    apply String.eqb_eq in EB. pose proof (f_equal String.length EB) as HL.
    cbn [String.length] in HL. rewrite length_app in HL.
    cbn [String.length] in HL.
    destruct t; [|simpl in HL; lia]. by vm_compute in EB. }
  rewrite Hstrip by done. by apply zfill_plain.
Qed.

End GeoIds.

Section AdminLevels.
Context `{NumLib}.

(** The column holding the region code: the first of the accepted
    names that the table has. *)
Definition find_region_col (admin : DataFrame) : option string :=
  head (List.filter (has_column admin)
          ["region_code"; "Codering_3"; "WijkenEnBuurten"]).

Definition region_type_dict : list (value * value) :=
  [(Str "BU", Str "Buurt"); (Str "WK", Str "Wijk"); (Str "GM", Str "Gemeente")].

Definition col_rename : list (string * string) :=
  [("AantalInwoners_5", "pop_total");
   ("k_65JaarOfOuder_12", "pop_over_65");
   ("WestersTotaal_17", "pop_west");
   ("NietWestersTotaal_18", "pop_nonwest");
   ("Bevolkingsdichtheid_33", "pop_dens");
   ("GemiddeldeWoningwaarde_35", "avg_home_value");
   ("GemiddeldInkomenPerInkomensontvanger_68", "avg_inc_recip");
   ("GemiddeldInkomenPerInwoner_69", "avg_inc_pers");
   ("k_40PersonenMetLaagsteInkomen_70", "perc_low40_pers");
   ("k_20PersonenMetHoogsteInkomen_71", "perc_high20_pers");
   ("k_40HuishoudensMetLaagsteInkomen_73", "perc_low40_hh");
   ("k_20HuishoudensMetHoogsteInkomen_74", "perc_high20_hh");
   ("HuishoudensMetEenLaagInkomen_75", "perc_low_inc_hh");
   ("HuishoudensTot110VanSociaalMinimum_77", "perc_soc_min_hh")].

Definition indicator_vars : list string :=
  ["pop_total"; "pop_over_65"; "pop_west"; "pop_nonwest"; "pop_dens";
   "avg_home_value"; "avg_inc_recip"; "avg_inc_pers";
   "perc_low40_pers"; "perc_high20_pers"; "perc_low40_hh"; "perc_high20_hh";
   "perc_low_inc_hh"; "perc_soc_min_hh"].

(** The first part of [prepare_admin_by_level]: the three region
    columns, then the CBS names replaced by the standard ones. *)
Definition add_region_columns (region_col : string) (admin : DataFrame) :
    DataFrame :=
  let admin := assign admin "region_code_clean" object
                 (λ r, Str (strip (astype_str (cell r region_col)))) in
  let admin := assign admin "region_type" object
                 (λ r, map_dict region_type_dict
                         (str_apply (slice_to 2) (cell r "region_code_clean"))) in
  assign admin "region_id" object
    (λ r, str_apply strip
            (str_apply (slice_from 2) (cell r "region_code_clean"))).

Definition standard_names (admin : DataFrame) : DataFrame :=
  rename_columns (List.filter (λ kv, has_column admin kv.1) col_rename) admin.

Definition with_region_columns (region_col : string) (admin : DataFrame) :
    DataFrame :=
  standard_names (add_region_columns region_col admin).

(** The body of the loop over the levels. *)
Definition level_table (admin : DataFrame) (available_indicators : list string)
    (level prefix : string) (id_length : nat) : DataFrame :=
  let level_data :=
    select_rows (λ r, value_eqb (cell r "region_type") (Str level)) admin in
  if Nat.eqb (nrows level_data) 0 then empty_frame
  else
    let id_col := lower level +:+ "_id" in
    let level_data := assign level_data id_col object
                        (λ r, str_apply (zfill id_length) (cell r "region_id")) in
    let rename_dict :=
      map (λ var, (var, prefix +:+ var))
          (List.filter (has_column level_data) available_indicators) in
    let level_data := rename_columns rename_dict level_data in
    let level_data := select_columns (id_col :: rename_dict.*2) level_data in
    drop_duplicates id_col level_data.

Definition levels : list (string * string * nat) :=
  [("Buurt", "b_", 8); ("Wijk", "w_", 6); ("Gemeente", "g_", 4)].

(** [prepare_admin_by_level]; [None] is the [ValueError] raised when no
    region-code column is found. *)
Definition prepare_admin_by_level (admin : DataFrame) :
    option (gmap string DataFrame) :=
  region_col ← find_region_col admin;
  let admin := with_region_columns region_col admin in
  let available_indicators := List.filter (has_column admin) indicator_vars in
  Some (foldl (λ result '(level, prefix, id_length),
                 <[lower level :=
                     level_table admin available_indicators level prefix id_length]>
                   result)
              ∅ levels).

(** *** What the level tables hold *)


















(** The three levels with the prefix of their codes. *)
Definition level_codes : list (string * string * string * string * nat) :=
  [("Buurt", "buurt", "BU", "b_", 8);
   ("Wijk", "wijk", "WK", "w_", 6);
   ("Gemeente", "gemeente", "GM", "g_", 4)].





Lemma level_codes_inv (level key code prefix : string) (w : nat) :
  (level, key, code, prefix, w) ∈ level_codes →
  key = lower level ∧ (level, prefix, w) ∈ levels.
Proof.
  intros Hin.
  repeat (apply elem_of_cons in Hin as [[= -> -> -> -> ->]|Hin];
          [split; [done|set_solver]|]).
  by apply elem_of_nil in Hin.
Qed.

Lemma tables_lookup (f : string → string → nat → DataFrame)
    (level key code prefix : string) (w : nat) :
  (level, key, code, prefix, w) ∈ level_codes →
  foldl (λ result '(level, prefix, id_length),
           <[lower level := f level prefix id_length]> result)
        (∅ : gmap string DataFrame) levels !! key = Some (f level prefix w).
Proof.
  intros Hin. cbn [foldl levels].
  change (lower "Buurt") with "buurt".
  change (lower "Wijk") with "wijk".
  change (lower "Gemeente") with "gemeente".
  repeat (apply elem_of_cons in Hin as [[= -> -> -> -> ->]|Hin];
          [by simplify_map_eq|]).
  by apply elem_of_nil in Hin.
Qed.





End AdminLevels.

Section Standardize.
Context `{NumLib}.

Definition is_numeric_dtype (d : option dtype) : bool :=
  match d with
  | Some float64 | Some int64 => true
  | _ => false
  end.

(** [(v - mean_val) / std_val] on one cell. *)
Definition zscore (mean_val std_val v : value) : option value :=
  d ← vsub v mean_val; vdiv d std_val.

(** The body of the innermost [if] of the loop. *)
Definition standardize_column (df : DataFrame) (col : string) :
    option DataFrame :=
  mean_val ← series_mean (series df col);
  std_val ← series_std (series df col);
  if gt_zero std_val
  then assign_try df col float64 (λ r, zscore mean_val std_val (cell r col))
  else Some df.

Definition has_prefix (prefixes : list string) (col : string) : bool :=
  existsb (λ p, startswith p col) prefixes.

(** One turn of the loop over [df.columns]. *)
Definition standardize_step (prefixes : list string)
    (odf : option DataFrame) (col : string) : option DataFrame :=
  df ← odf;
  if has_prefix prefixes col then
    if is_numeric_dtype (dtype_of df col) then standardize_column df col
    else Some df
  else Some df.

Definition default_prefixes : list string := ["b_"; "w_"; "g_"].

(** [standardize_context_vars] *)
Definition standardize_context_vars (data : DataFrame)
    (prefixes : list string) : option DataFrame :=
  foldl (standardize_step prefixes) (Some data) (column_names data).










Lemma zscore_is_Some (m s v : value) :
  is_str m = false → is_str s = false → is_str v = false →
  is_Some (zscore m s v).
Proof.
  unfold zscore. destruct m, s, v; simpl; try done; intros _ _ _; by eexists.
Qed.





End Standardize.

Section Recode.
Context `{NumLib}.

(** [config.SURVEY_YEAR] *)
Definition SURVEY_YEAR : Q := 2017.

Definition dv_vars : list string := ["gov_int"; "red_inc_diff"; "union_pref"].

(** [df.loc[df[var] == 8, var] = np.nan], under [if var in df.columns]. *)
Definition refused_to_nan (var : string) (df : DataFrame) : option DataFrame :=
  if has_column df var
  then Some (loc_set (λ r, value_eqb (cell r var) (Num 8)) [var] NaN df)
  else Some df.

(** [(v - 1) / 6 * 100] on one cell. *)
Definition rescale (v : value) : option value :=
  d ← vsub v (Num 1); q ← vdiv d (Num 6); vmul q (Num 100).

(** [df[cs].mean(axis=1)] on one row. *)
Definition row_mean (cs : list string) (r : row) : option value :=
  series_mean (map (cell r) cs).

Definition dv_single (df : DataFrame) : option DataFrame :=
  if has_column df "red_inc_diff"
  then assign_try df "DV_single" float64 (λ r, rescale (cell r "red_inc_diff"))
  else Some df.

Definition dv_2item (df : DataFrame) : option DataFrame :=
  if has_column df "gov_int" && has_column df "red_inc_diff" then
    df ← assign_try df "DV_2item" float64
           (row_mean ["gov_int"; "red_inc_diff"]);
    assign_try df "DV_2item_scaled" float64 (λ r, rescale (cell r "DV_2item"))
  else Some df.

Definition dv_3item (df : DataFrame) : option DataFrame :=
  if forallb (has_column df) dv_vars then
    df ← assign_try df "DV_3item" float64 (row_mean dv_vars);
    assign_try df "DV_3item_scaled" float64 (λ r, rescale (cell r "DV_3item"))
  else Some df.

(** The section "Dependent Variables". *)
Definition recode_dvs (df : DataFrame) : option DataFrame :=
  df ← foldl (λ odf var, odf ≫= refused_to_nan var) (Some df) dv_vars;
  df ← dv_single df;
  df ← dv_2item df;
  dv_3item df.

Definition sex_map : list (value * value) :=
  [(Num 1, Str "Male"); (Num 2, Str "Female"); (Num 3, Str "Other")].

Definition recode_sex (df : DataFrame) : option DataFrame :=
  if has_column df "sex" then
    let df := assign df "sex" object (λ r, map_dict sex_map (cell r "sex")) in
    Some (assign df "sex" category
            (λ r, keep_categories [Str "Male"; Str "Female"; Str "Other"]
                    (cell r "sex")))
  else Some df.

(** [(df[c] - df[c].mean()) / df[c].std()], written to column [target]. *)
Definition standardized_into (target c : string) (df : DataFrame) :
    option DataFrame :=
  mean_val ← series_mean (series df c);
  std_val ← series_std (series df c);
  assign_try df target float64 (λ r, zscore mean_val std_val (cell r c)).

Definition recode_age (df : DataFrame) : option DataFrame :=
  if has_column df "birth_year" then
    df ← assign_try df "age_raw" float64
           (λ r, vsub (Num SURVEY_YEAR) (cell r "birth_year"));
    standardized_into "age" "age_raw" df
  else Some df.

Definition recode_education (df : DataFrame) : option DataFrame :=
  if has_column df "educyrs" then standardized_into "education" "educyrs" df
  else Some df.

(** The section "Demographics". *)
Definition recode_demographics (df : DataFrame) : option DataFrame :=
  df ← recode_sex df;
  df ← recode_age df;
  recode_education df.

Definition employment_map : list (value * value) :=
  [(Num 1, Str "Employed"); (Num 2, Str "Self-employed");
   (Num 3, Str "Unemployed"); (Num 4, Str "Student"); (Num 5, Str "Retired");
   (Num 6, Str "Homemaker"); (Num 7, Str "Disabled"); (Num 8, Str "Other")].

Definition occupation_map : list (value * value) :=
  [(Num 1, Str "Modern professional"); (Num 2, Str "Clerical");
   (Num 3, Str "Senior manager"); (Num 4, Str "Technical");
   (Num 5, Str "Semi-routine manual"); (Num 6, Str "Routine manual");
   (Num 7, Str "Middle manager"); (Num 8, Str "Traditional professional")].

(** [df[target] = df[c].map(d)] then [df[target] = pd.Categorical(df[target])]. *)
Definition mapped_into (target c : string) (d : list (value * value))
    (df : DataFrame) : option DataFrame :=
  if has_column df c then
    let df := assign df target object (λ r, map_dict d (cell r c)) in
    Some (assign df target category (λ r, cell r target))
  else Some df.

(** The section "Employment". *)
Definition recode_employment (df : DataFrame) : option DataFrame :=
  df ← mapped_into "employment_status" "work_status" employment_map df;
  mapped_into "occupation" "work_type" occupation_map df.

(** The section "Migration background". *)
Definition recode_migration (df : DataFrame) : option DataFrame :=
  if has_column df "born_in_nl"
  then assign_try df "born_in_nl" float64 (λ r, astype_float (cell r "born_in_nl"))
  else Some df.

Definition wealth_vars : list string :=
  ["owns_home"; "owns_property"; "has_savings"; "owns_stocks"].

Definition recode_wealth (df : DataFrame) : option DataFrame :=
  let available_wealth_vars := List.filter (has_column df) wealth_vars in
  match available_wealth_vars with
  | [] => Some df
  | _ =>
      df ← assign_try df "wealth_index" float64
             (row_sum_fillna0 available_wealth_vars);
      Some (assign df "high_wealth" int64
              (λ r, of_bool (ge_num 2 (cell r "wealth_index"))))
  end.

Definition higher_class_codes : list value := [Num 1; Num 3; Num 7; Num 8].

Definition class_rank_map : list (value * value) :=
  [(Num 3, Num 1); (Num 8, Num 2); (Num 1, Num 3); (Num 7, Num 4);
   (Num 4, Num 5); (Num 2, Num 6); (Num 5, Num 7); (Num 6, Num 8)].

Definition recode_class (df : DataFrame) : option DataFrame :=
  if has_column df "occupation_class" then
    let df := assign df "professional_class" int64
                (λ r, of_bool (isin higher_class_codes (cell r "occupation_class"))) in
    Some (assign df "occupation_rank" float64
            (λ r, map_dict class_rank_map (cell r "occupation_class")))
  else Some df.

(** Everything after the dependent variables. *)
Definition recode_rest (df : DataFrame) : option DataFrame :=
  df ← recode_demographics df;
  df ← recode_employment df;
  df ← recode_migration df;
  df ← recode_wealth df;
  recode_class df.

(** [recode_survey_variables] *)
Definition recode_survey_variables (data : DataFrame) : option DataFrame :=
  df ← recode_dvs data;
  recode_rest df.

(** *** Which columns each step writes *)

Lemma refused_to_nan_writes (var : string) :
  writes_only [var] (refused_to_nan var).
Proof.
  unfold refused_to_nan.
  apply (writes_only_if _ (λ df, has_column df var)
           (λ df, Some (loc_set _ [var] NaN df)) Some).
  - by apply writes_only_loc_set.
  - apply writes_only_ret.
Qed.

Lemma dv_single_writes : writes_only ["DV_single"] dv_single.
Proof.
  unfold dv_single.
  apply (writes_only_if _ (λ df, has_column df "red_inc_diff")
           (λ df, assign_try df "DV_single" float64 _) Some).
  - apply (writes_only_assign_try _ _ _ (λ _ r, rescale (cell r "red_inc_diff"))).
    left.
  - apply writes_only_ret.
Qed.

Lemma scaled_pair_writes (raw scaled : string) (f : row → option value)
    (b : DataFrame → bool) :
  writes_only [raw; scaled]
    (λ df, if b df then
             df ← assign_try df raw float64 f;
             assign_try df scaled float64 (λ r, rescale (cell r raw))
           else Some df).
Proof.
  apply (writes_only_if _ b
           (λ df, assign_try df raw float64 f ≫=
                  λ df, assign_try df scaled float64 (λ r, rescale (cell r raw)))
           Some).
  - apply (writes_only_bind _ (λ df, assign_try df raw float64 f)).
    + apply (writes_only_assign_try _ _ _ (λ _, f)). left.
    + apply (writes_only_assign_try _ _ _ (λ _ r, rescale (cell r raw))).
      right. left.
  - apply writes_only_ret.
Qed.

Lemma dv_2item_writes : writes_only ["DV_2item"; "DV_2item_scaled"] dv_2item.
Proof. apply scaled_pair_writes. Qed.

Lemma dv_3item_writes : writes_only ["DV_3item"; "DV_3item_scaled"] dv_3item.
Proof. apply scaled_pair_writes. Qed.

(** The columns written after the dependent variables. *)
Definition rest_columns : list string :=
  ["sex"; "age_raw"; "age"; "education"; "employment_status"; "occupation";
   "born_in_nl"; "wealth_index"; "high_wealth"; "professional_class";
   "occupation_rank"].

Lemma standardized_into_writes (W : list string) (target c : string) :
  target ∈ W → writes_only W (standardized_into target c).
Proof.
  intros Ht. unfold standardized_into.
  apply (writes_only_let W (λ df, series_mean (series df c))
           (λ mean_val df, std_val ← series_std (series df c);
                           assign_try df target float64
                             (λ r, zscore mean_val std_val (cell r c)))).
  intros mean_val.
  apply (writes_only_let W (λ df, series_std (series df c))
           (λ std_val df, assign_try df target float64
                            (λ r, zscore mean_val std_val (cell r c)))).
  intros std_val.
  by apply (writes_only_assign_try W target float64
              (λ _ r, zscore mean_val std_val (cell r c))).
Qed.

Lemma mapped_into_writes (W : list string) (target c : string)
    (d : list (value * value)) :
  target ∈ W → writes_only W (mapped_into target c d).
Proof.
  intros Ht. unfold mapped_into.
  apply (writes_only_if W (λ df, has_column df c)
           (λ df, Some (assign (assign df target object
                                  (λ r, map_dict d (cell r c)))
                          target category (λ r, cell r target)))
           Some); [|apply writes_only_ret].
  apply (writes_only_bind W
           (λ df, Some (assign df target object (λ r, map_dict d (cell r c))))
           (λ df, Some (assign df target category (λ r, cell r target)))).
  - by apply (writes_only_assign W target object (λ _ r, map_dict d (cell r c))).
  - by apply (writes_only_assign W target category (λ _ r, cell r target)).
Qed.

Lemma recode_sex_writes (W : list string) :
  "sex" ∈ W → writes_only W recode_sex.
Proof.
  intros Hin. unfold recode_sex.
  apply (writes_only_if _ (λ df, has_column df "sex")
           (λ df, Some (assign (assign df "sex" object
                                  (λ r, map_dict sex_map (cell r "sex")))
                          "sex" category
                          (λ r, keep_categories _ (cell r "sex"))))
           Some); [|apply writes_only_ret].
  apply (writes_only_bind _
           (λ df, Some (assign df "sex" object
                          (λ r, map_dict sex_map (cell r "sex"))))
           (λ df, Some (assign df "sex" category
                          (λ r, keep_categories _ (cell r "sex"))))).
  - by apply (writes_only_assign _ "sex" object
                (λ _ r, map_dict sex_map (cell r "sex"))).
  - by apply (writes_only_assign _ "sex" category
                (λ _ r, keep_categories _ (cell r "sex"))).
Qed.

Lemma recode_age_writes (W : list string) :
  "age_raw" ∈ W → "age" ∈ W → writes_only W recode_age.
Proof.
  intros Hraw Hage. unfold recode_age.
  apply (writes_only_if _ (λ df, has_column df "birth_year")
           (λ df, assign_try df "age_raw" float64 _ ≫=
                  standardized_into "age" "age_raw")
           Some); [|apply writes_only_ret].
  apply (writes_only_bind _ (λ df, assign_try df "age_raw" float64 _)).
  - by apply (writes_only_assign_try _ _ _
                (λ _ r, vsub (Num SURVEY_YEAR) (cell r "birth_year"))).
  - by apply standardized_into_writes.
Qed.

Lemma recode_education_writes (W : list string) :
  "education" ∈ W → writes_only W recode_education.
Proof.
  intros Hin. unfold recode_education.
  apply (writes_only_if _ (λ df, has_column df "educyrs")
           (standardized_into "education" "educyrs") Some);
    [|apply writes_only_ret].
  by apply standardized_into_writes.
Qed.

Lemma recode_migration_writes (W : list string) :
  "born_in_nl" ∈ W → writes_only W recode_migration.
Proof.
  intros Hin. unfold recode_migration.
  apply (writes_only_if _ (λ df, has_column df "born_in_nl")
           (λ df, assign_try df "born_in_nl" float64 _) Some);
    [|apply writes_only_ret].
  by apply (writes_only_assign_try _ _ _
              (λ _ r, astype_float (cell r "born_in_nl"))).
Qed.

Lemma recode_wealth_writes (W : list string) :
  "wealth_index" ∈ W → "high_wealth" ∈ W → writes_only W recode_wealth.
Proof.
  intros Hwi Hhw df df' Hdf. unfold recode_wealth in Hdf.
  destruct (List.filter (has_column df) wealth_vars) as [|w ws] eqn:Hw.
  { by apply writes_only_ret. }
  apply (writes_only_bind W
           (λ df, assign_try df "wealth_index" float64
                    (row_sum_fillna0 (w :: ws)))
           (λ df, Some (assign df "high_wealth" int64
                          (λ r, of_bool (ge_num 2 (cell r "wealth_index")))))).
  - by apply (writes_only_assign_try _ _ _ (λ _, row_sum_fillna0 (w :: ws))).
  - by apply (writes_only_assign _ _ _
                (λ _ r, of_bool (ge_num 2 (cell r "wealth_index")))).
  - exact Hdf.
Qed.

Lemma recode_class_writes (W : list string) :
  "professional_class" ∈ W → "occupation_rank" ∈ W →
  writes_only W recode_class.
Proof.
  intros Hpc Hor. unfold recode_class.
  apply (writes_only_if _ (λ df, has_column df "occupation_class")
           (λ df, Some (assign (assign df "professional_class" int64 _)
                          "occupation_rank" float64 _))
           Some); [|apply writes_only_ret].
  apply (writes_only_bind _
           (λ df, Some (assign df "professional_class" int64
                          (λ r, of_bool (isin higher_class_codes
                                           (cell r "occupation_class")))))
           (λ df, Some (assign df "occupation_rank" float64
                          (λ r, map_dict class_rank_map
                                  (cell r "occupation_class"))))).
  - by apply (writes_only_assign _ _ _
                (λ _ r, of_bool (isin higher_class_codes
                                   (cell r "occupation_class")))).
  - by apply (writes_only_assign _ _ _
                (λ _ r, map_dict class_rank_map (cell r "occupation_class"))).
Qed.

(** The steps after the dependent variables, in order. *)
Definition rest_steps : list (DataFrame → option DataFrame) :=
  [recode_sex; recode_age; recode_education;
   mapped_into "employment_status" "work_status" employment_map;
   mapped_into "occupation" "work_type" occupation_map;
   recode_migration; recode_wealth; recode_class].

Lemma recode_rest_run (df : DataFrame) : recode_rest df = run rest_steps df.
Proof.
  unfold recode_rest, recode_demographics, recode_employment, rest_steps.
  cbn [run].
  destruct (recode_sex df) as [a1|]; cbn [mbind option_bind]; [|done].
  destruct (recode_age a1) as [a2|]; cbn [mbind option_bind]; [|done].
  destruct (recode_education a2) as [a3|]; cbn [mbind option_bind]; [|done].
  destruct (mapped_into "employment_status" _ _ a3) as [a4|];
    cbn [mbind option_bind]; [|done].
  destruct (mapped_into "occupation" _ _ a4) as [a5|];
    cbn [mbind option_bind]; [|done].
  destruct (recode_migration a5) as [a6|]; cbn [mbind option_bind]; [|done].
  destruct (recode_wealth a6) as [a7|]; cbn [mbind option_bind]; [|done].
  by destruct (recode_class a7).
Qed.

Lemma rest_steps_write (W : list string) :
  (∀ c, c ∈ rest_columns → c ∈ W) → Forall (writes_only W) rest_steps.
Proof.
  intros HW.
  assert (Hin : ∀ c, bool_decide (c ∈ rest_columns) = true → c ∈ W).
  { intros c Hc. apply HW. by apply bool_decide_eq_true in Hc. }
  unfold rest_steps. repeat apply Forall_cons_2; [..|apply Forall_nil_2].
  - by apply recode_sex_writes, Hin.
  - by apply recode_age_writes; apply Hin.
  - by apply recode_education_writes, Hin.
  - by apply mapped_into_writes, Hin.
  - by apply mapped_into_writes, Hin.
  - by apply recode_migration_writes, Hin.
  - by apply recode_wealth_writes; apply Hin.
  - by apply recode_class_writes; apply Hin.
Qed.

Lemma recode_rest_writes : writes_only rest_columns recode_rest.
Proof.
  intros df df'. rewrite recode_rest_run. revert df df'.
  apply run_writes_only. by apply rest_steps_write.
Qed.

(** *** What each step writes *)

(** The recode of the sentinel on one cell. *)
Definition refused (present : bool) (v : value) : value :=
  if present && value_eqb v (Num 8) then NaN else v.

Lemma refused_idem (present : bool) (v : value) :
  refused present (refused present v) = refused present v.
Proof.
  unfold refused. destruct present; [|done]. simpl.
  by destruct (value_eqb v (Num 8)) eqn:E; [|rewrite E].
Qed.

Lemma refused_to_nan_effect (var : string) (df df' : DataFrame) :
  refused_to_nan var df = Some df' →
  columns df' = columns df ∧ nrows df' = nrows df ∧
  ∀ i r r', rows df !! i = Some r → rows df' !! i = Some r' →
    cell r' var = refused (has_column df var) (cell r var) ∧
    ∀ c, c ≠ var → cell r' c = cell r c.
Proof.
  unfold refused_to_nan, refused. destruct (has_column df var); intros [= <-].
  - split; [done|]. split; [unfold nrows; simpl; by rewrite length_map|].
    intros i r r'. cbn [rows loc_set]. rewrite list_lookup_fmap.
    intros -> [= <-]. cbn [andb]. destruct (value_eqb (cell r var) (Num 8)).
    + unfold set_cells. cbn [foldr]. split; [by rewrite cell_insert_eq|].
      intros c Hc. by rewrite cell_insert_ne.
    + done.
  - do 2 (split; [done|]). intros i r r' -> [= <-]. done.
Qed.

Lemma dv_single_effect (df df' : DataFrame) (i : nat) (r r' : row) :
  dv_single df = Some df' →
  rows df !! i = Some r → rows df' !! i = Some r' →
  if has_column df "red_inc_diff"
  then rescale (cell r "red_inc_diff") = Some (cell r' "DV_single")
  else r' = r.
Proof.
  unfold dv_single. destruct (has_column df "red_inc_diff").
  - intros Hdf Hr Hr'. apply assign_try_Some in Hdf as [_ Hrows].
    destruct (Forall2_lookup_l _ _ _ _ _ Hrows Hr) as (r'' & Hr'' & v & Hv & ->).
    rewrite Hr' in Hr''. injection Hr'' as ->. by rewrite cell_insert_eq.
  - intros [= <-] Hr Hr'. congruence.
Qed.

Lemma scaled_pair_effect (raw scaled : string) (f : row → option value)
    (b : bool) (df df' : DataFrame) (i : nat) (r r' : row) :
  raw ≠ scaled →
  (if b then
     df ← assign_try df raw float64 f;
     assign_try df scaled float64 (λ r, rescale (cell r raw))
   else Some df) = Some df' →
  rows df !! i = Some r → rows df' !! i = Some r' →
  if b
  then f r = Some (cell r' raw) ∧ rescale (cell r' raw) = Some (cell r' scaled)
  else r' = r.
Proof.
  intros Hne. destruct b.
  - destruct (assign_try df raw float64 f) as [df1|] eqn:H1; [|done].
    cbn [mbind option_bind]. intros H2 Hr Hr'.
    apply assign_try_Some in H1 as [_ Hr1]. apply assign_try_Some in H2 as [_ Hr2].
    destruct (Forall2_lookup_l _ _ _ _ _ Hr1 Hr) as (r1 & Hi1 & v1 & Hv1 & ->).
    destruct (Forall2_lookup_l _ _ _ _ _ Hr2 Hi1) as (r2 & Hi2 & v2 & Hv2 & ->).
    rewrite Hr' in Hi2. injection Hi2 as ->.
    rewrite cell_insert_eq in Hv2.
    by rewrite cell_insert_eq, cell_insert_ne, cell_insert_eq by done.
  - intros [= <-] Hr Hr'. congruence.
Qed.

(** The steps of [recode_survey_variables] in order, each with the
    columns it writes. *)
Definition recode_steps : list (DataFrame → option DataFrame) :=
  [refused_to_nan "gov_int"; refused_to_nan "red_inc_diff";
   refused_to_nan "union_pref"; dv_single; dv_2item; dv_3item; recode_rest].

Lemma recode_survey_variables_run (data : DataFrame) :
  recode_survey_variables data = run recode_steps data.
Proof.
  unfold recode_survey_variables, recode_dvs, recode_steps.
  cbn [foldl dv_vars run mbind option_bind].
  destruct (refused_to_nan "gov_int" data) as [a1|];
    cbn [mbind option_bind]; [|done].
  destruct (refused_to_nan "red_inc_diff" a1) as [a2|];
    cbn [mbind option_bind]; [|done].
  destruct (refused_to_nan "union_pref" a2) as [a3|];
    cbn [mbind option_bind]; [|done].
  destruct (dv_single a3) as [a4|]; cbn [mbind option_bind]; [|done].
  destruct (dv_2item a4) as [a5|]; cbn [mbind option_bind]; [|done].
  destruct (dv_3item a5) as [a6|]; cbn [mbind option_bind]; [|done].
  by destruct (recode_rest a6).
Qed.

Lemma refuse_phase (data a3 : DataFrame) :
  run [refused_to_nan "gov_int"; refused_to_nan "red_inc_diff";
       refused_to_nan "union_pref"] data = Some a3 →
  columns a3 = columns data ∧ nrows a3 = nrows data ∧
  ∀ i r r3, rows data !! i = Some r → rows a3 !! i = Some r3 →
    (∀ var, var ∈ dv_vars →
       cell r3 var = refused (has_column data var) (cell r var)) ∧
    ∀ c, c ∉ dv_vars → cell r3 c = cell r c.
Proof.
  cbn [run].
  destruct (refused_to_nan "gov_int" data) as [a1|] eqn:H1; [|done].
  cbn [mbind option_bind].
  destruct (refused_to_nan "red_inc_diff" a1) as [a2|] eqn:H2; [|done].
  cbn [mbind option_bind].
  destruct (refused_to_nan "union_pref" a2) as [a3'|] eqn:H3; [|done].
  cbn [mbind option_bind]. intros [= ->].
  apply refused_to_nan_effect in H1 as (Hc1 & Hn1 & E1).
  apply refused_to_nan_effect in H2 as (Hc2 & Hn2 & E2).
  apply refused_to_nan_effect in H3 as (Hc3 & Hn3 & E3).
  split; [congruence|]. split; [congruence|].
  intros i r r3 Hr Hr3.
  destruct (aligned_row data a1 i r Hn1 Hr) as [r1 Hr1].
  destruct (aligned_row a1 a2 i r1 Hn2 Hr1) as [r2 Hr2].
  destruct (E1 i r r1 Hr Hr1) as [G1 K1].
  destruct (E2 i r1 r2 Hr1 Hr2) as [G2 K2].
  destruct (E3 i r2 r3 Hr2 Hr3) as [G3 K3].
  assert (Hh1 : ∀ c, has_column a1 c = has_column data c).
  { intros c. unfold has_column, column_names. by rewrite Hc1. }
  assert (Hh2 : ∀ c, has_column a2 c = has_column data c).
  { intros c. unfold has_column, column_names. by rewrite Hc2, Hc1. }
  split.
  - intros var Hvar. unfold dv_vars in Hvar.
    apply elem_of_cons in Hvar as [->|Hvar];
      [|apply elem_of_cons in Hvar as [->|Hvar];
        [|apply list_elem_of_singleton in Hvar as ->]].
    + by rewrite K3, K2, G1.
    + by rewrite K3, G2, Hh1, K1.
    + by rewrite G3, Hh2, K2, K1.
  - intros c Hc. unfold dv_vars in Hc.
    apply not_elem_of_cons in Hc as [Hc1' Hc].
    apply not_elem_of_cons in Hc as [Hc2' Hc].
    apply not_elem_of_cons in Hc as [Hc3' _].
    by rewrite K3, K2, K1.
Qed.

Lemma dv_var_not_written (var : string) :
  var ∈ dv_vars →
  (var ∉ ["DV_single"]) ∧ (var ∉ ["DV_2item"; "DV_2item_scaled"]) ∧
  (var ∉ ["DV_3item"; "DV_3item_scaled"]) ∧ (var ∉ rest_columns).
Proof.
  intros Hvar. unfold dv_vars in Hvar.
  apply elem_of_cons in Hvar as [->|Hvar];
    [|apply elem_of_cons in Hvar as [->|Hvar];
      [|apply list_elem_of_singleton in Hvar as ->]];
    repeat split; by apply (bool_decide_unpack _).
Qed.

(** The outcome cells of an output row [r'], from the input row [r]:
    the items with the sentinel recoded, [DV_single] the rescaled
    item, the composites the rescaled means of the recoded items.  An
    outcome whose items are not all columns of the input is not
    written. *)
Definition dv_cells (data : DataFrame) (r r' : row) : Prop :=
  (∀ var, var ∈ dv_vars →
     cell r' var = refused (has_column data var) (cell r var)) ∧
  (if has_column data "red_inc_diff"
   then rescale (cell r' "red_inc_diff") = Some (cell r' "DV_single")
   else cell r' "DV_single" = cell r "DV_single") ∧
  (if has_column data "gov_int" && has_column data "red_inc_diff"
   then row_mean ["gov_int"; "red_inc_diff"] r' = Some (cell r' "DV_2item") ∧
        rescale (cell r' "DV_2item") = Some (cell r' "DV_2item_scaled")
   else cell r' "DV_2item" = cell r "DV_2item" ∧
        cell r' "DV_2item_scaled" = cell r "DV_2item_scaled") ∧
  (if forallb (has_column data) dv_vars
   then row_mean dv_vars r' = Some (cell r' "DV_3item") ∧
        rescale (cell r' "DV_3item") = Some (cell r' "DV_3item_scaled")
   else cell r' "DV_3item" = cell r "DV_3item" ∧
        cell r' "DV_3item_scaled" = cell r "DV_3item_scaled").

Lemma recode_cells (data df : DataFrame) :
  recode_survey_variables data = Some df →
  nrows df = nrows data ∧
  (∀ var, var ∈ dv_vars → has_column df var = has_column data var) ∧
  ∀ i r, rows data !! i = Some r →
    ∃ r', rows df !! i = Some r' ∧ dv_cells data r r'.
Proof.
  rewrite recode_survey_variables_run. unfold recode_steps. intros Hrun.
  apply (run_split [refused_to_nan "gov_int"; refused_to_nan "red_inc_diff";
                    refused_to_nan "union_pref"] dv_single
                   [dv_2item; dv_3item; recode_rest]) in Hrun
    as (a3 & a4 & H3 & H4 & Hrun).
  cbn [run] in Hrun.
  destruct (dv_2item a4) as [a5|] eqn:H5; [|done]. cbn [mbind option_bind] in Hrun.
  destruct (dv_3item a5) as [a6|] eqn:H6; [|done]. cbn [mbind option_bind] in Hrun.
  destruct (recode_rest a6) as [a7|] eqn:H7; [|done].
  cbn [mbind option_bind] in Hrun. injection Hrun as ->.
  apply refuse_phase in H3 as (Hc3 & Hn3 & E3).
  destruct (dv_single_writes _ _ H4) as [Hn4 W4].
  destruct (dv_2item_writes _ _ H5) as [Hn5 W5].
  destruct (dv_3item_writes _ _ H6) as [Hn6 W6].
  destruct (recode_rest_writes _ _ H7) as [Hn7 W7].
  assert (Hh3 : ∀ c, has_column a3 c = has_column data c).
  { intros c. unfold has_column, column_names. by rewrite Hc3. }
  assert (Hitems : ∀ var, var ∈ dv_vars →
            has_column a4 var = has_column data var ∧
            has_column a5 var = has_column data var ∧
            has_column df var = has_column data var).
  { intros var (N4 & N5 & N6 & N7)%dv_var_not_written.
    destruct (W4 var N4) as [E4 _]. destruct (W5 var N5) as [E5 _].
    destruct (W6 var N6) as [E6 _]. destruct (W7 var N7) as [E7 _].
    rewrite E7, E6, E5, E4, !Hh3. done. }
  split; [congruence|]. split; [intros var Hvar; by apply Hitems|].
  intros i r Hr.
  destruct (aligned_row data a3 i r Hn3 Hr) as [r3 Hr3].
  destruct (aligned_row a3 a4 i r3 Hn4 Hr3) as [r4 Hr4].
  destruct (aligned_row a4 a5 i r4 Hn5 Hr4) as [r5 Hr5].
  destruct (aligned_row a5 a6 i r5 Hn6 Hr5) as [r6 Hr6].
  destruct (aligned_row a6 df i r6 Hn7 Hr6) as [r7 Hr7].
  exists r7. split; [done|].
  destruct (E3 i r r3 Hr Hr3) as [G3 K3].
  assert (K4 : ∀ c, c ∉ ["DV_single"] → cell r4 c = cell r3 c).
  { intros c Hc. destruct (W4 c Hc) as [_ K]. by apply (K i). }
  assert (K5 : ∀ c, c ∉ ["DV_2item"; "DV_2item_scaled"] → cell r5 c = cell r4 c).
  { intros c Hc. destruct (W5 c Hc) as [_ K]. by apply (K i). }
  assert (K6 : ∀ c, c ∉ ["DV_3item"; "DV_3item_scaled"] → cell r6 c = cell r5 c).
  { intros c Hc. destruct (W6 c Hc) as [_ K]. by apply (K i). }
  assert (K7 : ∀ c, c ∉ rest_columns → cell r7 c = cell r6 c).
  { intros c Hc. destruct (W7 c Hc) as [_ K]. by apply (K i). }
  assert (Hitem7 : ∀ var, var ∈ dv_vars →
            cell r7 var = cell r3 var ∧ cell r7 var = cell r4 var ∧
            cell r7 var = cell r5 var).
  { intros var (N4 & N5 & N6 & N7)%dv_var_not_written.
    rewrite (K7 var N7), (K6 var N6). split; [by rewrite K5, K4|].
    split; [by rewrite K5|done]. }
  assert (Hgov : "gov_int" ∈ dv_vars) by (unfold dv_vars; repeat constructor).
  assert (Hred : "red_inc_diff" ∈ dv_vars) by (unfold dv_vars; repeat constructor).
  assert (Hunion : "union_pref" ∈ dv_vars) by (unfold dv_vars; repeat constructor).
  assert (Hnot : ∀ c, bool_decide (c ∉ dv_vars) = true → c ∉ dv_vars).
  { intros c. apply bool_decide_eq_true. }
  split; [|split; [|split]].
  - intros var Hvar. destruct (Hitem7 var Hvar) as [-> _]. by apply G3.
  - pose proof (dv_single_effect _ _ i r3 r4 H4 Hr3 Hr4) as E4.
    rewrite Hh3 in E4. destruct (has_column data "red_inc_diff").
    + destruct (Hitem7 _ Hred) as [-> _].
      rewrite K7, K6, K5 by (by apply (bool_decide_unpack _)). exact E4.
    + subst r4. rewrite K7, K6, K5 by (by apply (bool_decide_unpack _)).
      apply K3. by apply Hnot.
  - unfold dv_2item in H5.
    pose proof (scaled_pair_effect "DV_2item" "DV_2item_scaled" _ _ _ _
                  i r4 r5 ltac:(done) H5 Hr4 Hr5) as E5.
    destruct (Hitems _ Hgov) as [Eg _]. destruct (Hitems _ Hred) as [Er _].
    rewrite Eg, Er in E5.
    destruct (has_column data "gov_int" && has_column data "red_inc_diff").
    + destruct E5 as [E5a E5b].
      rewrite !K7, !K6 by (by apply (bool_decide_unpack _)).
      split; [|done]. rewrite <- E5a. unfold row_mean. cbn [map].
      destruct (Hitem7 _ Hgov) as (_ & -> & _).
      destruct (Hitem7 _ Hred) as (_ & -> & _). done.
    + subst r5. rewrite !K7, !K6, !K4 by (by apply (bool_decide_unpack _)).
      split; apply K3; by apply Hnot.
  - unfold dv_3item in H6.
    pose proof (scaled_pair_effect "DV_3item" "DV_3item_scaled" _ _ _ _
                  i r5 r6 ltac:(done) H6 Hr5 Hr6) as E6.
    assert (Hall : forallb (has_column a5) dv_vars = forallb (has_column data) dv_vars).
    { unfold dv_vars. cbn [forallb].
      destruct (Hitems _ Hgov) as (_ & -> & _).
      destruct (Hitems _ Hred) as (_ & -> & _).
      destruct (Hitems _ Hunion) as (_ & -> & _). done. }
    rewrite Hall in E6.
    destruct (forallb (has_column data) dv_vars).
    + destruct E6 as [E6a E6b].
      rewrite !K7 by (by apply (bool_decide_unpack _)).
      split; [|done]. rewrite <- E6a. unfold row_mean, dv_vars. cbn [map].
      destruct (Hitem7 _ Hgov) as (_ & _ & ->).
      destruct (Hitem7 _ Hred) as (_ & _ & ->).
      destruct (Hitem7 _ Hunion) as (_ & _ & ->). done.
    + subst r6. rewrite !K7, !K5, !K4 by (by apply (bool_decide_unpack _)).
      split; apply K3; by apply Hnot.
Qed.

Lemma rescale_Num (q : Q) :
  rescale (Num q) = Some (Num ((q - 1) / 6 * 100)).
Proof. reflexivity. Qed.

Lemma rescale_bounds (q : Q) :
  (1 <= q <= 7)%Q → (0 <= (q - 1) / 6 * 100 <= 100)%Q.
Proof.
  intros [H1 H7].
  assert (E : ((q - 1) / 6 * 100 == (q - 1) * (50 # 3))%Q) by field.
  rewrite E. lra.
Qed.

Lemma rescale_in_range (v v' : value) :
  in_range 1 7 v → rescale v = Some v' → in_range 0 100 v'.
Proof.
  destruct v as [|q|s]; [by intros _ [= <-]| |done].
  rewrite rescale_Num. intros Hq [= <-]. by apply rescale_bounds.
Qed.

Lemma row_mean_in_range (lo hi : Q) (cs : list string) (r : row) (m : value) :
  (∀ c, c ∈ cs → in_range lo hi (cell r c)) → row_mean cs r = Some m →
  in_range lo hi m.
Proof.
  intros Hcs. apply series_mean_in_range.
  intros v (c & -> & Hc)%list_elem_of_fmap. by apply Hcs.
Qed.

Definition scenario_2_row : row := {["red_inc_diff" := Num 4]}.

Definition scenario_2 : DataFrame :=
  mkDF [("red_inc_diff", float64)] [scenario_2_row].

(** C6.  Let [recode_survey_variables] return a table.  In every row
    each 7-point item that is a column has its refused value 8 made
    missing and is otherwise kept, and the outcomes are computed from
    the items so recoded: [DV_single] is [(x - 1) / 6 * 100] of
    [red_inc_diff] (missing for a refused or missing answer), the two
    composites are the same rescaling of the mean of the recoded items.
    When the recoded items lie in 1..7 the rescaled outcomes lie in
    [0, 100]; the midpoint 4 gives 50. *)
Theorem recode_survey_variables_outcomes (data df : DataFrame) :
  (recode_survey_variables data = Some df →
   ∀ i r, rows data !! i = Some r →
     ∃ r', rows df !! i = Some r' ∧
       dv_cells data r r' ∧
       (has_column data "red_inc_diff" = true →
        match cell r "red_inc_diff" with
        | Num q =>
            if Qeq_bool q 8
            then cell r' "red_inc_diff" = NaN ∧ cell r' "DV_single" = NaN
            else cell r' "red_inc_diff" = Num q ∧
                 cell r' "DV_single" = Num ((q - 1) / 6 * 100)
        | NaN => cell r' "red_inc_diff" = NaN ∧ cell r' "DV_single" = NaN
        | Str _ => False
        end) ∧
       ((∀ var, var ∈ dv_vars → in_range 1 7 (cell r' var)) →
        (has_column data "red_inc_diff" = true →
         in_range 0 100 (cell r' "DV_single")) ∧
        (has_column data "gov_int" && has_column data "red_inc_diff" = true →
         in_range 0 100 (cell r' "DV_2item_scaled")) ∧
        (forallb (has_column data) dv_vars = true →
         in_range 0 100 (cell r' "DV_3item_scaled")))) ∧
  (∀ q, (1 <= q <= 7)%Q → (0 <= (q - 1) / 6 * 100 <= 100)%Q) ∧
  ((4 - 1) / 6 * 100 == 50)%Q ∧
  (∃ df2 r' d, recode_survey_variables scenario_2 = Some df2 ∧
     rows df2 = [r'] ∧ cell r' "red_inc_diff" = Num 4 ∧
     cell r' "DV_single" = Num d ∧ (d == 50)%Q).
Proof.
  split; [|split; [apply rescale_bounds|split; [reflexivity|]]].
  - intros Hdf i r Hr.
    destruct (recode_cells data df Hdf) as (_ & _ & Hcells).
    destruct (Hcells i r Hr) as (r' & Hr' & Hdv).
    exists r'. split; [done|]. split; [done|].
    destruct Hdv as (Hitems & Hsingle & H2 & H3).
    assert (Hred : "red_inc_diff" ∈ dv_vars) by (unfold dv_vars; repeat constructor).
    assert (Hgov : "gov_int" ∈ dv_vars) by (unfold dv_vars; repeat constructor).
    split.
    + intros Hhas. rewrite Hhas in Hsingle.
      pose proof (Hitems _ Hred) as Hitem. rewrite Hhas in Hitem.
      rewrite Hitem in Hsingle |- *. unfold refused in *. cbn [andb] in *.
      destruct (cell r "red_inc_diff") as [|q|s]; cbn [value_eqb] in *.
      * by injection Hsingle as <-.
      * destruct (Qeq_bool q 8); [by injection Hsingle as <-|].
        rewrite rescale_Num in Hsingle. by injection Hsingle as <-.
      * done.
    + intros Hrange. split; [|split].
      * intros Hhas. rewrite Hhas in Hsingle.
        eapply rescale_in_range; [|exact Hsingle]. by apply Hrange.
      * intros Hhas. rewrite Hhas in H2. destruct H2 as [Hm Hs].
        eapply rescale_in_range; [|exact Hs].
        eapply row_mean_in_range; [|exact Hm].
        intros c Hc. apply Hrange. unfold dv_vars.
        apply elem_of_cons in Hc as [->|Hc]; [left|].
        apply list_elem_of_singleton in Hc as ->. right. left.
      * intros Hhas. rewrite Hhas in H3. destruct H3 as [Hm Hs].
        eapply rescale_in_range; [|exact Hs].
        eapply row_mean_in_range; [|exact Hm]. done.
  - eexists _, _, _. split; [reflexivity|]. split; [reflexivity|].
    split; [reflexivity|]. split; reflexivity.
Qed.

(** *** Running the recoder on its own output *)

(** The columns whose cells decide whether a step raises. *)
Definition input_columns : list string :=
  ["gov_int"; "red_inc_diff"; "union_pref"; "birth_year"; "educyrs";
   "born_in_nl"; "owns_home"; "owns_property"; "has_savings"; "owns_stocks"].

(** A cell on which the steps reading column [c] do not raise. *)
Definition cell_ok (c : string) (v : value) : Prop :=
  if String.eqb c "born_in_nl" then is_Some (astype_float v)
  else is_str v = false.

Lemma cell_ok_not_str (c : string) (v : value) :
  is_str v = false → cell_ok c v.
Proof.
  unfold cell_ok. destruct (String.eqb c "born_in_nl"); [|done].
  destruct v; try done; by eexists.
Qed.

(** [b] has the input columns of [a], with cells that are fine where
    those of [a] are. *)
Definition no_worse (a b : DataFrame) : Prop :=
  nrows b = nrows a ∧
  ∀ c, c ∈ input_columns →
    has_column b c = has_column a c ∧
    ∀ i r r', rows a !! i = Some r → rows b !! i = Some r' →
              cell_ok c (cell r c) → cell_ok c (cell r' c).

Lemma no_worse_refl (a : DataFrame) : no_worse a a.
Proof.
  split; [done|]. intros c _. split; [done|].
  intros i r r' Hr Hr'. congruence.
Qed.

Lemma no_worse_rows (a b : DataFrame) (c : string) :
  no_worse a b → c ∈ input_columns →
  (∀ r, r ∈ rows a → cell_ok c (cell r c)) →
  ∀ r', r' ∈ rows b → cell_ok c (cell r' c).
Proof.
  intros [Hn Hc] Hin Ha r' [i Hi]%list_elem_of_lookup.
  destruct (aligned_row b a i r') as [r Hr]; [done|done|].
  destruct (Hc c Hin) as [_ Hcell]. apply (Hcell i r r'); [done..|].
  apply Ha. by eapply list_elem_of_lookup_2.
Qed.

(** A step that, on the input columns, neither adds nor removes a
    column and neither spoils nor repairs a cell. *)
Definition gentle (f : DataFrame → option DataFrame) : Prop :=
  ∀ df df', f df = Some df' →
    nrows df' = nrows df ∧
    ∀ c, c ∈ input_columns →
      has_column df' c = has_column df c ∧
      ∀ i r r', rows df !! i = Some r → rows df' !! i = Some r' →
                (cell_ok c (cell r c) ↔ cell_ok c (cell r' c)).

Lemma gentle_of_writes_only (W : list string) (f : DataFrame → option DataFrame) :
  writes_only W f → (∀ c, c ∈ input_columns → c ∉ W) → gentle f.
Proof.
  intros Hw Hdisj df df' Hdf. destruct (Hw _ _ Hdf) as [Hn Hu].
  split; [done|]. intros c Hc. destruct (Hu c (Hdisj c Hc)) as [Hh Hcell].
  split; [done|]. intros i r r' Hr Hr'. by rewrite (Hcell i r r').
Qed.

Lemma gentle_keeps (f : DataFrame → option DataFrame) (a b a' b' : DataFrame) :
  gentle f → no_worse a b → f a = Some a' → f b = Some b' → no_worse a' b'.
Proof.
  intros Hg [Hn Hab] Ha Hb.
  destruct (Hg _ _ Ha) as [Hna Hga]. destruct (Hg _ _ Hb) as [Hnb Hgb].
  split; [congruence|]. intros c Hc.
  destruct (Hab c Hc) as [Hh Hcell]. destruct (Hga c Hc) as [Hha Hca].
  destruct (Hgb c Hc) as [Hhb Hcb].
  split; [congruence|]. intros i r r' Hr Hr' Hok.
  destruct (aligned_row a' a i r) as [ra Hra]; [done|done|].
  destruct (aligned_row b' b i r') as [rb Hrb]; [done|done|].
  apply (Hcb i rb r' Hrb Hr'). apply (Hcell i ra rb Hra Hrb).
  by apply (Hca i ra r Hra Hr).
Qed.

Lemma gentle_improves (f : DataFrame → option DataFrame) (x a a' : DataFrame) :
  gentle f → no_worse x a → f a = Some a' → no_worse x a'.
Proof.
  intros Hg [Hn Hxa] Ha. destruct (Hg _ _ Ha) as [Hna Hga].
  split; [congruence|]. intros c Hc.
  destruct (Hxa c Hc) as [Hh Hcell]. destruct (Hga c Hc) as [Hha Hca].
  split; [congruence|]. intros i r r' Hr Hr' Hok.
  destruct (aligned_row a' a i r') as [ra Hra]; [done|done|].
  apply (Hca i ra r' Hra Hr'). by apply (Hcell i r ra).
Qed.

(** A step that does not start raising when its table is replaced by
    one that is no worse. *)
Definition monotone (f : DataFrame → option DataFrame) : Prop :=
  ∀ a b, no_worse a b → is_Some (f a) → is_Some (f b).

Lemma run_monotone (fs : list (DataFrame → option DataFrame)) :
  Forall (λ f, monotone f ∧ gentle f) fs →
  ∀ a b, no_worse a b → is_Some (run fs a) → is_Some (run fs b).
Proof.
  induction 1 as [|f fs [Hm Hg] _ IH]; intros a b Hab Hrun; [by eexists|].
  cbn [run] in *. destruct (f a) as [a'|] eqn:Ha; [|by destruct Hrun].
  destruct (Hm a b Hab) as [b' Hb]; [by rewrite Ha; eexists|].
  rewrite Hb. cbn [mbind option_bind] in *.
  apply (IH a' b'); [|done]. by eapply gentle_keeps.
Qed.

Lemma run_improves (fs : list (DataFrame → option DataFrame)) :
  Forall gentle fs →
  ∀ x a a', no_worse x a → run fs a = Some a' → no_worse x a'.
Proof.
  induction 1 as [|f fs Hg _ IH]; intros x a a' Hxa Hrun.
  { by injection Hrun as <-. }
  cbn [run] in Hrun. destruct (f a) as [a1|] eqn:Ha; [|done].
  apply (IH x a1); [|done]. by eapply gentle_improves.
Qed.

Lemma cell_ok_refused (c : string) (present : bool) (v : value) :
  cell_ok c (refused present v) ↔ cell_ok c v.
Proof.
  unfold refused. destruct present; [|done]. cbn [andb].
  destruct v as [|q|s]; cbn [value_eqb]; [done| |done].
  destruct (Qeq_bool q 8); [|done].
  split; intros _; by apply cell_ok_not_str.
Qed.

Lemma refused_to_nan_gentle (var : string) : gentle (refused_to_nan var).
Proof.
  intros df df' Hdf. apply refused_to_nan_effect in Hdf as (Hc & Hn & E).
  split; [done|]. intros c _. split.
  { unfold has_column, column_names. by rewrite Hc. }
  intros i r r' Hr Hr'. destruct (E i r r' Hr Hr') as [G K].
  destruct (decide (c = var)) as [->|Hne].
  - rewrite G. symmetry. apply cell_ok_refused.
  - by rewrite K.
Qed.

Lemma astype_float_not_str (v v' : value) :
  astype_float v = Some v' → is_str v' = false.
Proof.
  destruct v as [|q|s]; simpl; [by intros [= <-]..|].
  destruct (float_of_str s); [|done]. by intros [= <-].
Qed.

Lemma recode_migration_gentle : gentle recode_migration.
Proof.
  intros df df' Hdf.
  destruct (recode_migration_writes ["born_in_nl"]
              ltac:(apply list_elem_of_singleton; reflexivity) _ _ Hdf) as [Hn Hu].
  split; [done|]. intros c Hc.
  destruct (decide (c = "born_in_nl")) as [->|Hne].
  - unfold recode_migration in Hdf.
    destruct (has_column df "born_in_nl") eqn:Hh.
    + pose proof (assign_try_frame _ _ _ _ _ Hdf) as (_ & Hnames & _ & _).
      apply assign_try_Some in Hdf as [_ Hrows]. split.
      { apply has_column_true. apply Hnames. by left. }
      intros i r r' Hr Hr'.
      destruct (Forall2_lookup_l _ _ _ _ _ Hrows Hr) as (r'' & Hr'' & v & Hv & ->).
      rewrite Hr' in Hr''. injection Hr'' as ->. rewrite cell_insert_eq.
      split; intros _.
      * apply cell_ok_not_str. by eapply astype_float_not_str.
      * unfold cell_ok. cbn. rewrite Hv. by eexists.
    + injection Hdf as <-. split; [done|]. intros i r r' Hr Hr'.
      by replace r' with r by congruence.
  - destruct (Hu c) as [Hh Hcell]; [by intros ->%list_elem_of_singleton|].
    split; [done|]. intros i r r' Hr Hr'. by rewrite (Hcell i r r').
Qed.

Lemma inputs_not_in (W : list string) :
  Forall (λ c, c ∉ W) input_columns → ∀ c, c ∈ input_columns → c ∉ W.
Proof. intros HF c Hc. by apply (proj1 (Forall_forall _ _) HF). Qed.

Lemma rescale_is_Some (v : value) : is_Some (rescale v) ↔ is_str v = false.
Proof.
  destruct v as [|q|s]; simpl; split; try done; try (intros _; by eexists).
  by intros [? ?].
Qed.

Lemma dv_single_monotone : monotone dv_single.
Proof.
  intros a b Hab Hs. unfold dv_single in *.
  destruct (proj2 Hab "red_inc_diff") as [Hflag _];
    [by apply (bool_decide_unpack _)|].
  rewrite Hflag. destruct (has_column a "red_inc_diff"); [|by eexists].
  apply assign_try_is_Some_iff. intros r' Hr'. apply rescale_is_Some.
  apply (no_worse_rows a b "red_inc_diff" Hab);
    [by apply (bool_decide_unpack _)| |done].
  intros r Hr. apply rescale_is_Some.
  by apply (proj1 (assign_try_is_Some_iff _ _ _ _) Hs).
Qed.

Lemma mean_pair_is_Some (raw scaled : string) (cs : list string) (df : DataFrame) :
  is_Some (df1 ← assign_try df raw float64 (row_mean cs);
           assign_try df1 scaled float64 (λ r, rescale (cell r raw))) ↔
  ∀ r, r ∈ rows df → ∀ c, c ∈ cs → is_str (cell r c) = false.
Proof.
  split.
  - intros Hs r Hr c Hc.
    destruct (assign_try df raw float64 (row_mean cs)) as [df1|] eqn:H1;
      [|by destruct Hs].
    assert (Hm : is_Some (row_mean cs r)).
    { apply (proj1 (assign_try_is_Some_iff df raw float64 (row_mean cs)));
        [by rewrite H1; eexists|done]. }
    apply (proj1 (series_mean_is_Some _) Hm).
    apply list_elem_of_fmap. by exists c.
  - intros Hcells.
    destruct (assign_try_is_Some df raw float64 (row_mean cs)) as [df1 H1].
    { intros r Hr. apply series_mean_is_Some.
      intros v (c & -> & Hc)%list_elem_of_fmap. by apply Hcells. }
    rewrite H1. cbn [mbind option_bind].
    apply assign_try_is_Some. intros r1 Hr1. apply rescale_is_Some.
    apply assign_try_Some in H1 as [_ Hrows].
    apply list_elem_of_lookup in Hr1 as [i Hi].
    destruct (Forall2_lookup_r _ _ _ _ _ Hrows Hi) as (r & _ & v & Hv & ->).
    rewrite cell_insert_eq. by eapply series_mean_not_str.
Qed.

Lemma item_cells_transfer (a b : DataFrame) (cs : list string) :
  no_worse a b → (∀ c, c ∈ cs → c ∈ dv_vars) →
  (∀ r, r ∈ rows a → ∀ c, c ∈ cs → is_str (cell r c) = false) →
  ∀ r', r' ∈ rows b → ∀ c, c ∈ cs → is_str (cell r' c) = false.
Proof.
  intros Hab Hcs Ha r' Hr' c Hc.
  assert (Hc' := Hcs c Hc). unfold dv_vars in Hc'.
  apply elem_of_cons in Hc' as [->|Hc'];
    [|apply elem_of_cons in Hc' as [->|Hc'];
      [|apply list_elem_of_singleton in Hc' as ->]].
  - apply (no_worse_rows a b "gov_int" Hab);
      [by apply (bool_decide_unpack _)| |done].
    intros r Hr. by apply (Ha r Hr "gov_int").
  - apply (no_worse_rows a b "red_inc_diff" Hab);
      [by apply (bool_decide_unpack _)| |done].
    intros r Hr. by apply (Ha r Hr "red_inc_diff").
  - apply (no_worse_rows a b "union_pref" Hab);
      [by apply (bool_decide_unpack _)| |done].
    intros r Hr. by apply (Ha r Hr "union_pref").
Qed.

Lemma dv_2item_monotone : monotone dv_2item.
Proof.
  intros a b Hab Hs. unfold dv_2item in *.
  destruct (proj2 Hab "gov_int") as [Hg _]; [by apply (bool_decide_unpack _)|].
  destruct (proj2 Hab "red_inc_diff") as [Hr _]; [by apply (bool_decide_unpack _)|].
  rewrite Hg, Hr.
  destruct (has_column a "gov_int" && has_column a "red_inc_diff");
    [|by eexists].
  apply mean_pair_is_Some.
  pose proof (proj1 (mean_pair_is_Some _ _ _ _) Hs) as Hs'.
  apply (item_cells_transfer a b); [done| |done].
  intros c Hc. unfold dv_vars.
  apply elem_of_cons in Hc as [->|Hc]; [left|].
  apply list_elem_of_singleton in Hc as ->. right. left.
Qed.

Lemma dv_3item_monotone : monotone dv_3item.
Proof.
  intros a b Hab Hs. unfold dv_3item in *.
  assert (Hflags : forallb (has_column b) dv_vars = forallb (has_column a) dv_vars).
  { unfold dv_vars. cbn [forallb].
    destruct (proj2 Hab "gov_int") as [-> _]; [by apply (bool_decide_unpack _)|].
    destruct (proj2 Hab "red_inc_diff") as [-> _]; [by apply (bool_decide_unpack _)|].
    destruct (proj2 Hab "union_pref") as [-> _]; [by apply (bool_decide_unpack _)|].
    done. }
  rewrite Hflags. destruct (forallb (has_column a) dv_vars); [|by eexists].
  apply mean_pair_is_Some.
  pose proof (proj1 (mean_pair_is_Some _ _ _ _) Hs) as Hs'.
  by apply (item_cells_transfer a b).
Qed.

Lemma series_std_is_Some (l : list value) :
  is_Some (series_std l) ↔ ∀ v, v ∈ l → is_str v = false.
Proof.
  rewrite <- numbers_is_Some. unfold series_std.
  destruct (numbers l); split; intros [? ?]; try done; by eexists.
Qed.

Lemma series_std_not_str (l : list value) (sd : value) :
  series_std l = Some sd → is_str sd = false.
Proof.
  unfold series_std. destruct (numbers l) as [xs|]; [|done].
  simpl. intros [= <-]. by destruct xs as [|? [|? ?]].
Qed.

Lemma standardized_into_is_Some (target c : string) (df : DataFrame) :
  is_Some (standardized_into target c df) ↔
  ∀ r, r ∈ rows df → is_str (cell r c) = false.
Proof.
  assert (Hser : (∀ v, v ∈ series df c → is_str v = false) ↔
                 ∀ r, r ∈ rows df → is_str (cell r c) = false).
  { unfold series. split.
    - intros Hv r Hr. apply Hv. apply list_elem_of_fmap. by exists r.
    - intros Hr v (r & -> & Hin)%list_elem_of_fmap. by apply Hr. }
  unfold standardized_into. split.
  - intros Hs. apply Hser. apply series_mean_is_Some.
    destruct (series_mean (series df c)); [by eexists|by destruct Hs].
  - intros Hcells.
    destruct (proj2 (series_mean_is_Some (series df c))) as [m Hm];
      [by apply Hser|].
    destruct (proj2 (series_std_is_Some (series df c))) as [sd Hsd];
      [by apply Hser|].
    rewrite Hm, Hsd. cbn [mbind option_bind].
    apply assign_try_is_Some. intros r Hr.
    apply zscore_is_Some;
      [by eapply series_mean_not_str|by eapply series_std_not_str|by apply Hcells].
Qed.

Lemma vsub_is_Some (a b : value) :
  is_str a = false → (is_Some (vsub a b) ↔ is_str b = false).
Proof.
  destruct a, b; simpl; intros Ha; split; try done;
    try (intros _; by eexists); by intros [? ?].
Qed.

Lemma vsub_not_str (a b v : value) : vsub a b = Some v → is_str v = false.
Proof. destruct a, b; simpl; try done; by intros [= <-]. Qed.

Lemma recode_age_is_Some (df : DataFrame) :
  is_Some (recode_age df) ↔
  (has_column df "birth_year" = true →
   ∀ r, r ∈ rows df → is_str (cell r "birth_year") = false).
Proof.
  unfold recode_age. destruct (has_column df "birth_year");
    [|split; [done|intros _; by eexists]].
  split.
  - intros Hs _ r Hr.
    destruct (assign_try df "age_raw" float64 _) as [df1|] eqn:H1;
      [|by destruct Hs].
    apply (vsub_is_Some (Num SURVEY_YEAR)); [done|].
    apply (proj1 (assign_try_is_Some_iff df "age_raw" float64
                    (λ r, vsub (Num SURVEY_YEAR) (cell r "birth_year"))));
      [by rewrite H1; eexists|done].
  - intros Hcells. specialize (Hcells eq_refl).
    destruct (assign_try_is_Some df "age_raw" float64
                (λ r, vsub (Num SURVEY_YEAR) (cell r "birth_year")))
      as [df1 H1].
    { intros r Hr. apply vsub_is_Some; [done|by apply Hcells]. }
    rewrite H1. cbn [mbind option_bind].
    apply standardized_into_is_Some. intros r1 Hr1.
    apply assign_try_Some in H1 as [_ Hrows].
    apply list_elem_of_lookup in Hr1 as [i Hi].
    destruct (Forall2_lookup_r _ _ _ _ _ Hrows Hi) as (r & _ & v & Hv & ->).
    rewrite cell_insert_eq. by eapply vsub_not_str.
Qed.

Lemma recode_age_monotone : monotone recode_age.
Proof.
  intros a b Hab Hs. apply recode_age_is_Some. intros Hflag r' Hr'.
  destruct (proj2 Hab "birth_year") as [Hf _]; [by apply (bool_decide_unpack _)|].
  rewrite Hf in Hflag.
  apply (no_worse_rows a b "birth_year" Hab);
    [by apply (bool_decide_unpack _)| |done].
  intros r Hr. by apply (proj1 (recode_age_is_Some a) Hs).
Qed.

Lemma recode_education_monotone : monotone recode_education.
Proof.
  intros a b Hab Hs. unfold recode_education in *.
  destruct (proj2 Hab "educyrs") as [Hf _]; [by apply (bool_decide_unpack _)|].
  rewrite Hf. destruct (has_column a "educyrs"); [|by eexists].
  apply standardized_into_is_Some. intros r' Hr'.
  apply (no_worse_rows a b "educyrs" Hab);
    [by apply (bool_decide_unpack _)| |done].
  intros r Hr. by apply (proj1 (standardized_into_is_Some _ _ a) Hs).
Qed.

Lemma recode_migration_monotone : monotone recode_migration.
Proof.
  intros a b Hab Hs. unfold recode_migration in *.
  destruct (proj2 Hab "born_in_nl") as [Hf _]; [by apply (bool_decide_unpack _)|].
  rewrite Hf. destruct (has_column a "born_in_nl"); [|by eexists].
  apply assign_try_is_Some_iff. intros r' Hr'.
  apply (no_worse_rows a b "born_in_nl" Hab);
    [by apply (bool_decide_unpack _)| |done].
  intros r Hr. by apply (proj1 (assign_try_is_Some_iff _ _ _ _) Hs).
Qed.

Lemma row_sum_fillna0_Num (cs : list string) (r : row) (v : value) :
  row_sum_fillna0 cs r = Some v → ∃ q, v = Num q.
Proof.
  revert v. induction cs as [|c cs IH]; intros v.
  { intros [= <-]. by eexists. }
  cbn [row_sum_fillna0 foldr]. fold (row_sum_fillna0 cs r).
  destruct (row_sum_fillna0 cs r) as [acc|]; [|done].
  destruct (IH acc eq_refl) as [q ->]. cbn [mbind option_bind].
  destruct (cell r c); simpl; try done; intros [= <-]; by eexists.
Qed.

Lemma row_sum_fillna0_is_Some (cs : list string) (r : row) :
  is_Some (row_sum_fillna0 cs r) ↔ ∀ c, c ∈ cs → is_str (cell r c) = false.
Proof.
  induction cs as [|c cs IH].
  { split; [by intros _ c ?%elem_of_nil|by eexists]. }
  cbn [row_sum_fillna0 foldr]. fold (row_sum_fillna0 cs r). split.
  - intros Hs c' Hc'.
    destruct (row_sum_fillna0 cs r) as [acc|] eqn:Hacc; [|by destruct Hs].
    destruct (row_sum_fillna0_Num _ _ _ Hacc) as [q ->].
    cbn [mbind option_bind] in Hs.
    apply elem_of_cons in Hc' as [->|Hc'].
    + destruct (cell r c); try done. by destruct Hs.
    + apply IH; [by eexists|done].
  - intros Hcells.
    destruct (proj2 IH) as [acc Hacc]; [intros c' Hc'; apply Hcells; by right|].
    rewrite Hacc. destruct (row_sum_fillna0_Num _ _ _ Hacc) as [q ->].
    cbn [mbind option_bind].
    assert (Hc : is_str (cell r c) = false) by (apply Hcells; left).
    destruct (cell r c); try done; by eexists.
Qed.

Lemma recode_wealth_is_Some (df : DataFrame) :
  is_Some (recode_wealth df) ↔
  ∀ r, r ∈ rows df → ∀ c, c ∈ List.filter (has_column df) wealth_vars →
       is_str (cell r c) = false.
Proof.
  unfold recode_wealth.
  destruct (List.filter (has_column df) wealth_vars) as [|w ws].
  { split; [by intros _ r _ c ?%elem_of_nil|by eexists]. }
  split.
  - intros Hs r Hr.
    destruct (assign_try df "wealth_index" float64 _) as [df1|] eqn:H1;
      [|by destruct Hs].
    apply row_sum_fillna0_is_Some.
    apply (proj1 (assign_try_is_Some_iff df "wealth_index" float64
                    (row_sum_fillna0 (w :: ws))));
      [by rewrite H1; eexists|done].
  - intros Hcells.
    destruct (assign_try_is_Some df "wealth_index" float64
                (row_sum_fillna0 (w :: ws))) as [df1 H1].
    { intros r Hr. apply row_sum_fillna0_is_Some. by apply Hcells. }
    rewrite H1. by eexists.
Qed.

Lemma recode_wealth_monotone : monotone recode_wealth.
Proof.
  intros a b Hab Hs. apply recode_wealth_is_Some.
  pose proof (proj1 (recode_wealth_is_Some a) Hs) as Ha.
  assert (Hflags : List.filter (has_column b) wealth_vars =
                   List.filter (has_column a) wealth_vars).
  { unfold wealth_vars. cbn [List.filter].
    destruct (proj2 Hab "owns_home") as [-> _]; [by apply (bool_decide_unpack _)|].
    destruct (proj2 Hab "owns_property") as [-> _]; [by apply (bool_decide_unpack _)|].
    destruct (proj2 Hab "has_savings") as [-> _]; [by apply (bool_decide_unpack _)|].
    destruct (proj2 Hab "owns_stocks") as [-> _]; [by apply (bool_decide_unpack _)|].
    done. }
  rewrite Hflags. intros r' Hr' c Hc.
  assert (Hc' : c ∈ wealth_vars) by (by apply elem_of_bool_filter in Hc as [? _]).
  assert (Hgen : ∀ w, w ∈ input_columns → w ≠ "born_in_nl" →
            w ∈ List.filter (has_column a) wealth_vars →
            is_str (cell r' w) = false).
  { intros w Hw Hne Hin.
    assert (Hok : cell_ok w (cell r' w)).
    { apply (no_worse_rows a b w Hab); [done| |done].
      intros r Hr. apply cell_ok_not_str. by apply (Ha r Hr w). }
    unfold cell_ok in Hok.
    destruct (String.eqb w "born_in_nl") eqn:E; [|done].
    by apply String.eqb_eq in E. }
  unfold wealth_vars in Hc'.
  repeat (apply elem_of_cons in Hc' as [->|Hc'];
          [by apply Hgen; [apply (bool_decide_unpack _)| |]|]).
  by apply elem_of_nil in Hc'.
Qed.

Lemma total_monotone (f : DataFrame → option DataFrame) :
  (∀ df, is_Some (f df)) → monotone f.
Proof. intros Hf a b _ _. apply Hf. Qed.

Lemma refused_to_nan_total (var : string) (df : DataFrame) :
  is_Some (refused_to_nan var df).
Proof. unfold refused_to_nan. destruct (has_column df var); by eexists. Qed.

Lemma recode_sex_total (df : DataFrame) : is_Some (recode_sex df).
Proof. unfold recode_sex. destruct (has_column df "sex"); by eexists. Qed.

Lemma mapped_into_total (target c : string) (d : list (value * value))
    (df : DataFrame) :
  is_Some (mapped_into target c d df).
Proof. unfold mapped_into. destruct (has_column df c); by eexists. Qed.

Lemma recode_class_total (df : DataFrame) : is_Some (recode_class df).
Proof.
  unfold recode_class. destruct (has_column df "occupation_class"); by eexists.
Qed.

(** All the steps of the recoder, in order. *)
Definition all_steps : list (DataFrame → option DataFrame) :=
  ([refused_to_nan "gov_int"; refused_to_nan "red_inc_diff";
   refused_to_nan "union_pref"; dv_single; dv_2item; dv_3item] ++ rest_steps)%list.

Lemma recode_survey_variables_all (data : DataFrame) :
  recode_survey_variables data = run all_steps data.
Proof.
  rewrite recode_survey_variables_run. unfold all_steps, recode_steps.
  rewrite run_app.
  change (run [refused_to_nan "gov_int"; refused_to_nan "red_inc_diff";
          refused_to_nan "union_pref"; dv_single; dv_2item; dv_3item; recode_rest]
          data)
    with (run ([refused_to_nan "gov_int"; refused_to_nan "red_inc_diff";
           refused_to_nan "union_pref"; dv_single; dv_2item; dv_3item]
          ++ [recode_rest])%list data).
  rewrite run_app. destruct (run _ data) as [a|]; [|done].
  cbn [mbind option_bind run]. rewrite recode_rest_run.
  by destruct (run rest_steps a).
Qed.

Lemma all_steps_good : Forall (λ f, monotone f ∧ gentle f) all_steps.
Proof.
  assert (Hdisj : ∀ W : list string,
            bool_decide (Forall (λ c, c ∉ W) input_columns) = true →
            ∀ c, c ∈ input_columns → c ∉ W).
  { intros W HW. apply inputs_not_in. by apply bool_decide_eq_true in HW. }
  unfold all_steps, rest_steps. cbn [app].
  repeat apply Forall_cons_2; [..|apply Forall_nil_2].
  - split; [apply total_monotone, refused_to_nan_total|apply refused_to_nan_gentle].
  - split; [apply total_monotone, refused_to_nan_total|apply refused_to_nan_gentle].
  - split; [apply total_monotone, refused_to_nan_total|apply refused_to_nan_gentle].
  - split; [apply dv_single_monotone|].
    apply (gentle_of_writes_only _ _ dv_single_writes). by apply Hdisj.
  - split; [apply dv_2item_monotone|].
    apply (gentle_of_writes_only _ _ dv_2item_writes). by apply Hdisj.
  - split; [apply dv_3item_monotone|].
    apply (gentle_of_writes_only _ _ dv_3item_writes). by apply Hdisj.
  - split; [apply total_monotone, recode_sex_total|].
    apply (gentle_of_writes_only ["sex"]); [|by apply Hdisj].
    apply recode_sex_writes. by left.
  - split; [apply recode_age_monotone|].
    apply (gentle_of_writes_only ["age_raw"; "age"]); [|by apply Hdisj].
    apply recode_age_writes; by apply (bool_decide_unpack _).
  - split; [apply recode_education_monotone|].
    apply (gentle_of_writes_only ["education"]); [|by apply Hdisj].
    apply recode_education_writes. by left.
  - split; [apply total_monotone, mapped_into_total|].
    apply (gentle_of_writes_only ["employment_status"]); [|by apply Hdisj].
    apply mapped_into_writes. by left.
  - split; [apply total_monotone, mapped_into_total|].
    apply (gentle_of_writes_only ["occupation"]); [|by apply Hdisj].
    apply mapped_into_writes. by left.
  - split; [apply recode_migration_monotone|apply recode_migration_gentle].
  - split; [apply recode_wealth_monotone|].
    apply (gentle_of_writes_only ["wealth_index"; "high_wealth"]); [|by apply Hdisj].
    apply recode_wealth_writes; by apply (bool_decide_unpack _).
  - split; [apply total_monotone, recode_class_total|].
    apply (gentle_of_writes_only ["professional_class"; "occupation_rank"]);
      [|by apply Hdisj].
    apply recode_class_writes; by apply (bool_decide_unpack _).
Qed.

(** If the recoder returns on a table, it returns on its output too. *)
Lemma recode_again_total (data d1 : DataFrame) :
  recode_survey_variables data = Some d1 →
  is_Some (recode_survey_variables d1).
Proof.
  intros Hd1. rewrite recode_survey_variables_all in *.
  apply (run_monotone all_steps all_steps_good data d1).
  - apply (run_improves all_steps) with (a := data); [|apply no_worse_refl|done].
    eapply Forall_impl; [apply all_steps_good|]. by intros f [_ ?].
  - rewrite Hd1. by eexists.
Qed.

(** The item columns and the outcome columns computed from them. *)
Definition outcome_columns : list string :=
  (dv_vars ++ ["DV_single"; "DV_2item"; "DV_2item_scaled";
               "DV_3item"; "DV_3item_scaled"])%list.

Lemma row_mean_ext (cs : list string) (r r' : row) :
  (∀ c, c ∈ cs → cell r' c = cell r c) → row_mean cs r' = row_mean cs r.
Proof.
  intros Hc. unfold row_mean. f_equal. apply map_ext_in.
  intros c Hin. apply Hc. by apply list_elem_of_In.
Qed.

Lemma dv_cells_again (data d1 : DataFrame) (r r1 r2 : row) :
  (∀ var, var ∈ dv_vars → has_column d1 var = has_column data var) →
  dv_cells data r r1 → dv_cells d1 r1 r2 →
  ∀ c, c ∈ outcome_columns → cell r2 c = cell r1 c.
Proof.
  intros Hh (I1 & S1 & T1 & U1) (I2 & S2 & T2 & U2).
  assert (Hitems : ∀ var, var ∈ dv_vars → cell r2 var = cell r1 var).
  { intros var Hvar. rewrite (I2 var Hvar), (Hh var Hvar), (I1 var Hvar).
    apply refused_idem. }
  assert (Hg : has_column d1 "gov_int" = has_column data "gov_int")
    by (apply Hh; repeat constructor).
  assert (Hr : has_column d1 "red_inc_diff" = has_column data "red_inc_diff")
    by (apply Hh; repeat constructor).
  assert (Hu : has_column d1 "union_pref" = has_column data "union_pref")
    by (apply Hh; repeat constructor).
  assert (Hall : forallb (has_column d1) dv_vars =
                 forallb (has_column data) dv_vars).
  { unfold dv_vars. cbn [forallb]. by rewrite Hg, Hr, Hu. }
  rewrite Hr in S2. rewrite Hg, Hr in T2. rewrite Hall in U2.
  assert (E1 : cell r2 "DV_single" = cell r1 "DV_single").
  { destruct (has_column data "red_inc_diff"); [|done].
    rewrite Hitems in S2 by repeat constructor. congruence. }
  assert (E2 : cell r2 "DV_2item" = cell r1 "DV_2item" ∧
               cell r2 "DV_2item_scaled" = cell r1 "DV_2item_scaled").
  { destruct (has_column data "gov_int" && has_column data "red_inc_diff");
      [|done].
    destruct T1 as [M1 R1], T2 as [M2 R2].
    rewrite (row_mean_ext _ r1 r2) in M2.
    2:{ intros c Hc. apply Hitems. unfold dv_vars.
        apply elem_of_cons in Hc as [->|Hc]; [repeat constructor|].
        apply list_elem_of_singleton in Hc as ->. repeat constructor. }
    assert (E : cell r2 "DV_2item" = cell r1 "DV_2item") by congruence.
    split; [done|]. rewrite E in R2. congruence. }
  assert (E3 : cell r2 "DV_3item" = cell r1 "DV_3item" ∧
               cell r2 "DV_3item_scaled" = cell r1 "DV_3item_scaled").
  { destruct (forallb (has_column data) dv_vars); [|done].
    destruct U1 as [M1 R1], U2 as [M2 R2].
    rewrite (row_mean_ext _ r1 r2) in M2 by done.
    assert (E : cell r2 "DV_3item" = cell r1 "DV_3item") by congruence.
    split; [done|]. rewrite E in R2. congruence. }
  intros c Hc. unfold outcome_columns in Hc.
  apply elem_of_app in Hc as [Hc|Hc]; [by apply Hitems|].
  destruct E2 as [E2 E2'], E3 as [E3 E3'].
  repeat (apply elem_of_cons in Hc as [->|Hc]; [done|]).
  by apply elem_of_nil in Hc.
Qed.

(** C9.  Let [recode_survey_variables] return a table [d1].  Run on
    [d1] again, it returns a table [d2] with as many rows, in which every
    row has the same 7-point items and the same outcomes ([DV_single],
    [DV_2item], [DV_2item_scaled], [DV_3item], [DV_3item_scaled]) as in
    [d1]: the second run computes the outcomes from the item columns of
    [d1], which the first run left in place with only the refused answers
    made missing, and not from the outcomes of [d1].  The rescaling
    itself is not idempotent: 4 gives 50, and 50 gives another number. *)
Theorem recode_survey_variables_idempotent (data d1 : DataFrame) :
  recode_survey_variables data = Some d1 →
  (∃ d2, recode_survey_variables d1 = Some d2 ∧
     nrows d2 = nrows d1 ∧
     ∀ i r1, rows d1 !! i = Some r1 →
       ∃ r2, rows d2 !! i = Some r2 ∧ dv_cells d1 r1 r2 ∧
         ∀ c, c ∈ outcome_columns → cell r2 c = cell r1 c) ∧
  (∃ v w, rescale (Num 4) = Some v ∧ rescale v = Some w ∧
          value_eqb w v = false).
Proof.
  intros Hd1. split.
  - destruct (recode_again_total _ _ Hd1) as [d2 Hd2]. exists d2.
    destruct (recode_cells _ _ Hd1) as (Hn1 & Hh1 & Hc1).
    destruct (recode_cells _ _ Hd2) as (Hn2 & Hh2 & Hc2).
    split; [done|]. split; [done|]. intros i r1 Hr1.
    destruct (Hc2 i r1 Hr1) as (r2 & Hr2 & Hdv2). exists r2.
    split; [done|]. split; [done|].
    destruct (lookup_lt_is_Some_2 (rows data) i) as [r Hr].
    { apply lookup_lt_Some in Hr1. unfold nrows in Hn1. by rewrite <- Hn1. }
    destruct (Hc1 i r Hr) as (r1' & Hr1' & Hdv1).
    assert (r1' = r1) as -> by congruence.
    by apply (dv_cells_again data d1 r).
  - eexists _, _. split; [reflexivity|]. split; [reflexivity|]. reflexivity.
Qed.

End Recode.

Definition recode_example : DataFrame :=
  mkDF [("gov_int", float64); ("red_inc_diff", float64); ("union_pref", float64);
        ("sex", float64); ("birth_year", float64); ("educyrs", float64);
        ("born_in_nl", float64); ("owns_home", float64)]
    [ {["gov_int" := Num 2; "red_inc_diff" := Num 4; "union_pref" := Num 8;
        "sex" := Num 1; "birth_year" := Num 1980; "educyrs" := Num 12;
        "born_in_nl" := Num 1; "owns_home" := Num 1]};
      {["gov_int" := NaN; "red_inc_diff" := Num 8; "union_pref" := Num 7;
        "sex" := Num 2; "birth_year" := Num 1960; "educyrs" := Num 16;
        "born_in_nl" := Num 0; "owns_home" := NaN]} ].

Definition recode_example_once : DataFrame :=
  default empty_frame (recode_survey_variables (H := reference_numlib) recode_example).

(** The hypothesis of C9 on a table of two respondents. *)
Lemma recode_survey_variables_idempotent_witness :
  recode_survey_variables (H := reference_numlib) recode_example
    = Some recode_example_once ∧
  ∃ d2, recode_survey_variables (H := reference_numlib) recode_example_once
          = Some d2 ∧
    nrows d2 = nrows recode_example_once ∧
    ∀ i r1, rows recode_example_once !! i = Some r1 →
      ∃ r2, rows d2 !! i = Some r2 ∧ dv_cells recode_example_once r1 r2 ∧
        ∀ c, c ∈ outcome_columns → cell r2 c = cell r1 c.
Proof.
  assert (Hrun : recode_survey_variables (H := reference_numlib) recode_example
                 = Some recode_example_once) by (vm_compute; reflexivity).
  split; [exact Hrun|].
  exact (proj1 (recode_survey_variables_idempotent (H := reference_numlib)
                  recode_example recode_example_once Hrun)).
Defined.

(** The example run once and twice: the outcomes stay, while the label
    of [sex] does not (the labels of the first run are not keys of the
    map of the second). *)
Example recode_example_twice :
  (df ← recode_survey_variables (H := reference_numlib) recode_example;
   Some (map (λ r, map (cell r) ["red_inc_diff"; "DV_single"; "sex"]) (rows df)))
  = Some [[Num 4; Num (300 # 6); Str "Male"]; [NaN; NaN; Str "Female"]] ∧
  (df ← recode_survey_variables (H := reference_numlib) recode_example;
   df ← recode_survey_variables (H := reference_numlib) df;
   Some (map (λ r, map (cell r) ["red_inc_diff"; "DV_single"; "sex"]) (rows df)))
  = Some [[Num 4; Num (300 # 6); NaN]; [NaN; NaN; NaN]].
Proof. split; vm_compute; reflexivity. Qed.

(** The hypotheses of C6 on the specification's second scenario. *)
Lemma recode_survey_variables_outcomes_witness :
  ∃ df, recode_survey_variables (H := reference_numlib) scenario_2 = Some df ∧
    ∃ r', rows df !! 0%nat = Some r' ∧ dv_cells scenario_2 scenario_2_row r' ∧
      cell r' "red_inc_diff" = Num 4 ∧
      in_range 0 100 (cell r' "DV_single").
Proof.
  destruct (recode_survey_variables (H := reference_numlib) scenario_2)
    as [df|] eqn:Hdf; [|by vm_compute in Hdf].
  exists df. split; [reflexivity|].
  destruct (recode_survey_variables_outcomes (H := reference_numlib) scenario_2 df)
    as (Hrows & _).
  destruct (Hrows Hdf 0%nat scenario_2_row eq_refl)
    as (r' & Hr' & Hdv & Hitem & Hrange).
  exists r'. split; [exact Hr'|]. split; [exact Hdv|].
  pose proof (Hitem eq_refl) as Hcells. cbn in Hcells.
  destruct Hcells as [Hitem4 Hsingle].
  split; [exact Hitem4|].
  apply Hrange; [|reflexivity].
  intros var Hvar. destruct Hdv as (Hitems & _).
  rewrite (Hitems var Hvar).
  unfold dv_vars in Hvar.
  apply elem_of_cons in Hvar as [->|Hvar]; [vm_compute; done|].
  apply elem_of_cons in Hvar as [->|Hvar]; [vm_compute; intuition discriminate|].
  apply list_elem_of_singleton in Hvar as ->. vm_compute; done.
Defined.

Section Inequality.

(** One turn of the loop over the three prefixes. *)
Definition inequality_step (odf : option DataFrame) (prefix : string) :
    option DataFrame :=
  df ← odf;
  let low40_col := prefix +:+ "perc_low40_hh" in
  let high20_col := prefix +:+ "perc_high20_hh" in
  if has_column df low40_col && has_column df high20_col then
    let pol_col := prefix +:+ "income_polarization" in
    df ← assign_try df pol_col float64
           (λ r, vadd (cell r low40_col) (cell r high20_col));
    let ratio_col := prefix +:+ "income_ratio" in
    assign_try df ratio_col float64
      (λ r, a ← vabs (cell r low40_col);
            den ← vadd a (Num 0.01);
            vdiv (cell r high20_col) den)
  else Some df.

(** [create_inequality_indices] *)
Definition create_inequality_indices (data : DataFrame) : option DataFrame :=
  foldl inequality_step (Some data) ["b_"; "w_"; "g_"].

Lemma append_inj_l (p a b : string) : p +:+ a = p +:+ b → a = b.
Proof. induction p as [|c p IH]; [done|]. rewrite !app_cons. by intros [= ?%IH]. Qed.

(** The two indices of one row, from its two shares. *)
Definition indices_of (low high pol ratio : value) : Prop :=
  match low, high with
  | Num l, Num h =>
      pol = Num (l + h) ∧ ratio = Num (h / (Qabs l + 0.01)) ∧
      (0.01 <= Qabs l + 0.01)%Q
  | Str _, _ | _, Str _ => False
  | _, _ => pol = NaN ∧ ratio = NaN
  end.

Lemma ratio_denominator (l : Q) :
  (0.01 <= Qabs l + 0.01)%Q ∧ Qeq_bool (Qabs l + 0.01) 0 = false.
Proof.
  pose proof (Qabs_nonneg l) as Hl.
  split; [lra|].
  destruct (Qeq_bool (Qabs l + 0.01) 0) eqn:E; [|done].
  apply Qeq_bool_iff in E. lra.
Qed.

Lemma indices_of_computed (low high v1 v2 : value) :
  vadd low high = Some v1 →
  (a ← vabs low; den ← vadd a (Num 0.01); vdiv high den) = Some v2 →
  indices_of low high v1 v2.
Proof.
  unfold indices_of. destruct low as [|l|s], high as [|h|t]; simpl; try done.
  - by intros [= <-] [= <-].
  - by intros [= <-] [= <-].
  - by intros [= <-] [= <-].
  - destruct (ratio_denominator l) as [Hle ->]. by intros [= <-] [= <-].
Qed.

Lemma inequality_step_rows (df df' : DataFrame) (prefix : string) :
  inequality_step (Some df) prefix = Some df' →
  nrows df' = nrows df ∧
  if has_column df (prefix +:+ "perc_low40_hh") &&
     has_column df (prefix +:+ "perc_high20_hh")
  then
    (∀ c, c ∈ column_names df' ↔
          c = prefix +:+ "income_ratio" ∨ c = prefix +:+ "income_polarization" ∨
          c ∈ column_names df) ∧
    Forall2 (λ r r', ∃ v1 v2,
               indices_of (cell r (prefix +:+ "perc_low40_hh"))
                          (cell r (prefix +:+ "perc_high20_hh")) v1 v2 ∧
               r' = <[prefix +:+ "income_ratio" := v2]>
                      (<[prefix +:+ "income_polarization" := v1]> r))
            (rows df) (rows df')
  else df' = df.
Proof.
  unfold inequality_step. cbn [mbind option_bind].
  destruct (has_column df _ && has_column df _); [|by intros [= <-]].
  destruct (assign_try df _ _ _) as [df1|] eqn:H1; [|done].
  cbn [mbind option_bind]. intros H2.
  pose proof (assign_try_frame _ _ _ _ _ H1) as (Hn1 & Hnames1 & _ & _).
  pose proof (assign_try_frame _ _ _ _ _ H2) as (Hn2 & Hnames2 & _ & _).
  apply assign_try_Some in H1 as [_ Hr1]. apply assign_try_Some in H2 as [_ Hr2].
  split; [congruence|]. split.
  { intros c. rewrite Hnames2, Hnames1. tauto. }
  apply Forall2_same_length_lookup. split.
  { unfold nrows in *. lia. }
  intros i r r' Hr Hr'.
  destruct (Forall2_lookup_l _ _ _ _ _ Hr1 Hr) as (r1 & Hi1 & v1 & Hv1 & ->).
  destruct (Forall2_lookup_l _ _ _ _ _ Hr2 Hi1) as (r2 & Hi2 & v2 & Hv2 & ->).
  rewrite Hr' in Hi2. injection Hi2 as ->.
  exists v1, v2. split; [|done].
  rewrite !cell_insert_ne in Hv2 by (by intros ?%append_inj_l).
  by apply indices_of_computed.
Qed.

Lemma foldl_inequality_None (ps : list string) :
  foldl inequality_step None ps = None.
Proof. by induction ps. Qed.

(** A turn for one prefix leaves the cells of the other columns, and
    which columns exist among them, as they are. *)
Lemma inequality_step_frame (df df' : DataFrame) (prefix : string) (i : nat)
    (r : row) :
  inequality_step (Some df) prefix = Some df' →
  rows df !! i = Some r →
  ∃ r', rows df' !! i = Some r' ∧
    ∀ c, c ≠ prefix +:+ "income_ratio" → c ≠ prefix +:+ "income_polarization" →
         cell r' c = cell r c ∧ has_column df' c = has_column df c.
Proof.
  intros Hstep Hr. apply inequality_step_rows in Hstep as [Hn Hstep].
  destruct (has_column df _ && has_column df _).
  - destruct Hstep as [Hnames Hrows].
    destruct (Forall2_lookup_l _ _ _ _ _ Hrows Hr) as (r' & Hr' & v1 & v2 & _ & ->).
    exists (<[prefix +:+ "income_ratio" := v2]>
              (<[prefix +:+ "income_polarization" := v1]> r)).
    split; [done|]. intros c Hc1 Hc2. split; [by cells|].
    unfold has_column. apply bool_decide_ext. rewrite Hnames. tauto.
  - subst df'. exists r. split; [done|]. by intros c _ _.
Qed.

Lemma inequality_step_frame_back (df df' : DataFrame) (prefix : string)
    (r' : row) :
  inequality_step (Some df) prefix = Some df' →
  r' ∈ rows df' →
  ∃ r, r ∈ rows df ∧
    ∀ c, c ≠ prefix +:+ "income_ratio" → c ≠ prefix +:+ "income_polarization" →
         cell r' c = cell r c.
Proof.
  intros Hstep [i Hi]%list_elem_of_lookup.
  pose proof (inequality_step_rows _ _ _ Hstep) as [Hn _].
  destruct (rows df !! i) as [r|] eqn:Hr.
  2:{ apply lookup_ge_None in Hr. apply lookup_lt_Some in Hi.
      unfold nrows in Hn. lia. }
  destruct (inequality_step_frame _ _ _ i r Hstep Hr) as (r'' & Hr'' & F).
  rewrite Hi in Hr''. injection Hr'' as <-.
  exists r. split; [by eapply list_elem_of_lookup_2|].
  intros c Hc1 Hc2. by apply F.
Qed.

Lemma inequality_step_total (df : DataFrame) (prefix : string) :
  (∀ r, r ∈ rows df →
        is_str (cell r (prefix +:+ "perc_low40_hh")) = false ∧
        is_str (cell r (prefix +:+ "perc_high20_hh")) = false) →
  is_Some (inequality_step (Some df) prefix).
Proof.
  intros Hok. unfold inequality_step. cbn [mbind option_bind].
  destruct (has_column df _ && has_column df _); [|by eexists].
  destruct (assign_try_is_Some df (prefix +:+ "income_polarization") float64
              (λ r, vadd (cell r (prefix +:+ "perc_low40_hh"))
                         (cell r (prefix +:+ "perc_high20_hh")))) as [df1 H1].
  { intros r Hr. destruct (Hok r Hr) as [Hl Hh].
    destruct (cell r _), (cell r _); simpl; try done; by eexists. }
  rewrite H1. cbn [mbind option_bind].
  apply assign_try_is_Some. intros r1 Hr1.
  apply assign_try_Some in H1 as [_ Hrows].
  apply list_elem_of_lookup in Hr1 as [i Hi].
  destruct (Forall2_lookup_r _ _ _ _ _ Hrows Hi) as (r & Hr & v & _ & ->).
  rewrite !cell_insert_ne by (by intros ?%append_inj_l).
  destruct (Hok r) as [Hl Hh]; [by eapply list_elem_of_lookup_2|].
  destruct (cell r _) as [|l|], (cell r _) as [|h|]; simpl; try done; by eexists.
Qed.

Definition scenario_3_row : row :=
  {["b_perc_low40_hh" := Num 20; "b_perc_high20_hh" := Num 30]}.

Definition scenario_3 : DataFrame :=
  mkDF [("b_perc_low40_hh", float64); ("b_perc_high20_hh", float64)]
    [scenario_3_row].

Definition index_prefixes : list string := ["b_"; "w_"; "g_"].

(** C8.  Let [create_inequality_indices] return a table.  For each of
    the three prefixes whose two household-income share columns exist
    in the input, every row with numeric shares [l] (bottom 40%) and
    [h] (top 20%) gets the polarization index [l + h] and the ratio
    index [h / (|l| + 0.01)], whose denominator is at least 0.01; a
    row with a missing share gets two missing indices.  The function
    does return a table when the share columns hold no strings.  For
    shares 20 and 30 the indices are 50 and 30/20.01, between 1.4992
    and 1.4994. *)
Theorem create_inequality_indices_correct (data : DataFrame) :
  (∀ df prefix,
     create_inequality_indices data = Some df →
     prefix ∈ index_prefixes →
     has_column data (prefix +:+ "perc_low40_hh") = true →
     has_column data (prefix +:+ "perc_high20_hh") = true →
     ∀ i r, rows data !! i = Some r →
       ∃ r', rows df !! i = Some r' ∧
         indices_of (cell r (prefix +:+ "perc_low40_hh"))
                    (cell r (prefix +:+ "perc_high20_hh"))
                    (cell r' (prefix +:+ "income_polarization"))
                    (cell r' (prefix +:+ "income_ratio"))) ∧
  ((∀ prefix r, prefix ∈ index_prefixes → r ∈ rows data →
      is_str (cell r (prefix +:+ "perc_low40_hh")) = false ∧
      is_str (cell r (prefix +:+ "perc_high20_hh")) = false) →
   is_Some (create_inequality_indices data)) ∧
  (∃ df r' pol ratio,
     create_inequality_indices scenario_3 = Some df ∧ rows df = [r'] ∧
     cell r' "b_income_polarization" = Num pol ∧ (pol == 50)%Q ∧
     cell r' "b_income_ratio" = Num ratio ∧ (ratio == 30 / 20.01)%Q ∧
     (1.4992 < ratio < 1.4994)%Q).
Proof.
  split; [|split].
  - intros df prefix Hdf Hprefix Hlow Hhigh i r Hr.
    unfold create_inequality_indices in Hdf. cbn [foldl] in Hdf.
    destruct (inequality_step (Some data) "b_") as [d1|] eqn:H1; [|done].
    destruct (inequality_step (Some d1) "w_") as [d2|] eqn:H2; [|done].
    destruct (inequality_step_frame _ _ _ i r H1 Hr) as (r1 & Hr1 & F1).
    destruct (inequality_step_frame _ _ _ i r1 H2 Hr1) as (r2 & Hr2 & F2).
    destruct (inequality_step_frame _ _ _ i r2 Hdf Hr2) as (r3 & Hr3 & F3).
    exists r3. split; [done|].
    unfold index_prefixes in Hprefix.
    apply elem_of_cons in Hprefix as [->|Hprefix];
      [|apply elem_of_cons in Hprefix as [->|Hprefix];
        [|apply list_elem_of_singleton in Hprefix as ->]].
    + apply inequality_step_rows in H1 as [_ H1]. rewrite Hlow, Hhigh in H1.
      destruct H1 as [_ H1].
      destruct (Forall2_lookup_l _ _ _ _ _ H1 Hr) as (r1' & Hr1' & v1 & v2 & Hind & ->).
      rewrite Hr1 in Hr1'. injection Hr1' as ->.
      destruct (F3 ("b_" +:+ "income_polarization")) as [-> _]; [done..|].
      destruct (F3 ("b_" +:+ "income_ratio")) as [-> _]; [done..|].
      destruct (F2 ("b_" +:+ "income_polarization")) as [-> _]; [done..|].
      destruct (F2 ("b_" +:+ "income_ratio")) as [-> _]; [done..|].
      by cells.
    + destruct (F1 ("w_" +:+ "perc_low40_hh")) as [Hc1 Hh1]; [done..|].
      destruct (F1 ("w_" +:+ "perc_high20_hh")) as [Hc2 Hh2]; [done..|].
      apply inequality_step_rows in H2 as [_ H2].
      rewrite Hh1, Hh2, Hlow, Hhigh in H2. destruct H2 as [_ H2].
      destruct (Forall2_lookup_l _ _ _ _ _ H2 Hr1) as (r2' & Hr2' & v1 & v2 & Hind & ->).
      rewrite Hr2 in Hr2'. injection Hr2' as ->.
      destruct (F3 ("w_" +:+ "income_polarization")) as [-> _]; [done..|].
      destruct (F3 ("w_" +:+ "income_ratio")) as [-> _]; [done..|].
      rewrite Hc1, Hc2 in Hind. by cells.
    + destruct (F1 ("g_" +:+ "perc_low40_hh")) as [Hc1 Hh1]; [done..|].
      destruct (F1 ("g_" +:+ "perc_high20_hh")) as [Hc2 Hh2]; [done..|].
      destruct (F2 ("g_" +:+ "perc_low40_hh")) as [Hc3 Hh3]; [done..|].
      destruct (F2 ("g_" +:+ "perc_high20_hh")) as [Hc4 Hh4]; [done..|].
      apply inequality_step_rows in Hdf as [_ H3].
      rewrite Hh3, Hh4, Hh1, Hh2, Hlow, Hhigh in H3. destruct H3 as [_ H3].
      destruct (Forall2_lookup_l _ _ _ _ _ H3 Hr2) as (r3' & Hr3' & v1 & v2 & Hind & ->).
      rewrite Hr3 in Hr3'. injection Hr3' as ->.
      rewrite Hc3, Hc4, Hc1, Hc2 in Hind. by cells.
  - intros Hok. unfold create_inequality_indices. cbn [foldl].
    destruct (inequality_step_total data "b_") as [d1 H1].
    { intros r Hr. apply Hok; [|done]. unfold index_prefixes. repeat constructor. }
    rewrite H1.
    destruct (inequality_step_total d1 "w_") as [d2 H2].
    { intros r1 Hr1.
      destruct (inequality_step_frame_back _ _ _ _ H1 Hr1) as (r & Hr & F).
      rewrite !F by done. apply Hok; [|done]. unfold index_prefixes. repeat constructor. }
    rewrite H2.
    apply inequality_step_total. intros r2 Hr2.
    destruct (inequality_step_frame_back _ _ _ _ H2 Hr2) as (r1 & Hr1 & F2).
    destruct (inequality_step_frame_back _ _ _ _ H1 Hr1) as (r & Hr & F1).
    rewrite !F2, !F1 by done. apply Hok; [|done]. unfold index_prefixes. repeat constructor.
  - eexists _, _, _, _. split; [reflexivity|]. split; [reflexivity|].
    split; [reflexivity|]. split; [reflexivity|].
    split; [reflexivity|]. split; [reflexivity|].
    split; reflexivity.
Qed.

End Inequality.

Definition scenario_3_result : DataFrame :=
  default empty_frame (create_inequality_indices scenario_3).

(** The hypotheses of C8 on the specification's third scenario. *)
Lemma create_inequality_indices_correct_witness :
  (create_inequality_indices scenario_3 = Some scenario_3_result ∧
   "b_" ∈ index_prefixes ∧
   has_column scenario_3 ("b_" +:+ "perc_low40_hh") = true ∧
   has_column scenario_3 ("b_" +:+ "perc_high20_hh") = true ∧
   rows scenario_3 !! 0%nat = Some scenario_3_row ∧
   ∃ r', rows scenario_3_result !! 0%nat = Some r' ∧
     indices_of (cell scenario_3_row ("b_" +:+ "perc_low40_hh"))
                (cell scenario_3_row ("b_" +:+ "perc_high20_hh"))
                (cell r' ("b_" +:+ "income_polarization"))
                (cell r' ("b_" +:+ "income_ratio"))) ∧
  ((∀ prefix r, prefix ∈ index_prefixes → r ∈ rows scenario_3 →
      is_str (cell r (prefix +:+ "perc_low40_hh")) = false ∧
      is_str (cell r (prefix +:+ "perc_high20_hh")) = false) ∧
   is_Some (create_inequality_indices scenario_3)).
Proof.
  destruct (create_inequality_indices_correct scenario_3) as (Hrows & Htotal & _).
  assert (Hok : ∀ prefix r, prefix ∈ index_prefixes → r ∈ rows scenario_3 →
            is_str (cell r (prefix +:+ "perc_low40_hh")) = false ∧
            is_str (cell r (prefix +:+ "perc_high20_hh")) = false).
  { intros prefix r Hp Hr. apply list_elem_of_singleton in Hr as ->.
    unfold index_prefixes in Hp.
    apply elem_of_cons in Hp as [->|Hp]; [by vm_compute|].
    apply elem_of_cons in Hp as [->|Hp]; [by vm_compute|].
    apply list_elem_of_singleton in Hp as ->. by vm_compute. }
  split.
  - split; [reflexivity|]. split; [left|]. do 3 (split; [reflexivity|]).
    apply (Hrows scenario_3_result "b_"); [reflexivity|left|reflexivity..].
  - split; [exact Hok|]. exact (Htotal Hok).
Defined.

Definition standardize_example : DataFrame :=
  mkDF [("b_pop_dens", float64); ("b_const", float64);
        ("b_name", object); ("age", float64)]
    [ {["b_pop_dens" := Num 1; "b_const" := Num 2;
        "b_name" := Str "Centrum"; "age" := Num 30]};
      {["b_pop_dens" := Num 3; "b_const" := Num 2;
        "b_name" := Str "Oost"; "age" := Num 50]};
      {["b_pop_dens" := NaN; "b_const" := Num 2;
        "b_name" := NaN; "age" := Num 40]} ].


(** On that table only the varying column [b_pop_dens] changes:
    mean 2, standard deviation [sqrt 2]. *)
Example standardize_context_vars_example :
  (df ← standardize_context_vars (H := reference_numlib)
          standardize_example default_prefixes;
   Some (map (λ r, map (cell r) (column_names df)) (rows df))) =
  Some [[Num (-2000000 # 2828426); Num 2; Str "Centrum"; Num 30];
        [Num (2000000 # 2828426); Num 2; Str "Oost"; Num 50];
        [NaN; Num 2; NaN; Num 40]].
Proof. vm_compute. reflexivity. Qed.

Definition admin_example : DataFrame :=
  mkDF [("region_code", object); ("AantalInwoners_5", float64)]
    [ {["region_code" := Str "BU03630100"; "AantalInwoners_5" := Num 10]};
      {["region_code" := Str "WK036301  "; "AantalInwoners_5" := Num 20]};
      {["region_code" := Str "BU3630100"; "AantalInwoners_5" := Num 30]};
      {["region_code" := Str "GM0363"; "AantalInwoners_5" := Num 40]};
      {["region_code" := Str "NL00"; "AantalInwoners_5" := Num 50]};
      {["region_code" := NaN; "AantalInwoners_5" := Num 60]} ].


(** The tables of that example: the second buurt row, whose id pads
    to the id of the first, is dropped; the two last rows are in no
    table. *)
Example prepare_admin_by_level_example :
  (t ← prepare_admin_by_level (H := reference_numlib) admin_example;
   Some (map (λ k, (λ df, map (λ r, map (cell r) (column_names df)) (rows df))
                     <$> t !! k)
             ["buurt"; "wijk"; "gemeente"])) =
  Some [Some [[Str "03630100"; Num 10]];
        Some [[Str "036301"; Num 20]];
        Some [[Str "0363"; Num 40]]].
Proof. vm_compute. reflexivity. Qed.


End Transform.

(** ** Printing and exceptions

    The functions of [merge.py], [analyze.py] and [run_pipeline.py]
    print progress lines and can raise.  A computation is the list of
    the lines it printed, in order, and then either the exception that
    ended it or its value. *)

Module Py.

Inductive exn :=
| KeyError (key : string)
| ValueError (msg : string)
| ZeroDivisionError
| IndexError
| MergeError
| LibraryError (class msg : string).

Record io (A : Type) := IO {
  printed : list string;
  outcome : exn + A
}.

#[global] Arguments IO {A} _ _.
#[global] Arguments printed {A} _.
#[global] Arguments outcome {A} _.

Definition ret {A : Type} (a : A) : io A := IO [] (inr a).

Definition bind {A B : Type} (m : io A) (f : A → io B) : io B :=
  match m with
  | IO l (inl e) => IO l (inl e)
  | IO l (inr a) =>
      match f a with
      | IO l' r => IO (l ++ l')%list r
      end
  end.

#[global] Instance io_ret : MRet io := @ret.
#[global] Instance io_bind : MBind io := λ A B f m, bind m f.

Definition print (line : string) : io unit := IO [line] (inr tt).

Definition raise {A : Type} (e : exn) : io A := IO [] (inl e).

(** A call that prints nothing. *)
Definition lift {A : Type} (r : exn + A) : io A := IO [] r.

(** What the Python runtime and its libraries decide: the digits of
    [f"{x:.nf}"] and the text of [str(e)]. *)
Class Runtime := {
  format_fixed : nat → Q → string;
  str_exn : exn → string
}.

(** [repr] of a list of column names. *)
Definition repr_list (l : list string) : string :=
  "[" +:+ PyStr.join ", " (map (λ s, "'" +:+ s +:+ "'") l) +:+ "]".

Lemma bind_outcome {A B : Type} (m : io A) (f : A → io B) :
  outcome (m ≫= f) =
  match outcome m with inl e => inl e | inr a => outcome (f a) end.
Proof.
  destruct m as [l [e|a]]; cbn; [done|]. by destruct (f a).
Qed.

(** An instance to run the functions on examples: the digits of the
    rational rounded half to even, and plain texts. *)
Definition round_half_even (q : Q) : Z :=
  let f := Qfloor q in
  let d := (q - inject_Z f)%Q in
  match (d ?= 1 # 2)%Q with
  | Lt => f
  | Gt => (f + 1)%Z
  | Eq => if Z.even f then f else (f + 1)%Z
  end.

Definition fixed_digits (n : nat) (q : Q) : string :=
  let p := (10 ^ Z.of_nat n)%Z in
  let r := round_half_even (q * inject_Z p) in
  let a := Z.abs r in
  (if (r <? 0)%Z then "-" else "") +:+ pretty (a / p)%Z +:+
  (if (n =? 0)%nat then "" else "." +:+ PyStr.zfill n (pretty (a mod p)%Z)).

Definition reference_str (e : exn) : string :=
  match e with
  | KeyError key => "'" +:+ key +:+ "'"
  | ValueError msg => msg
  | ZeroDivisionError => "division by zero"
  | IndexError => "single positional indexer is out-of-bounds"
  | MergeError => "Passing 'suffixes' which cause duplicate columns is not allowed."
  | LibraryError _ msg => msg
  end.

Definition reference_runtime : Runtime :=
  {| format_fixed := fixed_digits; str_exn := reference_str |}.

Ltac io_simpl :=
  cbn [mbind io_bind bind mret io_ret ret lift raise print outcome printed
       app].

End Py.

(** ** merge.py *)

Module Merge.
Import PyStr Pandas Py.

(** From [config.py]. *)
Definition BUURT_CONTROLS : list string :=
  ["b_pop_dens"; "b_pop_over_65"; "b_pop_nonwest"; "b_perc_low_inc_hh";
   "b_perc_soc_min_hh"].

Definition MIN_CLUSTER_SIZE : nat := 2.

(** *** [DataFrame.merge(right, on=key, how="left")] *)

(** The rows of [right] whose key is that of the left row [l], in
    the order of [right].  Missing keys match each other. *)
Definition matches (key : string) (right : DataFrame) (l : row) : list row :=
  List.filter (λ r, value_eqb (cell l key) (cell r key)) (rows right).

(** A column name of both tables, other than the key, gets the
    suffix [_x] on the left and [_y] on the right. *)
Definition overlap (key : string) (left right : DataFrame) (c : string) : bool :=
  negb (String.eqb c key) && has_column left c && has_column right c.

Definition left_name (key : string) (left right : DataFrame) (c : string) :
    string :=
  if overlap key left right c then c +:+ "_x" else c.

Definition right_name (key : string) (left right : DataFrame) (c : string) :
    string :=
  if overlap key left right c then c +:+ "_y" else c.

Definition right_columns (key : string) (right : DataFrame) :
    list (string * dtype) :=
  List.filter (λ cd, negb (String.eqb cd.1 key)) (columns right).

(** One row of the result: the cells of the left row, and those of
    the matching right row, or missing cells when there is none. *)
Definition joined_row (key : string) (left right : DataFrame) (l : row)
    (r : option row) : row :=
  rebuild_row (column_names left) (left_name key left right) l ∪
  rebuild_row (right_columns key right).*1 (right_name key left right)
    (default ∅ r).

Definition joined_rows (key : string) (left right : DataFrame) (l : row) :
    list row :=
  match matches key right l with
  | [] => [joined_row key left right l None]
  | ms => map (λ r, joined_row key left right l (Some r)) ms
  end.

(** A whole-number column of the right table becomes a float column
    when a left row without a match puts missing cells into it. *)
Definition joined_dtype (unmatched : bool) (d : dtype) : dtype :=
  match d with
  | int64 => if unmatched then float64 else int64
  | _ => d
  end.

Definition joined_columns (key : string) (left right : DataFrame) :
    list (string * dtype) :=
  let unmatched :=
    existsb (λ l, bool_decide (matches key right l = [])) (rows left) in
  (map (λ cd, (left_name key left right cd.1, cd.2)) (columns left) ++
   map (λ cd, (right_name key left right cd.1, joined_dtype unmatched cd.2))
       (right_columns key right))%list.

Definition is_numeric (d : dtype) : bool :=
  match d with float64 | int64 => true | _ => false end.

Definition dtype_name (d : dtype) : string :=
  match d with
  | float64 => "float64"
  | int64 => "int64"
  | object => "object"
  | category => "category"
  end.

(** What pandas infers for the cells of a key column when an object
    key meets a numeric key: string-like when a cell is a string or
    the column is empty. *)
Definition string_like (d : dtype) (l : list value) : bool :=
  match l with
  | [] => true
  | _ => if is_numeric d then false else existsb is_str l
  end.

(** The keys of an object column and of a numeric column are merged
    only when both or none of them are string-like. *)
Definition keys_comparable (dl dr : dtype) (kl kr : list value) : bool :=
  match dl, dr with
  | object, (float64 | int64) | (float64 | int64), object =>
      match kl, kr with
      | [], [] => true
      | _, _ => bool_decide (string_like dl kl = string_like dr kr)
      end
  | _, _ => true
  end.

(** The left join.  [KeyError] when the key is not a column of both
    tables, [ValueError] when the keys cannot be compared.  The tables
    of this embedding have one column of each name: where the
    suffixes would give a name twice the result is [MergeError]. *)
Definition merge_left (left right : DataFrame) (key : string) :
    exn + DataFrame :=
  match dtype_of left key, dtype_of right key with
  | Some dl, Some dr =>
      if keys_comparable dl dr (series left key) (series right key) then
        let cols := joined_columns key left right in
        if bool_decide (NoDup cols.*1) then
          inr (mkDF cols (flat_map (joined_rows key left right) (rows left)))
        else inl MergeError
      else
        inl (ValueError
               ("You are trying to merge on " +:+ dtype_name dl +:+ " and " +:+
                dtype_name dr +:+ " columns for key '" +:+ key +:+
                "'. If you wish to proceed you should use pd.concat"))
  | _, _ => inl (KeyError key)
  end.

(** No two rows with the same key. *)
Fixpoint distinct_keys (key : string) (rs : list row) : bool :=
  match rs with
  | [] => true
  | r :: rs' =>
      negb (existsb (λ r', value_eqb (cell r key) (cell r' key)) rs') &&
      distinct_keys key rs'
  end.

Definition sum_list (l : list nat) : nat := foldr Nat.add 0%nat l.

Lemma length_flat_map {A B : Type} (f : A → list B) (l : list A) :
  length (flat_map f l) = sum_list (map (λ x, length (f x)) l).
Proof.
  induction l as [|x l IH]; [done|]. simpl.
  by rewrite List.length_app, IH.
Qed.

Lemma length_joined_rows (key : string) (left right : DataFrame) (l : row) :
  length (joined_rows key left right l) =
  (1 `max` length (matches key right l))%nat.
Proof.
  unfold joined_rows. destruct (matches key right l) as [|m ms]; [done|].
  rewrite length_map. simpl. lia.
Qed.

(** The rows of a left join: every left row gives one row, or as
    many as it has matches. *)
Lemma merge_left_nrows (left right merged : DataFrame) (key : string) :
  merge_left left right key = inr merged →
  nrows merged =
  sum_list (map (λ l, 1 `max` length (matches key right l))%nat (rows left)).
Proof.
  unfold merge_left.
  destruct (dtype_of left key); [|done]. destruct (dtype_of right key); [|done].
  destruct (keys_comparable _ _ _ _); [|done].
  destruct (bool_decide _); [|done]. intros [= <-].
  unfold nrows. cbn [rows]. rewrite length_flat_map.
  f_equal. apply map_ext. intros l. apply length_joined_rows.
Qed.

Lemma sum_list_ge (f : row → nat) (rs : list row) :
  (∀ r, 1 <= f r)%nat → (length rs <= sum_list (map f rs))%nat.
Proof.
  intros Hf. induction rs as [|r rs IH]; simpl; [lia|].
  specialize (Hf r). lia.
Qed.

Lemma sum_list_ones (f : row → nat) (rs : list row) :
  (∀ r, f r = 1)%nat → sum_list (map f rs) = length rs.
Proof.
  intros Hf. induction rs as [|r rs IH]; simpl; [done|].
  by rewrite Hf, IH.
Qed.

Lemma merge_left_keeps_rows (left right merged : DataFrame) (key : string) :
  merge_left left right key = inr merged → (nrows left <= nrows merged)%nat.
Proof.
  intros Hm. rewrite (merge_left_nrows _ _ _ _ Hm).
  apply sum_list_ge. intros r. lia.
Qed.

Lemma distinct_keys_matches (key : string) (rs : list row) (v : value) :
  distinct_keys key rs = true →
  (length (List.filter (λ r, value_eqb v (cell r key)) rs) <= 1)%nat.
Proof.
  induction rs as [|r rs IH]; simpl; [lia|].
  intros [Hnew Hrest]%andb_true_iff. specialize (IH Hrest).
  destruct (value_eqb v (cell r key)) eqn:Hv; [|done]. simpl.
  apply negb_true_iff in Hnew.
  assert (Hnone : List.filter (λ r0, value_eqb v (cell r0 key)) rs = []).
  { clear IH Hrest. induction rs as [|r' rs IH]; [done|]. simpl in *.
    apply orb_false_iff in Hnew as [Hr' Hnew].
    rewrite <- (value_eqb_congr _ _ _ Hv) in Hr'. rewrite Hr'. by apply IH. }
  rewrite Hnone. simpl. lia.
Qed.

Lemma merge_left_same_rows (left right merged : DataFrame) (key : string) :
  distinct_keys key (rows right) = true →
  merge_left left right key = inr merged → nrows merged = nrows left.
Proof.
  intros Hd Hm. rewrite (merge_left_nrows _ _ _ _ Hm).
  apply sum_list_ones. intros l.
  pose proof (distinct_keys_matches key (rows right) (cell l key) Hd).
  unfold matches. lia.
Qed.

(** One of the three blocks of [merge_survey_admin]: the table of
    the level is joined when the dict has it and it has rows. *)
Definition merge_level (level key label : string)
    (admin_by_level : gmap string DataFrame) (merged : DataFrame) :
    io DataFrame :=
  match admin_by_level !! level with
  | Some level_data =>
      if (0 <? nrows level_data)%nat then
        merged ← lift (merge_left merged level_data key);
        print ("  + " +:+ label +:+ ": " +:+ pretty (nrows level_data) +:+
               " units");;
        mret merged
      else mret merged
  | None => mret merged
  end.

Definition warning_line (initial_n n : nat) : string :=
  "  Warning: Row count changed from " +:+ pretty initial_n +:+ " to " +:+
  pretty n.

Definition final_line (merged : DataFrame) : string :=
  "  Final merged data: " +:+ pretty (nrows merged) +:+ " rows, " +:+
  pretty (length (columns merged)) +:+ " columns".

(** [merge_survey_admin] *)
Definition merge_survey_admin (survey : DataFrame)
    (admin_by_level : gmap string DataFrame) : io DataFrame :=
  print "Merging survey with administrative data...";;
  let merged := survey in
  let initial_n := nrows merged in
  merged ← merge_level "buurt" "buurt_id" "Buurt" admin_by_level merged;
  merged ← merge_level "wijk" "wijk_id" "Wijk" admin_by_level merged;
  merged ← merge_level "gemeente" "gemeente_id" "Gemeente" admin_by_level merged;
  (if bool_decide (nrows merged ≠ initial_n)
   then print (warning_line initial_n (nrows merged))
   else mret tt);;
  print (final_line merged);;
  mret merged.

(** The three joins alone, one after the other. *)
Definition three_joins (survey : DataFrame)
    (admin_by_level : gmap string DataFrame) : io DataFrame :=
  merged ← merge_level "buurt" "buurt_id" "Buurt" admin_by_level survey;
  merged ← merge_level "wijk" "wijk_id" "Wijk" admin_by_level merged;
  merge_level "gemeente" "gemeente_id" "Gemeente" admin_by_level merged.

(** The level tables that are joined have no id twice. *)
Definition level_distinct (level key : string)
    (admin_by_level : gmap string DataFrame) : bool :=
  match admin_by_level !! level with
  | Some level_data => distinct_keys key (rows level_data)
  | None => true
  end.

Definition levels_distinct (admin_by_level : gmap string DataFrame) : bool :=
  level_distinct "buurt" "buurt_id" admin_by_level &&
  level_distinct "wijk" "wijk_id" admin_by_level &&
  level_distinct "gemeente" "gemeente_id" admin_by_level.

Lemma merge_level_inr (level key label : string)
    (admin : gmap string DataFrame) (merged merged' : DataFrame) :
  outcome (merge_level level key label admin merged) = inr merged' →
  (nrows merged <= nrows merged')%nat ∧
  (level_distinct level key admin = true → nrows merged' = nrows merged).
Proof.
  unfold merge_level, level_distinct.
  destruct (admin !! level) as [t|]; [|by intros [= <-]].
  destruct (0 <? nrows t)%nat.
  - rewrite bind_outcome. unfold lift. cbn [outcome].
    destruct (merge_left merged t key) as [e|m] eqn:Hm; [done|].
    intros [= <-]. split.
    + by eapply merge_left_keeps_rows.
    + intros Hd. by eapply merge_left_same_rows.
  - by intros [= <-].
Qed.

Lemma three_joins_inr (survey merged : DataFrame)
    (admin : gmap string DataFrame) :
  outcome (three_joins survey admin) = inr merged →
  (nrows survey <= nrows merged)%nat ∧
  (levels_distinct admin = true → nrows merged = nrows survey).
Proof.
  unfold three_joins, levels_distinct. rewrite bind_outcome.
  destruct (outcome (merge_level "buurt" _ _ _ _)) as [e|m1] eqn:H1; [done|].
  rewrite bind_outcome.
  destruct (outcome (merge_level "wijk" _ _ _ _)) as [e|m2] eqn:H2; [done|].
  intros H3.
  apply merge_level_inr in H1 as [L1 E1], H2 as [L2 E2], H3 as [L3 E3].
  split; [lia|].
  intros [[D1 D2]%andb_true_iff D3]%andb_true_iff.
  rewrite (E3 D3), (E2 D2), (E1 D1). done.
Qed.

(** The function is the three joins between its first and last
    printed lines: its outcome is theirs, and the only line it adds
    for a changed row count is the warning. *)
Lemma merge_survey_admin_joins (survey : DataFrame)
    (admin : gmap string DataFrame) :
  outcome (merge_survey_admin survey admin) = outcome (three_joins survey admin) ∧
  printed (merge_survey_admin survey admin) =
  ("Merging survey with administrative data..." ::
   printed (three_joins survey admin) ++
   match outcome (three_joins survey admin) with
   | inl _ => []
   | inr merged =>
       (if bool_decide (nrows merged ≠ nrows survey)
        then [warning_line (nrows survey) (nrows merged)] else []) ++
       [final_line merged]
   end)%list.
Proof.
  unfold merge_survey_admin, three_joins.
  destruct (merge_level "buurt" "buurt_id" "Buurt" admin survey)
    as [l1 [e1|m1]] eqn:H1; io_simpl; [by rewrite ?app_nil_r|].
  destruct (merge_level "wijk" "wijk_id" "Wijk" admin m1)
    as [l2 [e2|m2]] eqn:H2; io_simpl; [by rewrite ?app_nil_r|].
  destruct (merge_level "gemeente" "gemeente_id" "Gemeente" admin m2)
    as [l3 [e3|m3]] eqn:H3; io_simpl; [by rewrite ?app_nil_r|].
  destruct (bool_decide (nrows m3 ≠ nrows survey)); io_simpl;
    split; try done; by rewrite <- ?app_assoc.
Qed.


Lemma distinct_keys_drop_seen (c : string) (seen : list value) (rs : list row) :
  distinct_keys c (drop_seen c seen rs) = true.
Proof.
  revert seen. induction rs as [|r rs IH]; intros seen; [done|].
  simpl. destruct (existsb (value_eqb (cell r c)) seen); [apply IH|].
  simpl. rewrite IH, andb_true_r. apply negb_true_iff.
  destruct (existsb _ _) eqn:Hex; [|done].
  apply existsb_exists in Hex as (r' & Hin & Heq).
  apply list_elem_of_In, drop_seen_first in Hin as (_ & _ & Hns & _).
  simpl in Hns. apply orb_false_elim in Hns as [Hne _].
  rewrite value_eqb_sym in Hne. congruence.
Qed.

Section Joins.
Context `{NumLib}.

(** The level tables that [prepare_admin_by_level] makes have no id
    twice: it ends each of them with [drop_duplicates] on the id. *)
Lemma prepared_levels_distinct (admin_raw : DataFrame)
    (tables : gmap string DataFrame) :
  Transform.prepare_admin_by_level admin_raw = Some tables →
  levels_distinct tables = true.
Proof.
  unfold Transform.prepare_admin_by_level.
  destruct (Transform.find_region_col admin_raw) as [rc|]; [|done].
  cbn [mbind option_bind]. intros Htables. apply (inj Some) in Htables as <-.
  set (f := Transform.level_table _ _).
  assert (Hd : ∀ level prefix w,
            distinct_keys (lower level +:+ "_id") (rows (f level prefix w)) = true).
  { intros level prefix w. subst f. unfold Transform.level_table.
    destruct (Nat.eqb _ 0); [done|]. apply distinct_keys_drop_seen. }
  unfold levels_distinct, level_distinct.
  rewrite (Transform.tables_lookup f "Buurt" "buurt" "BU" "b_" 8)
    by (unfold Transform.level_codes; repeat constructor).
  rewrite (Transform.tables_lookup f "Wijk" "wijk" "WK" "w_" 6)
    by (unfold Transform.level_codes; repeat constructor).
  rewrite (Transform.tables_lookup f "Gemeente" "gemeente" "GM" "g_" 4)
    by (unfold Transform.level_codes; repeat constructor).
  pose proof (Hd "Buurt" "b_" 8%nat) as Hb.
  pose proof (Hd "Wijk" "w_" 6%nat) as Hw.
  pose proof (Hd "Gemeente" "g_" 4%nat) as Hg.
  change (lower "Buurt" +:+ "_id") with "buurt_id" in Hb.
  change (lower "Wijk" +:+ "_id") with "wijk_id" in Hw.
  change (lower "Gemeente" +:+ "_id") with "gemeente_id" in Hg.
  by rewrite Hb, Hw, Hg.
Qed.

(** C2.  The outcome of [merge_survey_admin] is that of the three
    left joins, buurt, then wijk, then gemeente, and nothing else: a
    changed number of rows raises nothing.  When it returns a table,
    the table has at least the rows of the survey; it has exactly as
    many when no joined level table has an id twice, and then the
    function prints no warning; when the number differs, the function
    prints the line [Warning: Row count changed from n to m] and
    returns the longer table all the same.  The level tables made by
    [prepare_admin_by_level] have no id twice. *)
Theorem merge_survey_admin_row_count (survey : DataFrame)
    (admin : gmap string DataFrame) :
  outcome (merge_survey_admin survey admin) = outcome (three_joins survey admin) ∧
  (∀ admin_raw, Transform.prepare_admin_by_level admin_raw = Some admin →
                levels_distinct admin = true) ∧
  ∀ merged, outcome (merge_survey_admin survey admin) = inr merged →
    (nrows survey <= nrows merged)%nat ∧
    (levels_distinct admin = true →
       nrows merged = nrows survey ∧
       printed (merge_survey_admin survey admin) =
       ("Merging survey with administrative data..." ::
        printed (three_joins survey admin) ++ [final_line merged])%list) ∧
    (nrows merged ≠ nrows survey →
       printed (merge_survey_admin survey admin) =
       ("Merging survey with administrative data..." ::
        printed (three_joins survey admin) ++
        [warning_line (nrows survey) (nrows merged); final_line merged])%list).
Proof.
  destruct (merge_survey_admin_joins survey admin) as [Hout Hlog].
  split; [done|]. split; [intros ?; apply prepared_levels_distinct|].
  intros merged Hm. rewrite Hout in Hm. rewrite Hm in Hlog.
  destruct (three_joins_inr _ _ _ Hm) as [Hle Heq].
  split; [done|]. split.
  - intros Hd. specialize (Heq Hd). split; [done|].
    rewrite Hlog. rewrite bool_decide_eq_false_2 by (intros ?; done). done.
  - intros Hne. rewrite Hlog. by rewrite bool_decide_eq_true_2.
Qed.

End Joins.

(** *** The analysis sample *)

(** [df.dropna(subset=cols)] *)
Definition dropna (subset : list string) (df : DataFrame) : DataFrame :=
  select_rows (λ r, forallb (λ c, notna (cell r c)) subset) df.

Definition count_of (v : value) (l : list value) : nat :=
  length (List.filter (value_eqb v) l).

(** The values of a list, each once, in the order of their first
    occurrence. *)
Fixpoint distinct (l : list value) : list value :=
  match l with
  | [] => []
  | v :: l' => v :: List.filter (λ w, negb (value_eqb v w)) (distinct l')
  end.

(** [Series.value_counts()]: every value that is not missing, with
    the number of its occurrences.  (pandas sorts the counts; the
    callers here use the values only.) *)
Definition value_counts (l : list value) : list (value * nat) :=
  let present := List.filter notna l in
  map (λ v, (v, count_of v present)) (distinct present).

(** [Series.nunique()] *)
Definition nunique (l : list value) : nat :=
  length (distinct (List.filter notna l)).

Definition base_required : list string :=
  ["DV_single"; "age"; "sex"; "education"; "employment_status";
   "born_in_nl"; "buurt_id"].

(** The list [required] of [create_analysis_sample], as it stands
    when the complete cases are taken. *)
Definition required_columns (data : DataFrame) (include_occupation : bool) :
    list string :=
  let required := base_required in
  let buurt_vars := List.filter (has_column data) BUURT_CONTROLS in
  let required := (required ++ buurt_vars)%list in
  let required :=
    if has_column data "b_perc_low40_hh"
    then (required ++ ["b_perc_low40_hh"])%list else required in
  let required :=
    if include_occupation && has_column data "occupation"
    then (required ++ ["occupation"])%list else required in
  List.filter (has_column data) required.

(** [cluster_sizes[cluster_sizes >= MIN_CLUSTER_SIZE].index] *)
Definition valid_clusters (ids : list value) : list value :=
  (List.filter (λ vc, (MIN_CLUSTER_SIZE <=? vc.2)%nat) (value_counts ids)).*1.

Definition nat_Q (n : nat) : Q := inject_Z (Z.of_nat n).

Section Sample.
Context `{Runtime}.

(** [create_analysis_sample].  The share of complete cases is a
    division of two Python integers, which raises on an empty table;
    [sample["buurt_id"]] raises when there is no such column. *)
Definition create_analysis_sample (data : DataFrame)
    (include_occupation : bool) : io DataFrame :=
  print (newline +:+ "Creating analysis sample...");;
  let required := required_columns data include_occupation in
  print ("  Required variables: " +:+ pretty (length required));;
  let initial_n := nrows data in
  let sample := dropna required data in
  let final_n := nrows sample in
  share ← (if (initial_n =? 0)%nat then raise ZeroDivisionError
           else mret (nat_Q final_n / nat_Q initial_n * 100)%Q);
  print ("  Complete cases: " +:+ pretty final_n +:+ "/" +:+ pretty initial_n +:+
         " (" +:+ format_fixed 1 share +:+ "%)");;
  ids ← (if has_column sample "buurt_id" then mret (series sample "buurt_id")
         else raise (KeyError "buurt_id"));
  let valid := valid_clusters ids in
  let sample := select_rows (λ r, isin valid (cell r "buurt_id")) sample in
  print ("  After cluster filter (min=" +:+ pretty MIN_CLUSTER_SIZE +:+ "): " +:+
         pretty (nrows sample) +:+ " observations");;
  print ("  Unique buurten: " +:+ pretty (nunique (series sample "buurt_id")));;
  mret sample.

(** The rows of a table in the cluster of the id [v]. *)
Definition cluster_size (df : DataFrame) (v : value) : nat :=
  length (List.filter (λ r, value_eqb v (cell r "buurt_id")) (rows df)).

(** The two steps named by the specification. *)
Definition complete_cases (data : DataFrame) (include_occupation : bool) :
    DataFrame :=
  dropna (required_columns data include_occupation) data.

Definition large_clusters (df : DataFrame) : DataFrame :=
  select_rows (λ r, (MIN_CLUSTER_SIZE <=? cluster_size df (cell r "buurt_id"))%nat)
    df.

Lemma count_of_congr (v w : value) (l : list value) :
  value_eqb v w = true → count_of v l = count_of w l.
Proof.
  intros Hvw. unfold count_of. f_equal. apply filter_ext.
  intros x. by apply value_eqb_congr.
Qed.

Lemma existsb_distinct (v : value) (l : list value) :
  existsb (value_eqb v) (distinct l) = existsb (value_eqb v) l.
Proof.
  induction l as [|x l IH]; [done|]. simpl. rewrite <- IH.
  destruct (value_eqb v x) eqn:Hvx; [done|]. simpl.
  generalize (distinct l). intros d. induction d as [|y d IHd]; [done|].
  simpl. destruct (value_eqb x y) eqn:Hxy; simpl.
  - rewrite IHd. rewrite value_eqb_sym in Hxy.
    rewrite (value_eqb_sym v y), (value_eqb_congr y x v Hxy).
    by rewrite value_eqb_sym, Hvx.
  - by rewrite IHd.
Qed.

Lemma count_of_pos (v : value) (l : list value) :
  (0 < count_of v l)%nat → existsb (value_eqb v) l = true.
Proof.
  unfold count_of. induction l as [|x l IH]; simpl; [lia|].
  destruct (value_eqb v x); [done|]. by intros ?%IH.
Qed.

Lemma count_of_notna (v : value) (l : list value) :
  notna v = true → count_of v (List.filter notna l) = count_of v l.
Proof.
  intros Hv. unfold count_of. f_equal.
  induction l as [|x l IH]; [done|]. simpl.
  destruct x as [|q|s]; simpl; rewrite ?IH; try done.
  by destruct v.
Qed.

(** An id is let through exactly when it occurs often enough. *)
Lemma isin_valid_clusters (ids : list value) (v : value) :
  notna v = true →
  isin (valid_clusters ids) v = (MIN_CLUSTER_SIZE <=? count_of v ids)%nat.
Proof.
  intros Hv. unfold isin, valid_clusters, value_counts.
  rewrite <- (count_of_notna v ids Hv).
  set (present := List.filter notna ids).
  assert (Hex : ∀ d,
            existsb (value_eqb v)
              (List.filter (λ vc : value * nat, (MIN_CLUSTER_SIZE <=? vc.2)%nat)
                 (map (λ w, (w, count_of w present)) d)).*1 =
            existsb (value_eqb v) d &&
            (MIN_CLUSTER_SIZE <=? count_of v present)%nat).
  { induction d as [|w d IHd]; [done|]. cbn [map List.filter].
    destruct (value_eqb v w) eqn:Hvw.
    - rewrite <- (count_of_congr v w present Hvw). cbn [snd existsb].
      rewrite Hvw. cbn [orb andb].
      destruct (MIN_CLUSTER_SIZE <=? count_of v present)%nat eqn:Hc.
      + cbn [fmap list_fmap fst existsb]. by rewrite Hvw.
      + rewrite IHd. by rewrite andb_false_r.
    - cbn [snd existsb]. rewrite Hvw. cbn [orb].
      destruct (MIN_CLUSTER_SIZE <=? count_of w present)%nat.
      + cbn [fmap list_fmap fst existsb]. rewrite Hvw. cbn [orb]. apply IHd.
      + apply IHd. }
  rewrite Hex, existsb_distinct.
  destruct (MIN_CLUSTER_SIZE <=? count_of v present)%nat eqn:Hc;
    [|by rewrite andb_false_r].
  rewrite andb_true_r. apply count_of_pos.
  apply Nat.leb_le in Hc. unfold MIN_CLUSTER_SIZE in Hc. lia.
Qed.

Lemma count_of_series (df : DataFrame) (v : value) :
  count_of v (series df "buurt_id") = cluster_size df v.
Proof.
  unfold count_of, cluster_size, series.
  by rewrite filter_map_comm, length_map.
Qed.

Lemma required_columns_present (data : DataFrame) (occ : bool) (c : string) :
  c ∈ required_columns data occ → has_column data c = true.
Proof. unfold required_columns. by intros [_ ?]%elem_of_bool_filter. Qed.

Lemma buurt_id_required (data : DataFrame) (occ : bool) :
  has_column data "buurt_id" = true → "buurt_id" ∈ required_columns data occ.
Proof.
  intros Hb. unfold required_columns. apply elem_of_bool_filter. split; [|done].
  assert (Hbase : "buurt_id" ∈ base_required) by (unfold base_required; repeat constructor).
  destruct (has_column data "b_perc_low40_hh"), (occ && has_column data "occupation");
    repeat (apply elem_of_app; left); done.
Qed.

Lemma dropna_complete (subset : list string) (df : DataFrame) (r : row) (c : string) :
  r ∈ rows (dropna subset df) → c ∈ subset → isna (cell r c) = false.
Proof.
  unfold dropna, select_rows. cbn [rows].
  intros [_ Hr]%elem_of_bool_filter Hc.
  apply list_elem_of_In in Hc. apply (proj1 (forallb_forall _ _) Hr) in Hc.
  by apply negb_true_iff in Hc.
Qed.

Lemma cluster_size_congr (df : DataFrame) (v w : value) :
  value_eqb v w = true → cluster_size df v = cluster_size df w.
Proof.
  intros Hvw. unfold cluster_size. f_equal. apply filter_ext.
  intros r. by apply value_eqb_congr.
Qed.

(** The cluster filter keeps whole clusters. *)
Lemma large_clusters_sizes (df : DataFrame) (r : row) :
  r ∈ rows (large_clusters df) →
  (MIN_CLUSTER_SIZE <= cluster_size (large_clusters df) (cell r "buurt_id"))%nat.
Proof.
  unfold large_clusters, select_rows. cbn [rows].
  intros [_ Hr]%elem_of_bool_filter. apply Nat.leb_le in Hr.
  unfold cluster_size at 1. cbn [rows].
  rewrite filter_filter_sub; [done|].
  intros r' Hr'. apply Nat.leb_le.
  by rewrite <- (cluster_size_congr df _ _ Hr').
Qed.

Lemma cluster_filter_large (data : DataFrame) (occ : bool) :
  has_column data "buurt_id" = true →
  select_rows
    (λ r, isin (valid_clusters (series (complete_cases data occ) "buurt_id"))
               (cell r "buurt_id"))
    (complete_cases data occ) =
  large_clusters (complete_cases data occ).
Proof.
  intros Hb. unfold large_clusters, select_rows. f_equal.
  apply filter_ext_in. intros r Hr%list_elem_of_In.
  rewrite isin_valid_clusters, count_of_series; [done|].
  unfold notna. rewrite (dropna_complete (required_columns data occ) data r "buurt_id");
    [done|done|].
  by apply buurt_id_required.
Qed.

(** When [create_analysis_sample] raises and what it returns. *)
Lemma create_analysis_sample_outcome (data : DataFrame) (occ : bool) :
  outcome (create_analysis_sample data occ) =
  if (nrows data =? 0)%nat then inl ZeroDivisionError
  else if has_column data "buurt_id"
       then inr (large_clusters (complete_cases data occ))
       else inl (KeyError "buurt_id").
Proof.
  unfold create_analysis_sample. io_simpl.
  destruct (nrows data =? 0)%nat; io_simpl; [done|].
  change (has_column (dropna (required_columns data occ) data) "buurt_id")
    with (has_column data "buurt_id").
  destruct (has_column data "buurt_id") eqn:Hb; io_simpl; [|done].
  f_equal. by apply cluster_filter_large.
Qed.

(** C3.  [create_analysis_sample] raises on a table without rows
    and on one without a [buurt_id] column, and otherwise returns the
    rows left by two filters in this order: first the rows with no
    missing cell in a required column, then, among those, the rows
    whose [buurt_id] occurs at least [MIN_CLUSTER_SIZE] = 2 times.  In
    the returned table no required column has a missing cell and every
    row's [buurt_id] occurs at least [MIN_CLUSTER_SIZE] times. *)
Theorem create_analysis_sample_correct (data : DataFrame)
    (include_occupation : bool) :
  MIN_CLUSTER_SIZE = 2%nat ∧
  (is_Some (match outcome (create_analysis_sample data include_occupation) with
            | inr sample => Some sample | inl _ => None end) ↔
   (0 < nrows data)%nat ∧ has_column data "buurt_id" = true) ∧
  ∀ sample,
    outcome (create_analysis_sample data include_occupation) = inr sample →
    sample = large_clusters (complete_cases data include_occupation) ∧
    (∀ r c, r ∈ rows sample →
            c ∈ required_columns data include_occupation →
            isna (cell r c) = false) ∧
    (∀ r, r ∈ rows sample →
          (MIN_CLUSTER_SIZE <= cluster_size sample (cell r "buurt_id"))%nat).
Proof.
  rewrite create_analysis_sample_outcome.
  split; [done|]. split.
  - destruct (nrows data =? 0)%nat eqn:Hn.
    + apply Nat.eqb_eq in Hn. split; [by intros [? ?]|]. intros [? _]. lia.
    + apply Nat.eqb_neq in Hn. destruct (has_column data "buurt_id").
      * split; [|by eexists]. intros _. split; [lia|done].
      * split; [by intros [? ?]|]. by intros [_ ?].
  - intros sample Hs.
    destruct (nrows data =? 0)%nat; [done|].
    destruct (has_column data "buurt_id"); [|done].
    injection Hs as <-. split; [done|]. split.
    + intros r c Hr Hc. unfold large_clusters, select_rows in Hr. cbn [rows] in Hr.
      apply elem_of_bool_filter in Hr as [Hr _].
      by apply (dropna_complete (required_columns data include_occupation) data r c).
    + apply large_clusters_sizes.
Qed.

End Sample.

(** *** Examples *)

(** A survey of two respondents and the tables of two levels. *)
Definition survey_example : DataFrame :=
  mkDF [("respondent", float64); ("buurt_id", object); ("wijk_id", object)]
    [ {["respondent" := Num 1; "buurt_id" := Str "00010001";
        "wijk_id" := Str "000100"]};
      {["respondent" := Num 2; "buurt_id" := Str "00020001";
        "wijk_id" := Str "000200"]} ].

Definition admin_example : gmap string DataFrame :=
  {[ "buurt" := mkDF [("buurt_id", object); ("b_pop_total", float64)]
       [ {["buurt_id" := Str "00010001"; "b_pop_total" := Num 100]} ];
     "wijk" := mkDF [("wijk_id", object); ("w_pop_total", float64)]
       [ {["wijk_id" := Str "000100"; "w_pop_total" := Num 900]};
         {["wijk_id" := Str "000200"; "w_pop_total" := Num 800]} ] ]}.

Definition merged_example : DataFrame :=
  match outcome (merge_survey_admin survey_example admin_example) with
  | inr merged => merged
  | inl _ => empty_frame
  end.

(** The hypotheses of C2 on the example. *)
Lemma merge_survey_admin_row_count_witness :
  outcome (merge_survey_admin survey_example admin_example) = inr merged_example ∧
  levels_distinct admin_example = true ∧
  nrows merged_example = nrows survey_example ∧
  printed (merge_survey_admin survey_example admin_example) =
  ("Merging survey with administrative data..." ::
   printed (three_joins survey_example admin_example) ++
   [final_line merged_example])%list.
Proof.
  assert (Hout : outcome (merge_survey_admin survey_example admin_example)
                 = inr merged_example) by (vm_compute; reflexivity).
  assert (Hd : levels_distinct admin_example = true) by (vm_compute; reflexivity).
  split; [exact Hout|]. split; [exact Hd|].
  exact (proj1 (proj2 (proj2 (proj2 (merge_survey_admin_row_count
                                       (H := reference_numlib)
                                       survey_example admin_example))
                               merged_example Hout)) Hd).
Defined.

Example merge_survey_admin_example :
  printed (merge_survey_admin survey_example admin_example) =
  ["Merging survey with administrative data..."; "  + Buurt: 1 units";
   "  + Wijk: 2 units"; "  Final merged data: 2 rows, 5 columns"] ∧
  map (λ r, map (cell r) ["respondent"; "b_pop_total"; "w_pop_total"])
      (rows merged_example) =
  [[Num 1; Num 100; Num 900]; [Num 2; NaN; Num 800]].
Proof. split; vm_compute; reflexivity. Qed.

(** A buurt table that has one id twice. *)
Definition survey_one : DataFrame :=
  mkDF [("respondent", float64); ("buurt_id", object)]
    [ {["respondent" := Num 1; "buurt_id" := Str "00010001"]} ].

Definition admin_twice : gmap string DataFrame :=
  {[ "buurt" := mkDF [("buurt_id", object); ("b_pop_total", float64)]
       [ {["buurt_id" := Str "00010001"; "b_pop_total" := Num 100]};
         {["buurt_id" := Str "00010001"; "b_pop_total" := Num 200]} ] ]}.

(** With an id twice in a level table the respondent's row comes out
    twice: the function prints its warning and returns the table of
    two rows for the survey of one. *)
Lemma merge_survey_admin_duplicated_id :
  ∃ merged,
    merge_survey_admin survey_one admin_twice =
    IO ["Merging survey with administrative data..."; "  + Buurt: 2 units";
        "  Warning: Row count changed from 1 to 2";
        "  Final merged data: 2 rows, 3 columns"] (inr merged) ∧
    nrows survey_one = 1%nat ∧ nrows merged = 2%nat ∧
    map (λ r, map (cell r) ["respondent"; "buurt_id"; "b_pop_total"])
        (rows merged) =
    [[Num 1; Str "00010001"; Num 100]; [Num 1; Str "00010001"; Num 200]].
Proof.
  eexists. split; [vm_compute; reflexivity|].
  split; [reflexivity|]. split; vm_compute; reflexivity.
Qed.

(** Three respondents: two of one buurt, one of them without an
    outcome, and one of another buurt. *)
Definition sample_example : DataFrame :=
  mkDF [("DV_single", float64); ("age", float64); ("buurt_id", object)]
    [ {["DV_single" := Num 50; "age" := Num 0; "buurt_id" := Str "00010001"]};
      {["DV_single" := Num 50; "age" := Num 1; "buurt_id" := Str "00020001"]};
      {["DV_single" := NaN; "age" := Num 2; "buurt_id" := Str "00010001"]};
      {["DV_single" := Num 100; "age" := Num 3; "buurt_id" := Str "00020001"]} ].

Definition sample_example_result : DataFrame :=
  large_clusters (complete_cases sample_example true).

(** The hypothesis of C3 on the example. *)
Lemma create_analysis_sample_correct_witness :
  outcome (create_analysis_sample (H := reference_runtime) sample_example true)
    = inr sample_example_result ∧
  (∀ r c, r ∈ rows sample_example_result →
          c ∈ required_columns sample_example true →
          isna (cell r c) = false) ∧
  (∀ r, r ∈ rows sample_example_result →
        (MIN_CLUSTER_SIZE <=
         cluster_size sample_example_result (cell r "buurt_id"))%nat).
Proof.
  assert (Hout : outcome (create_analysis_sample (H := reference_runtime)
                            sample_example true)
                 = inr sample_example_result) by (vm_compute; reflexivity).
  split; [exact Hout|].
  exact (proj2 (proj2 (proj2 (create_analysis_sample_correct
                                (H := reference_runtime) sample_example true))
                 sample_example_result Hout)).
Defined.

(** The order of the two filters matters: the respondent of buurt
    00010001 with an outcome is alone in the buurt once the incomplete
    row is gone, and is dropped; with the cluster filter first the row
    would stay. *)
Example create_analysis_sample_order :
  printed (create_analysis_sample (H := reference_runtime) sample_example true) =
  [newline +:+ "Creating analysis sample..."; "  Required variables: 3";
   "  Complete cases: 3/4 (75.0%)";
   "  After cluster filter (min=2): 2 observations"; "  Unique buurten: 1"] ∧
  map (λ r, cell r "age") (rows sample_example_result) = [Num 1; Num 3] ∧
  map (λ r, cell r "age")
      (rows (complete_cases (large_clusters sample_example) true)) =
  [Num 0; Num 1; Num 3].
Proof. repeat split; vm_compute; reflexivity. Qed.

End Merge.

(** ** analyze.py *)

Module Analyze.
Import PyStr Pandas Py.

(** What the code reads of a fitted [MixedLMResults]: the number of
    observations, the random intercepts by group, the coefficients
    and their standard errors by name, the covariance matrix of the
    random effects and the residual variance. *)
Record MixedLMResults := {
  nobs : Q;
  random_effects : list (value * Q);
  params : list (string * Q);
  bse : list (string * Q);
  cov_re : list (list Q);
  scale : Q
}.

(** [smf.mixedlm(formula, data=data, groups=groups).fit(reml=True)],
    which this embedding does not define: it gives a fitted model or
    raises. *)
Class StatsModels := {
  mixedlm_fit : string → DataFrame → string → exn + MixedLMResults
}.

Record TwoLevelModels := {
  m0_empty : MixedLMResults;
  m1_key_pred : MixedLMResults;
  m2_ind_controls : MixedLMResults;
  m3_buurt_controls : MixedLMResults
}.

(** The dataclass [FourLevelModels]; its fields have the names of
    those of [TwoLevelModels], here with [four_] in front. *)
Record FourLevelModels := {
  four_m0_empty : MixedLMResults;
  four_m1_key_pred : MixedLMResults;
  four_m2_ind_controls : MixedLMResults;
  four_m3_buurt_controls : MixedLMResults;
  four_m4_wijk_controls : MixedLMResults
}.

Record ICCResult := {
  icc : Q;
  var_buurt : Q;
  var_residual : Q;
  var_total : Q;
  pct_between : Q;
  pct_within : Q
}.

(** [m.iloc[0, 0]] *)
Definition iloc_0_0 (m : list (list Q)) : exn + Q :=
  match m with
  | (x :: _) :: _ => inr x
  | _ => inl IndexError
  end.

(** [a / b] on Python floats, which raises for a zero divisor. *)
Definition float_div (a b : Q) : io Q :=
  if Qeq_bool b 0 then raise ZeroDivisionError else mret (a / b)%Q.

(** [int(x)] of a float: towards zero. *)
Definition int_of_float (x : Q) : Z :=
  if Qle_bool 0 x then Qfloor x else Qceiling x.

Fixpoint assoc (k : string) (l : list (string * Q)) : option Q :=
  match l with
  | [] => None
  | (k', v) :: l' => if String.eqb k' k then Some v else assoc k l'
  end.

(** [for x in l: body(x)] *)
Fixpoint for_each {A : Type} (l : list A) (body : A → io unit) : io unit :=
  match l with
  | [] => mret tt
  | x :: l' => body x;; for_each l' body
  end.

(** [df[cs]] for a list of names: [KeyError] when one is missing. *)
Definition select_strict (cs : list string) (df : DataFrame) : exn + DataFrame :=
  match List.filter (λ c, negb (has_column df c)) cs with
  | [] => inr (select_columns cs df)
  | missing => inl (KeyError (repr_list missing +:+ " not in index"))
  end.

Section Models.
Context {numlib : NumLib} {runtime : Runtime} {statsmodels : StatsModels}.

(** *** [calculate_icc] *)

Definition calculate_icc (models : TwoLevelModels) : io ICCResult :=
  print (newline +:+ "Calculating ICC and variance decomposition...");;
  let m0 := m0_empty models in
  var_buurt ← lift (iloc_0_0 (cov_re m0));
  let var_residual := scale m0 in
  let var_total := (var_buurt + var_residual)%Q in
  icc ← float_div var_buurt var_total;
  pct_between ← float_div (100 * var_buurt)%Q var_total;
  pct_within ← float_div (100 * var_residual)%Q var_total;
  print ("  Variance (buurt): " +:+ format_fixed 2 var_buurt +:+ " (" +:+
         format_fixed 1 pct_between +:+ "%)");;
  print ("  Variance (residual): " +:+ format_fixed 2 var_residual +:+ " (" +:+
         format_fixed 1 pct_within +:+ "%)");;
  print ("  ICC: " +:+ format_fixed 4 icc);;
  print ("  Interpretation: " +:+ format_fixed 1 pct_between +:+
         "% of variance is between neighborhoods");;
  mret {| icc := icc; var_buurt := var_buurt; var_residual := var_residual;
          var_total := var_total; pct_between := pct_between;
          pct_within := pct_within |}.




(** *** [fit_four_level_models] *)

Definition required_cols : list string := ["buurt_id"; "wijk_id"; "gemeente_id"].

(** [df[col] = df[col].astype(str)] for the three id columns. *)
Definition string_ids (data : DataFrame) : DataFrame :=
  foldl (λ df col, assign df col object (λ r, Str (astype_str (cell r col))))
        data ["buurt_id"; "wijk_id"; "gemeente_id"].

Definition base_required : list string :=
  ["DV_single"; "buurt_id"; "wijk_id"; "gemeente_id"].

Definition key_preds (df : DataFrame) : list string :=
  let key_preds := ["b_perc_low40_hh"] in
  let key_preds :=
    if has_column df "w_perc_low40_hh"
    then (key_preds ++ ["w_perc_low40_hh"])%list else key_preds in
  if has_column df "g_perc_low40_hh"
  then (key_preds ++ ["g_perc_low40_hh"])%list else key_preds.

Definition ind_controls (df : DataFrame) : list string :=
  List.filter (has_column df)
    ["age"; "sex"; "education"; "employment_status"; "born_in_nl"].

Definition buurt_ctrls (df : DataFrame) : list string :=
  List.filter (has_column df)
    ["b_pop_dens"; "b_pop_over_65"; "b_pop_nonwest"; "b_perc_low_inc_hh";
     "b_perc_soc_min_hh"].

Definition wijk_ctrls (df : DataFrame) : list string :=
  List.filter (has_column df)
    ["w_pop_dens"; "w_pop_over_65"; "w_pop_nonwest"; "w_perc_low_inc_hh";
     "w_perc_soc_min_hh"].

(** [list(set(all_vars))]: every name once.  (Python does not fix
    the order of a set; here it is the order of first occurrence.) *)
Definition all_vars (df : DataFrame) : list string :=
  remove_dups (base_required ++ key_preds df ++ ind_controls df ++
               buurt_ctrls df ++ wijk_ctrls df)%list.

(** [df[all_vars].dropna().copy().reset_index(drop=True)] *)
Definition model_frame (df : DataFrame) : exn + DataFrame :=
  match select_strict (all_vars df) df with
  | inl e => inl e
  | inr sub => inr (Merge.dropna (column_names sub) sub)
  end.

Definition m0_formula : string := "DV_single ~ 1".

Definition m1_formula (df : DataFrame) : string :=
  "DV_single ~ " +:+ join " + " (key_preds df).

(** In the test for [cat_vars] the second alternative takes [C(] and
    [)] out of the name, which leaves these two names as they are. *)
Definition cat_vars (df : DataFrame) : list string :=
  map (λ v, "C(" +:+ v +:+ ")")
    (List.filter (λ v, bool_decide (v ∈ ind_controls df) ||
                       bool_decide (v ∈ ind_controls df))
       ["sex"; "employment_status"]).

Definition num_vars (df : DataFrame) : list string :=
  List.filter (λ v, negb (bool_decide (v ∈ ["sex"; "employment_status"])))
    (ind_controls df).

Definition add_terms (formula : string) (terms : list string) : string :=
  match terms with
  | [] => formula
  | _ => formula +:+ " + " +:+ join " + " terms
  end.

Definition m2_formula (df df_model : DataFrame) : string :=
  let m2_formula := m1_formula df in
  let m2_formula := add_terms m2_formula (num_vars df) in
  let m2_formula := add_terms m2_formula (cat_vars df) in
  if has_column df_model "occupation" &&
     (100 <? length (List.filter notna (series df_model "occupation")))%nat
  then m2_formula +:+ " + C(occupation)" else m2_formula.

Definition m3_formula (df df_model : DataFrame) : string :=
  add_terms (m2_formula df df_model) (buurt_ctrls df).

Definition m4_formula (df df_model : DataFrame) : string :=
  add_terms (m3_formula df df_model) (wijk_ctrls df).

(** The lines printed before the fit of each model. *)
Definition fitting_line (k : nat) : string :=
  match k with
  | 0%nat => newline +:+ "  Fitting m0 (empty model)..."
  | 1%nat => "  Fitting m1 (+ key predictors at buurt/wijk/gemeente levels)..."
  | 2%nat => "  Fitting m2 (+ individual controls)..."
  | 3%nat => "  Fitting m3 (+ buurt-level controls)..."
  | _ => "  Fitting m4 (+ wijk-level controls)..."
  end.

Definition coefficient_line (m4 : MixedLMResults) (var : string) : io unit :=
  match assoc var (params m4) with
  | Some coef =>
      match assoc var (bse m4) with
      | Some se =>
          print ("    " +:+ var +:+ ": " +:+ format_fixed 3 coef +:+ " (SE=" +:+
                 format_fixed 3 se +:+ ")")
      | None => raise (KeyError var)
      end
  | None => mret tt
  end.

(** [fit_four_level_models].  The two [warnings.filterwarnings] calls
    before the first fit silence warnings of the classes
    [RuntimeWarning] and [UserWarning]; they print nothing and change
    no value, and are not part of this embedding. *)
Definition fit_four_level_models (data : DataFrame) : io FourLevelModels :=
  print (newline +:+ "Fitting four-level multilevel models...");;
  print "  Note: Using buurt as primary grouping with wijk/gemeente predictors";;
  let missing := List.filter (λ c, negb (has_column data c)) required_cols in
  (match missing with
   | [] => mret tt
   | _ => raise (ValueError ("Missing required columns for four-level models: "
                             +:+ repr_list missing))
   end);;
  let df := string_ids data in
  df_model ← lift (model_frame df);
  print ("  Sample size: " +:+ pretty (nrows df_model));;
  print ("  Unique buurten: " +:+
         pretty (Merge.nunique (series df_model "buurt_id")));;
  print ("  Unique wijken: " +:+
         pretty (Merge.nunique (series df_model "wijk_id")));;
  print ("  Unique gemeenten: " +:+
         pretty (Merge.nunique (series df_model "gemeente_id")));;
  print (fitting_line 0);;
  m0 ← lift (mixedlm_fit m0_formula df_model "buurt_id");
  print ("    N=" +:+ pretty (int_of_float (nobs m0)) +:+ ", groups=" +:+
         pretty (length (random_effects m0)));;
  print (fitting_line 1);;
  m1 ← lift (mixedlm_fit (m1_formula df) df_model "buurt_id");
  print (fitting_line 2);;
  m2 ← lift (mixedlm_fit (m2_formula df df_model) df_model "buurt_id");
  print (fitting_line 3);;
  m3 ← lift (mixedlm_fit (m3_formula df df_model) df_model "buurt_id");
  print (fitting_line 4);;
  m4 ← lift (mixedlm_fit (m4_formula df df_model) df_model "buurt_id");
  print "  All four-level models fitted successfully";;
  print (newline +:+ "  Key predictor coefficients (m4):");;
  for_each (key_preds df) (coefficient_line m4);;
  mret {| four_m0_empty := m0; four_m1_key_pred := m1;
          four_m2_ind_controls := m2; four_m3_buurt_controls := m3;
          four_m4_wijk_controls := m4 |}.

(** *** [calculate_four_level_icc] *)

Definition calculate_four_level_icc (models : FourLevelModels) :
    io (list (string * Q)) :=
  print (newline +:+ "Calculating variance decomposition...");;
  let m0 := four_m0_empty models in
  var_buurt ← lift (iloc_0_0 (cov_re m0));
  let var_residual := scale m0 in
  let var_total := (var_buurt + var_residual)%Q in
  let positive := negb (Qle_bool var_total 0) in
  icc_buurt ← (if positive then float_div var_buurt var_total else mret 0%Q);
  pct_residual ← (if positive then float_div (100 * var_residual)%Q var_total
                  else mret 0%Q);
  let results :=
    [("var_buurt", var_buurt); ("var_residual", var_residual);
     ("var_total", var_total); ("icc_buurt", icc_buurt);
     ("pct_buurt", (100 * icc_buurt)%Q); ("pct_residual", pct_residual)] in
  print ("  Variance (buurt): " +:+ format_fixed 2 var_buurt +:+ " (" +:+
         format_fixed 1 (100 * icc_buurt)%Q +:+ "%)");;
  print ("  Variance (residual): " +:+ format_fixed 2 var_residual +:+ " (" +:+
         format_fixed 1 pct_residual +:+ "%)");;
  print ("  ICC (buurt): " +:+ format_fixed 4 icc_buurt);;
  mret results.

(** The five formulas in the order of the fits. *)
Definition formulas (df df_model : DataFrame) : list string :=
  [m0_formula; m1_formula df; m2_formula df df_model; m3_formula df df_model;
   m4_formula df df_model].

(** The lines printed before the first fit. *)
Definition preamble (df_model : DataFrame) : list string :=
  [newline +:+ "Fitting four-level multilevel models...";
   "  Note: Using buurt as primary grouping with wijk/gemeente predictors";
   "  Sample size: " +:+ pretty (nrows df_model);
   "  Unique buurten: " +:+ pretty (Merge.nunique (series df_model "buurt_id"));
   "  Unique wijken: " +:+ pretty (Merge.nunique (series df_model "wijk_id"));
   "  Unique gemeenten: " +:+
     pretty (Merge.nunique (series df_model "gemeente_id"))].

(** The lines printed from the first fit up to the fit of model
    [length fitted], the models before it being [fitted]. *)
Definition attempt_lines (fitted : list MixedLMResults) : list string :=
  match fitted with
  | [] => [fitting_line 0]
  | m0 :: rest =>
      fitting_line 0 ::
      ("    N=" +:+ pretty (int_of_float (nobs m0)) +:+ ", groups=" +:+
       pretty (length (random_effects m0))) ::
      map fitting_line (seq 1 (length fitted))
  end.

Lemma last_attempt_lines (fitted : list MixedLMResults) :
  (length fitted < 5)%nat →
  last (attempt_lines fitted) = Some (fitting_line (length fitted)).
Proof.
  destruct fitted as [|m0 [|m1 [|m2 [|m3 [|m4 rest]]]]]; simpl; try done. lia.
Qed.

(** A fit that raises ends [fit_four_level_models]: the exception
    is that of the function, and the last line printed is the line
    of the model whose fit raised. *)
Lemma fit_four_level_models_raises (data df_model : DataFrame)
    (fitted : list MixedLMResults) (e : exn) :
  forallb (has_column data) required_cols = true →
  model_frame (string_ids data) = inr df_model →
  (∀ j m f, fitted !! j = Some m →
            formulas (string_ids data) df_model !! j = Some f →
            mixedlm_fit f df_model "buurt_id" = inr m) →
  (∀ f, formulas (string_ids data) df_model !! length fitted = Some f →
        mixedlm_fit f df_model "buurt_id" = inl e) →
  (length fitted < 5)%nat →
  fit_four_level_models data =
  IO (preamble df_model ++ attempt_lines fitted)%list (inl e).
Proof.
  intros Hcols Hframe Hfits Hfail Hk.
  assert (Hmissing : List.filter (λ c, negb (has_column data c)) required_cols = []).
  { unfold required_cols in *. cbn [forallb List.filter] in *.
    apply andb_true_iff in Hcols as [-> Hcols].
    apply andb_true_iff in Hcols as [-> Hcols].
    apply andb_true_iff in Hcols as [-> _]. done. }
  unfold fit_four_level_models. rewrite Hmissing, Hframe. io_simpl.
  destruct fitted as [|m0 [|m1 [|m2 [|m3 [|m4 rest]]]]];
    [| | | | |simpl in Hk; lia].
  - rewrite (Hfail _ eq_refl). by io_simpl.
  - rewrite (Hfits 0%nat m0 _ eq_refl eq_refl). io_simpl.
    rewrite (Hfail _ eq_refl). by io_simpl.
  - rewrite (Hfits 0%nat m0 _ eq_refl eq_refl). io_simpl.
    rewrite (Hfits 1%nat m1 _ eq_refl eq_refl). io_simpl.
    rewrite (Hfail _ eq_refl). by io_simpl.
  - rewrite (Hfits 0%nat m0 _ eq_refl eq_refl). io_simpl.
    rewrite (Hfits 1%nat m1 _ eq_refl eq_refl). io_simpl.
    rewrite (Hfits 2%nat m2 _ eq_refl eq_refl). io_simpl.
    rewrite (Hfail _ eq_refl). by io_simpl.
  - rewrite (Hfits 0%nat m0 _ eq_refl eq_refl). io_simpl.
    rewrite (Hfits 1%nat m1 _ eq_refl eq_refl). io_simpl.
    rewrite (Hfits 2%nat m2 _ eq_refl eq_refl). io_simpl.
    rewrite (Hfits 3%nat m3 _ eq_refl eq_refl). io_simpl.
    rewrite (Hfail _ eq_refl). by io_simpl.
Qed.

End Models.

End Analyze.

(** ** run_pipeline.py, phase 5b *)

Module RunPipeline.
Import PyStr Pandas Py Analyze.

(** The variables of [main] that phase 5b reads or sets. *)
Record Locals := {
  models : TwoLevelModels;
  icc_results : ICCResult;
  four_level_models : option FourLevelModels;
  four_level_icc : option (list (string * Q))
}.

(** ["=" * 60] *)
Definition rule : string := String.concat "" (repeat "=" 60).

Section Phase5b.
Context {numlib : NumLib} {runtime : Runtime} {statsmodels : StatsModels}.

(** The two statements of the [try] block: the lines they print,
    the variables as they are when the block ends, and the exception
    that ended it, if one did. *)
Definition try_block (data_final : DataFrame) (st : Locals) :
    list string * Locals * option exn :=
  match fit_four_level_models data_final with
  | IO l (inl e) => (l, st, Some e)
  | IO l (inr fitted) =>
      let st := {| models := models st; icc_results := icc_results st;
                   four_level_models := Some fitted;
                   four_level_icc := four_level_icc st |} in
      match calculate_four_level_icc fitted with
      | IO l' (inl e) => ((l ++ l')%list, st, Some e)
      | IO l' (inr results) =>
          ((l ++ l')%list,
           {| models := models st; icc_results := icc_results st;
              four_level_models := four_level_models st;
              four_level_icc := Some results |}, None)
      end
  end.

Definition failed_line (e : exn) : string :=
  "  Warning: Four-level models failed: " +:+ str_exn e.

Definition phase_5b (data_final : DataFrame) (st : Locals) : io Locals :=
  print (newline +:+ rule);;
  print "PHASE 5b: ANALYZE (Four-Level Models: buurt/wijk/gemeente)";;
  print rule;;
  let st := {| models := models st; icc_results := icc_results st;
               four_level_models := None; four_level_icc := None |} in
  if forallb (has_column data_final) ["wijk_id"; "gemeente_id"] then
    match try_block data_final st with
    | (l, st, Some e) => IO (l ++ [failed_line e])%list (inr st)
    | (l, st, None) => IO l (inr st)
    end
  else
    print "  Skipping: wijk_id or gemeente_id not available";;
    mret st.

Definition header : list string :=
  [newline +:+ rule;
   "PHASE 5b: ANALYZE (Four-Level Models: buurt/wijk/gemeente)"; rule].

(** C7.  Let the fits of the first models of the four-level
    sequence return [fitted] and the fit of the next model raise [e].
    Then [fit_four_level_models] raises [e] at that model: no later
    model is fitted, the models fitted before it are not returned, and
    the last line printed is the progress line of the model whose fit
    raised.  The pipeline catches the exception once, for the whole
    four-level phase: it prints one line with the text of [e], leaves
    [four_level_models] and [four_level_icc] at [None], keeps the
    two-level models and their ICC as they were, and goes on. *)
Theorem four_level_failure (data_final df_model : DataFrame)
    (fitted : list MixedLMResults) (e : exn) (st : Locals) :
  forallb (has_column data_final) required_cols = true →
  model_frame (string_ids data_final) = inr df_model →
  (∀ j m f, fitted !! j = Some m →
            formulas (string_ids data_final) df_model !! j = Some f →
            mixedlm_fit f df_model "buurt_id" = inr m) →
  (∀ f, formulas (string_ids data_final) df_model !! length fitted = Some f →
        mixedlm_fit f df_model "buurt_id" = inl e) →
  (length fitted < 5)%nat →
  fit_four_level_models data_final =
    IO (preamble df_model ++ attempt_lines fitted)%list (inl e) ∧
  last (printed (fit_four_level_models data_final)) =
    Some (fitting_line (length fitted)) ∧
  ∃ st',
    phase_5b data_final st =
      IO (header ++ preamble df_model ++ attempt_lines fitted ++
          [failed_line e])%list (inr st') ∧
    four_level_models st' = None ∧ four_level_icc st' = None ∧
    models st' = models st ∧ icc_results st' = icc_results st.
Proof.
  intros Hcols Hframe Hfits Hfail Hk.
  pose proof (fit_four_level_models_raises _ _ _ _ Hcols Hframe Hfits Hfail Hk)
    as Hfit.
  split; [done|]. split.
  - rewrite Hfit. cbn [printed]. rewrite last_app.
    by rewrite (last_attempt_lines fitted Hk).
  - eexists. split.
    + unfold phase_5b, try_block.
      assert (Hboth : forallb (has_column data_final) ["wijk_id"; "gemeente_id"]
                      = true).
      { unfold required_cols in Hcols. cbn [forallb] in *.
        by apply andb_true_iff in Hcols as [_ ->]. }
      rewrite Hboth, Hfit. io_simpl. unfold header.
      by rewrite <- !app_assoc.
    + done.
Qed.

End Phase5b.

(** *** Examples *)

Definition example_fit : MixedLMResults :=
  {| nobs := 2; random_effects := [(Str "00010001", 0%Q)];
     params := [("Intercept", 50%Q); ("b_perc_low40_hh", 0.5%Q)];
     bse := [("Intercept", 1%Q); ("b_perc_low40_hh", 0.1%Q)];
     cov_re := [[17.8%Q]]; scale := 512.4%Q |}.

Definition example_models : TwoLevelModels :=
  {| m0_empty := example_fit; m1_key_pred := example_fit;
     m2_ind_controls := example_fit; m3_buurt_controls := example_fit |}.


Example calculate_icc_example :
  printed (calculate_icc (runtime := reference_runtime) example_models) =
  [newline +:+ "Calculating ICC and variance decomposition...";
   "  Variance (buurt): 17.80 (3.4%)"; "  Variance (residual): 512.40 (96.6%)";
   "  ICC: 0.0336"; "  Interpretation: 3.4% of variance is between neighborhoods"].
Proof. vm_compute. reflexivity. Qed.

(** A table of two respondents for the four-level models. *)
Definition four_level_example : DataFrame :=
  mkDF [("DV_single", float64); ("buurt_id", object); ("wijk_id", object);
        ("gemeente_id", object); ("b_perc_low40_hh", float64); ("age", float64)]
    [ {["DV_single" := Num 50; "buurt_id" := Str "00010001";
        "wijk_id" := Str "000100"; "gemeente_id" := Str "0001";
        "b_perc_low40_hh" := Num 40; "age" := Num 1]};
      {["DV_single" := Num 100; "buurt_id" := Str "00010001";
        "wijk_id" := Str "000100"; "gemeente_id" := Str "0001";
        "b_perc_low40_hh" := Num 40; "age" := Num (-1)]} ].

Definition singular : exn := LibraryError "LinAlgError" "Singular matrix".

(** Fits that return [example_fit], except for the formula of m2 on
    this table, for which the fit raises. *)
Definition singular_at_m2 : StatsModels :=
  {| mixedlm_fit formula data groups :=
       if String.eqb formula "DV_single ~ b_perc_low40_hh + age"
       then inl singular else inr example_fit |}.

Definition always_fits : StatsModels :=
  {| mixedlm_fit formula data groups := inr example_fit |}.

Definition four_level_frame : DataFrame :=
  match model_frame (string_ids (numlib := reference_numlib) four_level_example) with
  | inr df_model => df_model
  | inl _ => empty_frame
  end.

Definition example_locals : Locals :=
  {| models := example_models;
     icc_results := {| icc := 17.8 / 530.2; var_buurt := 17.8;
                       var_residual := 512.4; var_total := 530.2;
                       pct_between := 1780 / 530.2;
                       pct_within := 51240 / 530.2 |};
     four_level_models := None; four_level_icc := None |}.

(** The fit of m2 raises after m0 and m1 were fitted: the function
    raises, m3 and m4 are not fitted, and m0 and m1 are returned to
    nobody; the pipeline has no four-level model afterwards. *)
Lemma fit_four_level_models_aborts :
  mixedlm_fit (StatsModels := singular_at_m2) m0_formula four_level_frame
    "buurt_id" = inr example_fit ∧
  mixedlm_fit (StatsModels := singular_at_m2)
    (m1_formula four_level_example) four_level_frame "buurt_id"
    = inr example_fit ∧
  fit_four_level_models (numlib := reference_numlib)
    (runtime := reference_runtime) (statsmodels := singular_at_m2)
    four_level_example =
  IO [newline +:+ "Fitting four-level multilevel models...";
      "  Note: Using buurt as primary grouping with wijk/gemeente predictors";
      "  Sample size: 2"; "  Unique buurten: 1"; "  Unique wijken: 1";
      "  Unique gemeenten: 1"; newline +:+ "  Fitting m0 (empty model)...";
      "    N=2, groups=1";
      "  Fitting m1 (+ key predictors at buurt/wijk/gemeente levels)...";
      "  Fitting m2 (+ individual controls)..."] (inl singular) ∧
  ∃ st',
    phase_5b (numlib := reference_numlib) (runtime := reference_runtime)
      (statsmodels := singular_at_m2) four_level_example example_locals =
    IO (header ++
        printed (fit_four_level_models (numlib := reference_numlib)
                   (runtime := reference_runtime)
                   (statsmodels := singular_at_m2) four_level_example) ++
        ["  Warning: Four-level models failed: Singular matrix"])%list
       (inr st') ∧
    four_level_models st' = None.
Proof.
  split; [reflexivity|]. split; [reflexivity|].
  split; [vm_compute; reflexivity|].
  eexists. split; [vm_compute; reflexivity|reflexivity].
Qed.

(** The hypotheses of C7 on the example. *)
Lemma four_level_failure_witness :
  forallb (has_column four_level_example) required_cols = true ∧
  model_frame (string_ids (numlib := reference_numlib) four_level_example)
    = inr four_level_frame ∧
  fit_four_level_models (numlib := reference_numlib)
    (runtime := reference_runtime) (statsmodels := singular_at_m2)
    four_level_example =
  IO (preamble four_level_frame ++ attempt_lines [example_fit; example_fit])%list
     (inl singular).
Proof.
  assert (Hframe : model_frame (string_ids (numlib := reference_numlib)
                                  four_level_example) = inr four_level_frame)
    by (vm_compute; reflexivity).
  split; [reflexivity|]. split; [exact Hframe|].
  refine (proj1 (four_level_failure (numlib := reference_numlib)
                   (runtime := reference_runtime)
                   (statsmodels := singular_at_m2)
                   four_level_example four_level_frame
                   [example_fit; example_fit] singular example_locals
                   eq_refl Hframe _ _ _)).
  - intros [|[|j]] m f; simpl; intros Hm Hf; try discriminate Hm;
      apply (inj Some) in Hm as <-; apply (inj Some) in Hf as <-;
      vm_compute; reflexivity.
  - intros f Hf. simpl in Hf. apply (inj Some) in Hf as <-.
    vm_compute. reflexivity.
  - simpl. lia.
Defined.

(** When every fit returns, the five models are returned and the
    coefficients of the key predictors are printed. *)
Example fit_four_level_models_example :
  fit_four_level_models (numlib := reference_numlib)
    (runtime := reference_runtime) (statsmodels := always_fits)
    four_level_example =
  IO [newline +:+ "Fitting four-level multilevel models...";
      "  Note: Using buurt as primary grouping with wijk/gemeente predictors";
      "  Sample size: 2"; "  Unique buurten: 1"; "  Unique wijken: 1";
      "  Unique gemeenten: 1"; newline +:+ "  Fitting m0 (empty model)...";
      "    N=2, groups=1";
      "  Fitting m1 (+ key predictors at buurt/wijk/gemeente levels)...";
      "  Fitting m2 (+ individual controls)...";
      "  Fitting m3 (+ buurt-level controls)...";
      "  Fitting m4 (+ wijk-level controls)...";
      "  All four-level models fitted successfully";
      newline +:+ "  Key predictor coefficients (m4):";
      "    b_perc_low40_hh: 0.500 (SE=0.100)"]
     (inr {| four_m0_empty := example_fit; four_m1_key_pred := example_fit;
             four_m2_ind_controls := example_fit;
             four_m3_buurt_controls := example_fit;
             four_m4_wijk_controls := example_fit |}).
Proof. vm_compute. reflexivity. Qed.

End RunPipeline.

(** ** More of transform.py *)

Module TransformMore.
Import PyStr Pandas Transform.

Section RecodeMore.
Context `{NumLib}.

Lemma refused_to_nan_in (W : list string) (var : string) :
  var ∈ W → writes_only W (refused_to_nan var).
Proof.
  intros Hin. apply (writes_only_weaken [var]); [|apply refused_to_nan_writes].
  by intros c ->%list_elem_of_singleton.
Qed.

Lemma dv_single_in (W : list string) :
  "DV_single" ∈ W → writes_only W dv_single.
Proof.
  intros Hin. apply (writes_only_weaken ["DV_single"]); [|apply dv_single_writes].
  by intros c ->%list_elem_of_singleton.
Qed.

Lemma dv_2item_in (W : list string) :
  "DV_2item" ∈ W → "DV_2item_scaled" ∈ W → writes_only W dv_2item.
Proof.
  intros H1 H2.
  apply (writes_only_weaken ["DV_2item"; "DV_2item_scaled"]);
    [|apply dv_2item_writes].
  intros c Hc. apply elem_of_cons in Hc as [->|Hc]; [done|].
  by apply list_elem_of_singleton in Hc as ->.
Qed.

Lemma dv_3item_in (W : list string) :
  "DV_3item" ∈ W → "DV_3item_scaled" ∈ W → writes_only W dv_3item.
Proof.
  intros H1 H2.
  apply (writes_only_weaken ["DV_3item"; "DV_3item_scaled"]);
    [|apply dv_3item_writes].
  intros c Hc. apply elem_of_cons in Hc as [->|Hc]; [done|].
  by apply list_elem_of_singleton in Hc as ->.
Qed.

(** Every column that [recode_survey_variables] can write. *)
Definition recode_written : list string :=
  (dv_vars ++ ["DV_single"; "DV_2item"; "DV_2item_scaled"; "DV_3item";
               "DV_3item_scaled"] ++ rest_columns)%list.

(** The columns it reads and does not write. *)
Definition raw_inputs : list string :=
  ["birth_year"; "educyrs"; "work_status"; "work_type"; "owns_home";
   "owns_property"; "has_savings"; "owns_stocks"; "occupation_class"].

End RecodeMore.

Ltac step_writes :=
  repeat apply Forall_cons_2; [..|apply Forall_nil_2];
  (first [ apply refused_to_nan_in | apply dv_single_in | apply dv_2item_in
         | apply dv_3item_in | apply recode_sex_writes | apply recode_age_writes
         | apply recode_education_writes | apply mapped_into_writes
         | apply recode_migration_writes | apply recode_wealth_writes
         | apply recode_class_writes ]);
  by apply (bool_decide_unpack _).

Section RecodeFacts.
Context `{NumLib}.

(** The step at one place of the sequence, with what the steps
    before it and after it leave alone. *)
Lemma run_around (fs1 fs2 : list (DataFrame → option DataFrame))
    (f : DataFrame → option DataFrame) (W1 W2 : list string)
    (data df : DataFrame) :
  run (fs1 ++ f :: fs2)%list data = Some df →
  Forall (writes_only W1) fs1 → Forall (writes_only W2) fs2 →
  ∃ a b, f a = Some b ∧ nrows a = nrows data ∧
    (∀ c, c ∉ W1 → unchanged c data a) ∧
    nrows df = nrows b ∧ (∀ c, c ∉ W2 → unchanged c b df).
Proof.
  intros Hrun H1 H2. apply run_split in Hrun as (a & b & Ha & Hb & Hdf).
  exists a, b. split; [done|].
  destruct (run_writes_only W1 fs1 H1 _ _ Ha) as [Hn1 Hu1].
  destruct (run_writes_only W2 fs2 H2 _ _ Hdf) as [Hn2 Hu2]. done.
Qed.

(** [recode_survey_variables] keeps the rows in place, and writes
    only the three items, the five outcome columns and the eleven
    recoded columns: every other column, the raw columns it reads
    among them, has in each row the cell it had. *)
Theorem recode_survey_variables_frame (data df : DataFrame) :
  recode_survey_variables data = Some df →
  nrows df = nrows data ∧
  Forall (λ c, c ∉ recode_written) raw_inputs ∧
  ∀ c, c ∉ recode_written →
    has_column df c = has_column data c ∧
    ∀ i r r', rows data !! i = Some r → rows df !! i = Some r' →
              cell r' c = cell r c.
Proof.
  rewrite recode_survey_variables_all. intros Hrun.
  assert (Hall : Forall (writes_only recode_written) all_steps).
  { unfold all_steps, rest_steps. cbn [app]. step_writes. }
  destruct (run_writes_only _ _ Hall _ _ Hrun) as [Hn Hu].
  split; [done|]. split; [by apply (bool_decide_unpack _)|].
  intros c Hc. by destruct (Hu c Hc).
Qed.

Lemma sex_label (v : value) :
  keep_categories [Str "Male"; Str "Female"; Str "Other"] (map_dict sex_map v)
  = map_dict sex_map v ∧
  map_dict sex_map (map_dict sex_map v) = NaN.
Proof.
  unfold sex_map. cbn [map_dict].
  destruct (value_eqb (Num 1) v); [done|].
  destruct (value_eqb (Num 2) v); [done|].
  by destruct (value_eqb (Num 3) v).
Qed.

Lemma recode_sex_effect (data df : DataFrame) :
  recode_survey_variables data = Some df →
  has_column data "sex" = true →
  has_column df "sex" = true ∧
  ∀ i r, rows data !! i = Some r →
    ∃ r', rows df !! i = Some r' ∧
          cell r' "sex" = map_dict sex_map (cell r "sex").
Proof.
  rewrite recode_survey_variables_all. intros Hrun Hsex.
  change all_steps with
    ([refused_to_nan "gov_int"; refused_to_nan "red_inc_diff";
      refused_to_nan "union_pref"; dv_single; dv_2item; dv_3item] ++
     recode_sex ::
     [recode_age; recode_education;
      mapped_into "employment_status" "work_status" employment_map;
      mapped_into "occupation" "work_type" occupation_map;
      recode_migration; recode_wealth; recode_class])%list in Hrun.
  apply (run_around _ _ _
           (dv_vars ++ ["DV_single"; "DV_2item"; "DV_2item_scaled"; "DV_3item";
                        "DV_3item_scaled"])%list
           ["age_raw"; "age"; "education"; "employment_status"; "occupation";
            "born_in_nl"; "wealth_index"; "high_wealth"; "professional_class";
            "occupation_rank"]) in Hrun as (a & b & Hstep & Hna & Hbefore & Hnb & Hafter);
    [|step_writes|step_writes].
  destruct (Hbefore "sex") as [Hha Hca]; [by apply (bool_decide_unpack _)|].
  destruct (Hafter "sex") as [Hhb Hcb]; [by apply (bool_decide_unpack _)|].
  unfold recode_sex in Hstep. rewrite Hha, Hsex in Hstep.
  apply (inj Some) in Hstep. split.
  - rewrite Hhb, <- Hstep. apply has_column_true.
    rewrite !elem_of_names_assign. by left.
  - intros i r Hr.
    destruct (aligned_row data a i r Hna Hr) as [ra Hra].
    assert (Hrb : rows b !! i =
              Some (<["sex" := keep_categories [Str "Male"; Str "Female"; Str "Other"]
                                 (cell (<["sex" := map_dict sex_map (cell ra "sex")]> ra)
                                    "sex")]>
                      (<["sex" := map_dict sex_map (cell ra "sex")]> ra))).
    { rewrite <- Hstep. cbn [rows assign]. rewrite !list_lookup_fmap, Hra. done. }
    destruct (aligned_row b df i _ Hnb Hrb) as [r' Hr'].
    exists r'. split; [done|].
    rewrite (Hcb i _ r' Hrb Hr'). rewrite !cell_insert_eq.
    rewrite (proj1 (sex_label _)). by rewrite (Hca i r ra Hr Hra).
Qed.

(** The labels of [sex] do not survive a second run.  The first run
    puts the label of the code ([Male], [Female], [Other] for 1, 2, 3;
    missing otherwise) into the column [sex] itself; a second run
    looks the labels up as if they were codes, finds none, and leaves
    every cell of the column missing. *)
Theorem recode_sex_twice (data d1 : DataFrame) :
  recode_survey_variables data = Some d1 →
  has_column data "sex" = true →
  (∀ i r, rows data !! i = Some r →
     ∃ r1, rows d1 !! i = Some r1 ∧
           cell r1 "sex" = map_dict sex_map (cell r "sex")) ∧
  ∀ d2, recode_survey_variables d1 = Some d2 →
    ∀ r2, r2 ∈ rows d2 → cell r2 "sex" = NaN.
Proof.
  intros Hd1 Hsex.
  destruct (recode_sex_effect _ _ Hd1 Hsex) as [Hsex1 Hcells1].
  split; [done|]. intros d2 Hd2 r2 [i Hi]%list_elem_of_lookup.
  destruct (recode_sex_effect _ _ Hd2 Hsex1) as [_ Hcells2].
  destruct (recode_survey_variables_frame _ _ Hd1) as [Hn1 _].
  destruct (recode_survey_variables_frame _ _ Hd2) as [Hn2 _].
  destruct (lookup_lt_is_Some_2 (rows d1) i) as [r1 Hr1].
  { apply lookup_lt_Some in Hi. unfold nrows in Hn2. lia. }
  destruct (lookup_lt_is_Some_2 (rows data) i) as [r Hr].
  { apply lookup_lt_Some in Hr1. unfold nrows in Hn1. lia. }
  destruct (Hcells1 i r Hr) as (r1' & Hr1' & E1).
  destruct (Hcells2 i r1 Hr1) as (r2' & Hr2' & E2).
  assert (r1' = r1) as -> by congruence. assert (r2' = r2) as -> by congruence.
  rewrite E2, E1. apply sex_label.
Qed.


(** *** The wealth index *)

(** An answer to an asset question: yes, no or missing. *)
Definition yes_no (v : value) : Prop :=
  match v with
  | NaN => True
  | Num x => (x == 0 ∨ x == 1)%Q
  | Str _ => False
  end.

Lemma row_sum_fillna0_ext (cs : list string) (r r' : row) :
  (∀ c, c ∈ cs → cell r' c = cell r c) →
  row_sum_fillna0 cs r' = row_sum_fillna0 cs r.
Proof.
  induction cs as [|c cs IH]; intros Hc; [done|].
  cbn [row_sum_fillna0 foldr]. fold (row_sum_fillna0 cs r) (row_sum_fillna0 cs r').
  rewrite IH by (intros c' Hc'; apply Hc; by right).
  rewrite (Hc c) by left. done.
Qed.

Lemma row_sum_fillna0_bounds (cs : list string) (r : row) (q : Q) :
  row_sum_fillna0 cs r = Some (Num q) →
  (∀ c, c ∈ cs → yes_no (cell r c)) →
  (0 <= q <= inject_Z (Z.of_nat (length cs)))%Q.
Proof.
  revert q. induction cs as [|c cs IH]; intros q Hsum Hyn.
  { injection Hsum as <-. split; by vm_compute. }
  cbn [row_sum_fillna0 foldr] in Hsum. fold (row_sum_fillna0 cs r) in Hsum.
  destruct (row_sum_fillna0 cs r) as [acc|] eqn:Hacc; [|done].
  destruct (row_sum_fillna0_Num _ _ _ Hacc) as [a ->].
  cbn [mbind option_bind] in Hsum.
  destruct (IH a eq_refl) as [Ha0 Ha1]; [intros c' Hc'; apply Hyn; by right|].
  pose proof (Hyn c (list_elem_of_here _ _)) as Hc.
  assert (Hlen : (inject_Z (Z.of_nat (length (c :: cs)))
                  == 1 + inject_Z (Z.of_nat (length cs)))%Q).
  { cbn [length]. rewrite Nat2Z.inj_succ, <- Z.add_1_l, inject_Z_plus. reflexivity. }
  rewrite Hlen.
  destruct (cell r c) as [|x|s]; cbn [vadd yes_no] in *; [| |done].
  - injection Hsum as <-. lra.
  - injection Hsum as <-. destruct Hc as [Hx|Hx]; rewrite Hx; lra.
Qed.

Lemma filter_wealth_length (p : string → bool) :
  (length (List.filter p wealth_vars) <= 4)%nat.
Proof.
  unfold wealth_vars. cbn [List.filter].
  repeat match goal with |- context [if ?b then _ else _] => destruct b end;
    simpl; lia.
Qed.

(** When the survey has at least one of the four asset columns, every
    respondent gets a numeric [wealth_index], the number of assets
    over the asset columns that exist, a missing answer counting as
    no asset, and [high_wealth] is 1 when the index is at least 2 and
    0 otherwise; neither is ever missing.  With yes/no answers the
    index lies between 0 and 4. *)
Theorem recode_wealth_index (data df : DataFrame) :
  recode_survey_variables data = Some df →
  (∃ v, v ∈ wealth_vars ∧ has_column data v = true) →
  ∀ i r, rows data !! i = Some r →
    ∃ r' q, rows df !! i = Some r' ∧
      row_sum_fillna0 (List.filter (has_column data) wealth_vars) r
        = Some (Num q) ∧
      cell r' "wealth_index" = Num q ∧
      cell r' "high_wealth" = Num (if Qle_bool 2 q then 1 else 0) ∧
      ((∀ v, v ∈ wealth_vars → yes_no (cell r v)) → (0 <= q <= 4)%Q).
Proof.
  rewrite recode_survey_variables_all. intros Hrun (v0 & Hv0 & Hhas0) i r Hr.
  change all_steps with
    ([refused_to_nan "gov_int"; refused_to_nan "red_inc_diff";
      refused_to_nan "union_pref"; dv_single; dv_2item; dv_3item;
      recode_sex; recode_age; recode_education;
      mapped_into "employment_status" "work_status" employment_map;
      mapped_into "occupation" "work_type" occupation_map;
      recode_migration] ++
     recode_wealth :: [recode_class])%list in Hrun.
  apply (run_around _ _ _
           (dv_vars ++ ["DV_single"; "DV_2item"; "DV_2item_scaled"; "DV_3item";
                        "DV_3item_scaled"; "sex"; "age_raw"; "age"; "education";
                        "employment_status"; "occupation"; "born_in_nl"])%list
           ["professional_class"; "occupation_rank"]) in Hrun
    as (a & b & Hstep & Hna & Hbefore & Hnb & Hafter);
    [|step_writes|step_writes].
  assert (Hw : ∀ v, v ∈ wealth_vars → unchanged v data a).
  { intros v Hv. apply Hbefore. unfold wealth_vars in Hv.
    repeat (apply elem_of_cons in Hv as [->|Hv];
            [by apply (bool_decide_unpack _)|]).
    by apply elem_of_nil in Hv. }
  assert (Havail : List.filter (has_column a) wealth_vars
                   = List.filter (has_column data) wealth_vars).
  { unfold wealth_vars. cbn [List.filter].
    rewrite (proj1 (Hw "owns_home" ltac:(by apply (bool_decide_unpack _)))).
    rewrite (proj1 (Hw "owns_property" ltac:(by apply (bool_decide_unpack _)))).
    rewrite (proj1 (Hw "has_savings" ltac:(by apply (bool_decide_unpack _)))).
    by rewrite (proj1 (Hw "owns_stocks" ltac:(by apply (bool_decide_unpack _)))). }
  unfold recode_wealth in Hstep. cbv zeta in Hstep. rewrite Havail in Hstep.
  set (avail := List.filter (has_column data) wealth_vars) in *.
  assert (Hne : avail ≠ []).
  { intros E. assert (Hin : v0 ∈ avail).
    { apply list_elem_of_In, filter_In. split; [by apply list_elem_of_In|done]. }
    rewrite E in Hin. by apply elem_of_nil in Hin. }
  assert (Hsub : ∀ v, v ∈ avail → v ∈ wealth_vars).
  { intros v Hv. apply list_elem_of_In, filter_In in Hv as [Hv _].
    by apply list_elem_of_In. }
  assert (Hstep' : (d ← assign_try a "wealth_index" float64 (row_sum_fillna0 avail);
                    Some (assign d "high_wealth" int64
                            (λ r, of_bool (ge_num 2 (cell r "wealth_index")))))
                   = Some b).
  { destruct avail; [done|exact Hstep]. }
  clear Hstep.
  destruct (assign_try a "wealth_index" float64 (row_sum_fillna0 avail))
    as [d|] eqn:Hd; [|done].
  cbn [mbind option_bind] in Hstep'. apply (inj Some) in Hstep'.
  destruct (aligned_row data a i r Hna Hr) as [ra Hra].
  destruct (assign_try_Some _ _ _ _ _ Hd) as [_ Hrows].
  destruct (Forall2_lookup_l _ _ _ _ _ Hrows Hra) as (rd & Hrd & w & Hsum & ->).
  destruct (row_sum_fillna0_Num _ _ _ Hsum) as [q ->].
  assert (Hrb : rows b !! i =
            Some (<["high_wealth" := of_bool (ge_num 2
                      (cell (<["wealth_index" := Num q]> ra) "wealth_index"))]>
                    (<["wealth_index" := Num q]> ra))).
  { rewrite <- Hstep'. cbn [rows assign]. by rewrite list_lookup_fmap, Hrd. }
  destruct (aligned_row b df i _ Hnb Hrb) as [r' Hr'].
  assert (Hsum' : row_sum_fillna0 avail r = Some (Num q)).
  { rewrite <- Hsum. symmetry. apply row_sum_fillna0_ext.
    intros c Hc. exact (proj2 (Hw c (Hsub c Hc)) i r ra Hr Hra). }
  exists r', q. split; [done|]. split; [done|].
  destruct (Hafter "wealth_index") as [_ Hc1]; [by apply (bool_decide_unpack _)|].
  destruct (Hafter "high_wealth") as [_ Hc2]; [by apply (bool_decide_unpack _)|].
  rewrite (Hc1 i _ r' Hrb Hr'), (Hc2 i _ r' Hrb Hr').
  rewrite cell_insert_ne by done. rewrite !cell_insert_eq.
  split; [done|]. split; [done|].
  intros Hyn.
  destruct (row_sum_fillna0_bounds avail r q Hsum') as [H0 H1].
  { intros c Hc. apply Hyn. by apply Hsub. }
  split; [done|].
  pose proof (filter_wealth_length (has_column data)) as Hlen. fold avail in Hlen.
  assert ((inject_Z (Z.of_nat (length avail)) <= 4)%Q).
  { change 4%Q with (inject_Z 4). rewrite <- Zle_Qle. lia. }
  lra.
Qed.

(** *** A composite leaves a refused item out *)

(** For a respondent who answered [gov_int] with [g] (not the refusal
    code 8) and refused or skipped [red_inc_diff], the single-item
    outcome is missing, while the two-item composite is not: it is
    [g] itself, the mean over the one answer given, and its rescaled
    value is [(g - 1) / 6 * 100]. *)
Theorem composite_skips_refused (data df : DataFrame) (i : nat) (r : row) (g : Q) :
  recode_survey_variables data = Some df →
  has_column data "gov_int" = true →
  has_column data "red_inc_diff" = true →
  rows data !! i = Some r →
  cell r "gov_int" = Num g → Qeq_bool g 8 = false →
  cell r "red_inc_diff" = NaN ∨ value_eqb (cell r "red_inc_diff") (Num 8) = true →
  ∃ r' m, rows df !! i = Some r' ∧ (m == g)%Q ∧
    cell r' "DV_single" = NaN ∧
    cell r' "DV_2item" = Num m ∧
    cell r' "DV_2item_scaled" = Num ((m - 1) / 6 * 100).
Proof.
  intros Hrun Hgov Hred Hr Hg Hg8 Hrefused.
  destruct (recode_cells _ _ Hrun) as (_ & _ & Hcells).
  destruct (Hcells i r Hr) as (r' & Hr' & Hitems & Hsingle & H2 & _).
  rewrite Hred in Hsingle. rewrite Hgov, Hred in H2. cbn [andb] in H2.
  destruct H2 as [Hmean Hscaled].
  assert (Eg : cell r' "gov_int" = Num g).
  { rewrite (Hitems "gov_int") by (by apply (bool_decide_unpack _)).
    rewrite Hgov, Hg. unfold refused. cbn [andb value_eqb]. by rewrite Hg8. }
  assert (Er : cell r' "red_inc_diff" = NaN).
  { rewrite (Hitems "red_inc_diff") by (by apply (bool_decide_unpack _)).
    rewrite Hred. unfold refused. cbn [andb].
    destruct Hrefused as [E | E]; by rewrite E. }
  rewrite Er in Hsingle. cbn in Hsingle. apply (inj Some) in Hsingle.
  unfold row_mean in Hmean. cbn [map] in Hmean. rewrite Eg, Er in Hmean.
  cbn in Hmean. apply (inj Some) in Hmean.
  rewrite <- Hmean in Hscaled. rewrite rescale_Num in Hscaled.
  apply (inj Some) in Hscaled.
  exists r', (Qmean [g]). split; [done|]. split.
  { unfold Qmean, Qsum. cbn [foldr length]. field. }
  split; [done|]. split; [done|]. done.
Qed.

End RecodeFacts.

(** *** The geographic identifiers *)

Section GeoMore.
Context `{NumLib}.

(** The three identifiers made from one raw code. *)
Definition ids_of_code (raw : value) : value * value * value :=
  if isna raw then (NaN, NaN, NaN)
  else let b := buurt_code_text raw in
       (Str b, Str (slice_to 6 b), Str (slice_to 4 b)).

(** One row of the result of [create_geo_ids]. *)
Definition with_ids (r : row) : row :=
  let '(b, w, g) := ids_of_code (cell r "Buurtcode") in
  <["gemeente_id" := g]> (<["wijk_id" := w]> (<["buurt_id" := b]> r)).

Lemma create_geo_ids_rows (survey df : DataFrame) :
  create_geo_ids survey = Some df → rows df = map with_ids (rows survey).
Proof.
  unfold create_geo_ids. destruct (has_column survey "Buurtcode"); [|done].
  intros [= <-]. cbn [rows assign loc_set]. rewrite !map_map.
  apply map_ext. intros r. unfold with_ids, ids_of_code, set_cells. cbn [foldr].
  rewrite (cell_insert_ne r "buurt_id" "Buurtcode") by done.
  destruct (isna (cell r "Buurtcode")) eqn:Hna; cells.
  - apply map_eq. intros k.
    destruct (decide (k = "gemeente_id")) as [->|Hg]; [by simplify_map_eq|].
    destruct (decide (k = "wijk_id")) as [->|Hw]; [by simplify_map_eq|].
    destruct (decide (k = "buurt_id")) as [->|Hb]; by simplify_map_eq.
  - done.
Qed.

Lemma with_ids_again (r : row) : with_ids (with_ids r) = with_ids r.
Proof.
  unfold with_ids at 1 3.
  assert (E : cell (with_ids r) "Buurtcode" = cell r "Buurtcode").
  { unfold with_ids. destruct (ids_of_code (cell r "Buurtcode")) as [[b w] g].
    by cells. }
  rewrite E. unfold with_ids.
  destruct (ids_of_code (cell r "Buurtcode")) as [[b w] g].
  apply map_eq. intros k.
  destruct (decide (k = "gemeente_id")) as [->|Hg]; [by simplify_map_eq|].
  destruct (decide (k = "wijk_id")) as [->|Hw]; [by simplify_map_eq|].
  destruct (decide (k = "buurt_id")) as [->|Hb]; by simplify_map_eq.
Qed.

(** A column list in which [c] is present with dtype [dt] only. *)
Definition settled (c : string) (dt : dtype) (cols : list (string * dtype)) :
    Prop :=
  c ∈ cols.*1 ∧ ∀ cd, cd ∈ cols → cd.1 = c → cd = (c, dt).

Lemma settled_set_dtype (c : string) (dt : dtype) (cols : list (string * dtype)) :
  settled c dt (set_dtype c dt cols).
Proof.
  split.
  { rewrite set_dtype_names. destruct (bool_decide (c ∈ cols.*1)) eqn:E.
    - by apply bool_decide_eq_true in E.
    - apply elem_of_app. right. left. }
  intros cd Hcd Hc. unfold set_dtype in Hcd.
  destruct (bool_decide (c ∈ cols.*1)) eqn:E.
  - apply list_elem_of_fmap in Hcd as (cd0 & -> & Hcd0).
    destruct (String.eqb cd0.1 c) eqn:E'; [done|].
    apply String.eqb_neq in E'. simpl in Hc. done.
  - apply bool_decide_eq_false in E.
    apply elem_of_app in Hcd as [Hcd|Hcd].
    + exfalso. apply E. apply list_elem_of_fmap. by exists cd.
    + by apply list_elem_of_singleton in Hcd.
Qed.

Lemma set_dtype_settled (c : string) (dt : dtype) (cols : list (string * dtype)) :
  settled c dt cols → set_dtype c dt cols = cols.
Proof.
  intros [Hin Hall]. unfold set_dtype. rewrite bool_decide_eq_true_2 by done.
  clear Hin. induction cols as [|cd cols IH]; [done|].
  cbn [map]. f_equal.
  - destruct (String.eqb cd.1 c) eqn:E; [|done].
    apply String.eqb_eq in E. symmetry. apply Hall; [left|done].
  - apply IH. intros cd' Hcd'. apply Hall. by right.
Qed.

Lemma settled_other (c c' : string) (dt dt' : dtype)
    (cols : list (string * dtype)) :
  c ≠ c' → settled c dt cols → settled c dt (set_dtype c' dt' cols).
Proof.
  intros Hne [Hin Hall]. split.
  { rewrite set_dtype_names. destruct (bool_decide (c' ∈ cols.*1)); [done|].
    apply elem_of_app. by left. }
  intros cd Hcd Hc. unfold set_dtype in Hcd.
  destruct (bool_decide (c' ∈ cols.*1)).
  - apply list_elem_of_fmap in Hcd as (cd0 & -> & Hcd0).
    destruct (String.eqb cd0.1 c') eqn:E; [simpl in Hc; congruence|].
    by apply Hall.
  - apply elem_of_app in Hcd as [Hcd|Hcd]; [by apply Hall|].
    apply list_elem_of_singleton in Hcd as ->. simpl in Hc. congruence.
Qed.

Lemma with_ids_cells (r : row) :
  (cell (with_ids r) "buurt_id", cell (with_ids r) "wijk_id",
   cell (with_ids r) "gemeente_id") = ids_of_code (cell r "Buurtcode").
Proof.
  unfold with_ids. destruct (ids_of_code (cell r "Buurtcode")) as [[b w] g].
  by cells.
Qed.

(** The identifiers nest.  In the result of [create_geo_ids] a row
    either has three missing identifiers, or a [buurt_id] of at least
    8 characters, a [wijk_id] of exactly 6 and a [gemeente_id] of
    exactly 4, the [wijk_id] being the start of the [buurt_id] and the
    [gemeente_id] the start of the [wijk_id].  So two respondents of
    one buurt are in one wijk, and two respondents of one wijk are in
    one gemeente. *)
Theorem create_geo_ids_nested (survey df : DataFrame) :
  create_geo_ids survey = Some df →
  (∀ r', r' ∈ rows df →
     (cell r' "buurt_id" = NaN ∧ cell r' "wijk_id" = NaN ∧
      cell r' "gemeente_id" = NaN) ∨
     ∃ b w g, cell r' "buurt_id" = Str b ∧ cell r' "wijk_id" = Str w ∧
       cell r' "gemeente_id" = Str g ∧
       (8 <= String.length b)%nat ∧ String.length w = 6%nat ∧
       String.length g = 4%nat ∧
       w = slice_to 6 b ∧ g = slice_to 4 w) ∧
  ∀ r1 r2, r1 ∈ rows df → r2 ∈ rows df →
    (cell r1 "buurt_id" = cell r2 "buurt_id" →
     cell r1 "wijk_id" = cell r2 "wijk_id") ∧
    (cell r1 "wijk_id" = cell r2 "wijk_id" →
     cell r1 "gemeente_id" = cell r2 "gemeente_id").
Proof.
  intros Hdf. apply create_geo_ids_rows in Hdf.
  assert (Hrow : ∀ r', r' ∈ rows df →
     (cell r' "buurt_id" = NaN ∧ cell r' "wijk_id" = NaN ∧
      cell r' "gemeente_id" = NaN) ∨
     ∃ b w g, cell r' "buurt_id" = Str b ∧ cell r' "wijk_id" = Str w ∧
       cell r' "gemeente_id" = Str g ∧
       (8 <= String.length b)%nat ∧ String.length w = 6%nat ∧
       String.length g = 4%nat ∧
       w = slice_to 6 b ∧ g = slice_to 4 w).
  { intros r' Hr'. rewrite Hdf in Hr'.
    apply list_elem_of_fmap in Hr' as (r & -> & _).
    pose proof (with_ids_cells r) as Hc. unfold ids_of_code in Hc.
    destruct (isna (cell r "Buurtcode")).
    - left. by injection Hc as -> -> ->.
    - right. cbv zeta in Hc. injection Hc as -> -> ->.
      pose proof (zfill_length 8 (sub_dot0_end (astype_str (cell r "Buurtcode"))))
        as Hlen.
      fold (buurt_code_text (cell r "Buurtcode")) in Hlen.
      eexists _, _, _. split; [done|]. split; [done|]. split; [done|].
      split; [done|]. rewrite !slice_to_length.
      split; [lia|]. split; [lia|]. split; [done|].
      by rewrite slice_to_slice_to by lia. }
  split; [done|]. intros r1 r2 H1 H2.
  destruct (Hrow r1 H1) as [(B1 & W1 & G1)|(b1 & w1 & g1 & B1 & W1 & G1 & _ & _ & _ & -> & ->)];
  destruct (Hrow r2 H2) as [(B2 & W2 & G2)|(b2 & w2 & g2 & B2 & W2 & G2 & _ & _ & _ & -> & ->)];
    rewrite B1, B2, W1, W2, G1, G2; split; try done; by intros [= ->].
Qed.

Lemma create_geo_ids_writes :
  writes_only ["buurt_id"; "wijk_id"; "gemeente_id"] create_geo_ids.
Proof.
  unfold create_geo_ids.
  apply (writes_only_if _ (λ d, has_column d "Buurtcode")
           (λ d, Some (loc_set (λ r, isna (cell r "buurt_id"))
                         ["wijk_id"; "gemeente_id"] NaN
                   (assign (assign (loc_set (λ r, isna (cell r "Buurtcode"))
                                      ["buurt_id"] NaN
                              (assign d "buurt_id" object
                                 (λ r, Str (buurt_code_text (cell r "Buurtcode")))))
                              "wijk_id" object
                              (λ r, str_apply (slice_to 6) (cell r "buurt_id")))
                      "gemeente_id" object
                      (λ r, str_apply (slice_to 4) (cell r "buurt_id")))))
           (λ _, None)); [|by intros ? ? ?].
  apply (writes_only_bind _
           (λ d, Some (assign d "buurt_id" object
                         (λ r, Str (buurt_code_text (cell r "Buurtcode")))))
           (λ d, Some (loc_set (λ r, isna (cell r "buurt_id"))
                         ["wijk_id"; "gemeente_id"] NaN
                   (assign (assign (loc_set (λ r, isna (cell r "Buurtcode"))
                                      ["buurt_id"] NaN d)
                              "wijk_id" object
                              (λ r, str_apply (slice_to 6) (cell r "buurt_id")))
                      "gemeente_id" object
                      (λ r, str_apply (slice_to 4) (cell r "buurt_id")))))).
  { apply (writes_only_assign _ _ _ (λ _ r, Str (buurt_code_text (cell r "Buurtcode")))).
    by apply (bool_decide_unpack _). }
  apply (writes_only_bind _
           (λ d, Some (loc_set (λ r, isna (cell r "Buurtcode")) ["buurt_id"] NaN d))
           (λ d, Some (loc_set (λ r, isna (cell r "buurt_id"))
                         ["wijk_id"; "gemeente_id"] NaN
                   (assign (assign d "wijk_id" object
                              (λ r, str_apply (slice_to 6) (cell r "buurt_id")))
                      "gemeente_id" object
                      (λ r, str_apply (slice_to 4) (cell r "buurt_id")))))).
  { apply writes_only_loc_set. intros c ->%list_elem_of_singleton.
    by apply (bool_decide_unpack _). }
  apply (writes_only_bind _
           (λ d, Some (assign d "wijk_id" object
                         (λ r, str_apply (slice_to 6) (cell r "buurt_id"))))
           (λ d, Some (loc_set (λ r, isna (cell r "buurt_id"))
                         ["wijk_id"; "gemeente_id"] NaN
                   (assign d "gemeente_id" object
                      (λ r, str_apply (slice_to 4) (cell r "buurt_id")))))).
  { apply (writes_only_assign _ _ _ (λ _ r, str_apply (slice_to 6) (cell r "buurt_id"))).
    by apply (bool_decide_unpack _). }
  apply (writes_only_bind _
           (λ d, Some (assign d "gemeente_id" object
                         (λ r, str_apply (slice_to 4) (cell r "buurt_id"))))
           (λ d, Some (loc_set (λ r, isna (cell r "buurt_id"))
                         ["wijk_id"; "gemeente_id"] NaN d))).
  { apply (writes_only_assign _ _ _ (λ _ r, str_apply (slice_to 4) (cell r "buurt_id"))).
    by apply (bool_decide_unpack _). }
  apply writes_only_loc_set. intros c Hc.
  apply elem_of_cons in Hc as [->|Hc]; [by apply (bool_decide_unpack _)|].
  apply list_elem_of_singleton in Hc as ->. by apply (bool_decide_unpack _).
Qed.

(** [create_geo_ids] writes the three identifier columns and nothing
    else, and running it again on its result changes nothing: the
    identifiers are made from [Buurtcode], which it leaves as it
    was. *)
Theorem create_geo_ids_again (survey df : DataFrame) :
  create_geo_ids survey = Some df →
  nrows df = nrows survey ∧
  (∀ c, c ∉ ["buurt_id"; "wijk_id"; "gemeente_id"] → unchanged c survey df) ∧
  create_geo_ids df = Some df.
Proof.
  intros Hdf. pose proof (create_geo_ids_rows _ _ Hdf) as Hrows.
  destruct (create_geo_ids_writes _ _ Hdf) as [Hn Hframe]. split; [done|]. split; [done|].
  assert (Hcols : columns df =
            set_dtype "gemeente_id" object
              (set_dtype "wijk_id" object
                 (set_dtype "buurt_id" object (columns survey)))).
  { unfold create_geo_ids in Hdf.
    destruct (has_column survey "Buurtcode"); [|done]. by injection Hdf as <-. }
  assert (Hbc : has_column df "Buurtcode" = true).
  { rewrite (proj1 (Hframe "Buurtcode" ltac:(by apply (bool_decide_unpack _)))).
    unfold create_geo_ids in Hdf.
    by destruct (has_column survey "Buurtcode"). }
  destruct (create_geo_ids df) as [d2|] eqn:Hd2;
    [|unfold create_geo_ids in Hd2; by rewrite Hbc in Hd2].
  f_equal. pose proof (create_geo_ids_rows _ _ Hd2) as Hrows2.
  assert (Hcols2 : columns d2 =
            set_dtype "gemeente_id" object
              (set_dtype "wijk_id" object
                 (set_dtype "buurt_id" object (columns df)))).
  { unfold create_geo_ids in Hd2. rewrite Hbc in Hd2. by injection Hd2 as <-. }
  destruct d2 as [cols2 rows2], df as [cols1 rows1]. cbn [columns rows] in *.
  f_equal.
  - rewrite Hcols2.
    rewrite (set_dtype_settled "buurt_id" object cols1).
    2:{ rewrite Hcols. do 2 (apply settled_other; [done|]).
        apply settled_set_dtype. }
    rewrite (set_dtype_settled "wijk_id" object cols1).
    2:{ rewrite Hcols. apply settled_other; [done|]. apply settled_set_dtype. }
    apply set_dtype_settled. rewrite Hcols. apply settled_set_dtype.
  - rewrite Hrows2, Hrows, map_map. apply map_ext. intros r. apply with_ids_again.
Qed.

End GeoMore.

(** *** Standardized columns are centred *)

Section StandardizeMore.
Context `{NumLib}.




End StandardizeMore.

(** *** What the inequality indices leave alone *)

(** The six names an index column can have. *)
Definition index_columns : list string :=
  ["b_income_polarization"; "b_income_ratio"; "w_income_polarization";
   "w_income_ratio"; "g_income_polarization"; "g_income_ratio"].

Ltac join_names :=
  repeat match goal with
  | |- context [String.append ?a ?b] =>
      let s := eval vm_compute in (String.append a b) in
      change (String.append a b) with s
  | H : context [String.append ?a ?b] |- _ =>
      let s := eval vm_compute in (String.append a b) in
      change (String.append a b) with s in H
  end.

(** [create_inequality_indices] keeps the rows in place and every
    cell of every column that is not an index column.  For a prefix
    without both of its share columns it makes no index: the index
    columns of that prefix are present in the result exactly when
    they were present before, with the cells they had. *)
Theorem create_inequality_indices_frame (data df : DataFrame) :
  create_inequality_indices data = Some df →
  nrows df = nrows data ∧
  ∀ i r, rows data !! i = Some r →
    ∃ r', rows df !! i = Some r' ∧
      (∀ c, c ∉ index_columns →
         cell r' c = cell r c ∧ has_column df c = has_column data c) ∧
      ∀ prefix, prefix ∈ index_prefixes →
        has_column data (prefix +:+ "perc_low40_hh") &&
        has_column data (prefix +:+ "perc_high20_hh") = false →
        ∀ c, c ∈ [prefix +:+ "income_polarization"; prefix +:+ "income_ratio"] →
          cell r' c = cell r c ∧ has_column df c = has_column data c.
Proof.
  intros Hdf. unfold create_inequality_indices in Hdf. cbn [foldl] in Hdf.
  destruct (inequality_step (Some data) "b_") as [d1|] eqn:H1; [|done].
  destruct (inequality_step (Some d1) "w_") as [d2|] eqn:H2; [|done].
  pose proof (inequality_step_rows _ _ _ H1) as [Hn1 S1].
  pose proof (inequality_step_rows _ _ _ H2) as [Hn2 S2].
  pose proof (inequality_step_rows _ _ _ Hdf) as [Hn3 S3].
  split; [congruence|]. intros i r Hr.
  destruct (inequality_step_frame _ _ _ i r H1 Hr) as (r1 & Hr1 & F1).
  destruct (inequality_step_frame _ _ _ i r1 H2 Hr1) as (r2 & Hr2 & F2).
  destruct (inequality_step_frame _ _ _ i r2 Hdf Hr2) as (r3 & Hr3 & F3).
  exists r3. split; [done|].
  assert (Hne : ∀ c x, c ∉ index_columns → x ∈ index_columns → c ≠ x)
    by (intros c x Hc Hx ->; done).
  assert (Hshare : ∀ c, c ∉ index_columns →
            has_column d1 c = has_column data c ∧
            has_column d2 c = has_column data c).
  { intros c Hc.
    destruct (F1 c) as [_ E1];
      [apply (Hne c _ Hc); by apply (bool_decide_unpack _)..|].
    destruct (F2 c) as [_ E2];
      [apply (Hne c _ Hc); by apply (bool_decide_unpack _)..|].
    split; congruence. }
  split.
  - intros c Hc.
    destruct (F1 c) as [C1 E1];
      [apply (Hne c _ Hc); by apply (bool_decide_unpack _)..|].
    destruct (F2 c) as [C2 E2];
      [apply (Hne c _ Hc); by apply (bool_decide_unpack _)..|].
    destruct (F3 c) as [C3 E3];
      [apply (Hne c _ Hc); by apply (bool_decide_unpack _)..|].
    split; congruence.
  - intros prefix Hp Hmiss c Hc.
    assert (L1 : has_column d1 "w_perc_low40_hh" = has_column data "w_perc_low40_hh")
      by (apply Hshare; by apply (bool_decide_unpack _)).
    assert (G1 : has_column d1 "w_perc_high20_hh" = has_column data "w_perc_high20_hh")
      by (apply Hshare; by apply (bool_decide_unpack _)).
    assert (L2 : has_column d2 "g_perc_low40_hh" = has_column data "g_perc_low40_hh")
      by (apply Hshare; by apply (bool_decide_unpack _)).
    assert (G2 : has_column d2 "g_perc_high20_hh" = has_column data "g_perc_high20_hh")
      by (apply Hshare; by apply (bool_decide_unpack _)).
    unfold index_prefixes in Hp.
    apply elem_of_cons in Hp as [->|Hp];
      [|apply elem_of_cons in Hp as [->|Hp];
        [|apply list_elem_of_singleton in Hp as ->]];
      join_names.
    + rewrite Hmiss in S1. subst d1.
      assert (r1 = r) as -> by congruence.
      apply elem_of_cons in Hc as [->|Hc];
        [|apply list_elem_of_singleton in Hc as ->].
      * destruct (F2 "b_income_polarization") as [C2 E2]; [done..|].
        destruct (F3 "b_income_polarization") as [C3 E3]; [done..|].
        split; congruence.
      * destruct (F2 "b_income_ratio") as [C2 E2]; [done..|].
        destruct (F3 "b_income_ratio") as [C3 E3]; [done..|].
        split; congruence.
    + rewrite L1, G1, Hmiss in S2. subst d2.
      assert (r2 = r1) as -> by congruence.
      apply elem_of_cons in Hc as [->|Hc];
        [|apply list_elem_of_singleton in Hc as ->].
      * destruct (F1 "w_income_polarization") as [C1 E1]; [done..|].
        destruct (F3 "w_income_polarization") as [C3 E3]; [done..|].
        split; congruence.
      * destruct (F1 "w_income_ratio") as [C1 E1]; [done..|].
        destruct (F3 "w_income_ratio") as [C3 E3]; [done..|].
        split; congruence.
    + rewrite L2, G2, Hmiss in S3. subst df.
      assert (r3 = r2) as -> by congruence.
      apply elem_of_cons in Hc as [->|Hc];
        [|apply list_elem_of_singleton in Hc as ->].
      * destruct (F1 "g_income_polarization") as [C1 E1]; [done..|].
        destruct (F2 "g_income_polarization") as [C2 E2]; [done..|].
        split; congruence.
      * destruct (F1 "g_income_ratio") as [C1 E1]; [done..|].
        destruct (F2 "g_income_ratio") as [C2 E2]; [done..|].
        split; congruence.
Qed.

(** *** The theorems on concrete tables *)

(** The hypothesis of [recode_survey_variables_frame] on the table of
    two respondents. *)
Lemma recode_survey_variables_frame_witness :
  recode_survey_variables (H := reference_numlib) recode_example
    = Some recode_example_once ∧
  nrows recode_example_once = nrows recode_example ∧
  Forall (λ c, c ∉ recode_written) raw_inputs ∧
  ∀ c, c ∉ recode_written →
    has_column recode_example_once c = has_column recode_example c ∧
    ∀ i r r', rows recode_example !! i = Some r →
              rows recode_example_once !! i = Some r' →
              cell r' c = cell r c.
Proof.
  assert (Hrun : recode_survey_variables (H := reference_numlib) recode_example
                 = Some recode_example_once) by (vm_compute; reflexivity).
  split; [exact Hrun|].
  exact (recode_survey_variables_frame (H := reference_numlib) _ _ Hrun).
Defined.

(** The hypotheses of [recode_sex_twice] on the same table. *)
Lemma recode_sex_twice_witness :
  recode_survey_variables (H := reference_numlib) recode_example
    = Some recode_example_once ∧
  has_column recode_example "sex" = true ∧
  (∀ i r, rows recode_example !! i = Some r →
     ∃ r1, rows recode_example_once !! i = Some r1 ∧
           cell r1 "sex" = map_dict sex_map (cell r "sex")) ∧
  ∀ d2, recode_survey_variables (H := reference_numlib) recode_example_once
          = Some d2 →
    ∀ r2, r2 ∈ rows d2 → cell r2 "sex" = NaN.
Proof.
  assert (Hrun : recode_survey_variables (H := reference_numlib) recode_example
                 = Some recode_example_once) by (vm_compute; reflexivity).
  split; [exact Hrun|]. split; [reflexivity|].
  exact (recode_sex_twice (H := reference_numlib) _ _ Hrun eq_refl).
Defined.

(** The hypotheses of [recode_wealth_index] on the same table, which
    has one asset column: the first respondent owns a home, the
    second did not answer. *)
Lemma recode_wealth_index_witness :
  recode_survey_variables (H := reference_numlib) recode_example
    = Some recode_example_once ∧
  (∃ v, v ∈ wealth_vars ∧ has_column recode_example v = true) ∧
  ∀ i r, rows recode_example !! i = Some r →
    ∃ r' q, rows recode_example_once !! i = Some r' ∧
      row_sum_fillna0 (List.filter (has_column recode_example) wealth_vars) r
        = Some (Num q) ∧
      cell r' "wealth_index" = Num q ∧
      cell r' "high_wealth" = Num (if Qle_bool 2 q then 1 else 0) ∧
      ((∀ v, v ∈ wealth_vars → yes_no (cell r v)) → (0 <= q <= 4)%Q).
Proof.
  assert (Hrun : recode_survey_variables (H := reference_numlib) recode_example
                 = Some recode_example_once) by (vm_compute; reflexivity).
  assert (Hcol : ∃ v, v ∈ wealth_vars ∧ has_column recode_example v = true).
  { exists "owns_home". split; [left|reflexivity]. }
  split; [exact Hrun|]. split; [exact Hcol|].
  exact (recode_wealth_index (H := reference_numlib) _ _ Hrun Hcol).
Defined.

Example recode_wealth_example :
  map (λ r, map (cell r) ["owns_home"; "wealth_index"; "high_wealth"])
      (rows recode_example_once)
  = [[Num 1; Num 1; Num 0]; [NaN; Num 0; Num 0]].
Proof. vm_compute. reflexivity. Qed.

(** A respondent who answered [gov_int] with 2 and refused
    [red_inc_diff]. *)
Definition composite_example : DataFrame :=
  mkDF [("gov_int", float64); ("red_inc_diff", float64)]
    [ {["gov_int" := Num 2; "red_inc_diff" := Num 8]} ].

Definition composite_example_once : DataFrame :=
  default empty_frame
    (recode_survey_variables (H := reference_numlib) composite_example).

(** The hypotheses of [composite_skips_refused] on that respondent. *)
Lemma composite_skips_refused_witness :
  recode_survey_variables (H := reference_numlib) composite_example
    = Some composite_example_once ∧
  ∃ r' m, rows composite_example_once !! 0%nat = Some r' ∧ (m == 2)%Q ∧
    cell r' "DV_single" = NaN ∧
    cell r' "DV_2item" = Num m ∧
    cell r' "DV_2item_scaled" = Num ((m - 1) / 6 * 100).
Proof.
  assert (Hrun : recode_survey_variables (H := reference_numlib) composite_example
                 = Some composite_example_once) by (vm_compute; reflexivity).
  split; [exact Hrun|].
  apply (composite_skips_refused (H := reference_numlib) composite_example
           composite_example_once 0
           {["gov_int" := Num 2; "red_inc_diff" := Num 8]} 2 Hrun);
    [reflexivity..|right; reflexivity].
Defined.

(** The hypothesis of [create_geo_ids_nested] on the first scenario. *)
Lemma create_geo_ids_nested_witness :
  ∃ df, create_geo_ids (H := reference_numlib) scenario_1 = Some df ∧
    (∀ r', r' ∈ rows df →
       (cell r' "buurt_id" = NaN ∧ cell r' "wijk_id" = NaN ∧
        cell r' "gemeente_id" = NaN) ∨
       ∃ b w g, cell r' "buurt_id" = Str b ∧ cell r' "wijk_id" = Str w ∧
         cell r' "gemeente_id" = Str g ∧
         (8 <= String.length b)%nat ∧ String.length w = 6%nat ∧
         String.length g = 4%nat ∧
         w = slice_to 6 b ∧ g = slice_to 4 w) ∧
    ∀ r1 r2, r1 ∈ rows df → r2 ∈ rows df →
      (cell r1 "buurt_id" = cell r2 "buurt_id" →
       cell r1 "wijk_id" = cell r2 "wijk_id") ∧
      (cell r1 "wijk_id" = cell r2 "wijk_id" →
       cell r1 "gemeente_id" = cell r2 "gemeente_id").
Proof.
  destruct (create_geo_ids (H := reference_numlib) scenario_1) as [df|] eqn:Hdf;
    [|by vm_compute in Hdf].
  exists df. split; [reflexivity|].
  exact (create_geo_ids_nested (H := reference_numlib) scenario_1 df Hdf).
Defined.

(** The hypothesis of [create_geo_ids_again] on the first scenario. *)
Lemma create_geo_ids_again_witness :
  ∃ df, create_geo_ids (H := reference_numlib) scenario_1 = Some df ∧
    nrows df = nrows scenario_1 ∧
    (∀ c, c ∉ ["buurt_id"; "wijk_id"; "gemeente_id"] →
          unchanged c scenario_1 df) ∧
    create_geo_ids (H := reference_numlib) df = Some df.
Proof.
  destruct (create_geo_ids (H := reference_numlib) scenario_1) as [df|] eqn:Hdf;
    [|by vm_compute in Hdf].
  exists df. split; [reflexivity|].
  exact (create_geo_ids_again (H := reference_numlib) scenario_1 df Hdf).
Defined.

(** A survey with a code that needs padding, a missing code and a
    numeric code, once and twice through [create_geo_ids]. *)
Definition geo_example : DataFrame :=
  mkDF [("Buurtcode", object); ("age", float64)]
    [ {["Buurtcode" := Str "3630100"; "age" := Num 30]};
      {["Buurtcode" := NaN; "age" := Num 40]};
      {["Buurtcode" := Str "03630101"; "age" := Num 50]} ].

Example create_geo_ids_example :
  (df ← create_geo_ids (H := reference_numlib) geo_example;
   Some (map (λ r, map (cell r) ["buurt_id"; "wijk_id"; "gemeente_id"; "age"])
             (rows df)))
  = Some [[Str "03630100"; Str "036301"; Str "0363"; Num 30];
          [NaN; NaN; NaN; Num 40];
          [Str "03630101"; Str "036301"; Str "0363"; Num 50]] ∧
  (df ← create_geo_ids (H := reference_numlib) geo_example;
   create_geo_ids (H := reference_numlib) df)
  = create_geo_ids (H := reference_numlib) geo_example.
Proof. split; vm_compute; reflexivity. Qed.


(** The hypothesis of [create_inequality_indices_frame] on the third
    scenario, which has the two share columns of the buurt level
    only. *)
Lemma create_inequality_indices_frame_witness :
  create_inequality_indices scenario_3 = Some scenario_3_result ∧
  nrows scenario_3_result = nrows scenario_3 ∧
  ∀ i r, rows scenario_3 !! i = Some r →
    ∃ r', rows scenario_3_result !! i = Some r' ∧
      (∀ c, c ∉ index_columns →
         cell r' c = cell r c ∧
         has_column scenario_3_result c = has_column scenario_3 c) ∧
      ∀ prefix, prefix ∈ index_prefixes →
        has_column scenario_3 (prefix +:+ "perc_low40_hh") &&
        has_column scenario_3 (prefix +:+ "perc_high20_hh") = false →
        ∀ c, c ∈ [prefix +:+ "income_polarization"; prefix +:+ "income_ratio"] →
          cell r' c = cell r c ∧
          has_column scenario_3_result c = has_column scenario_3 c.
Proof.
  assert (Hrun : create_inequality_indices scenario_3 = Some scenario_3_result)
    by (vm_compute; reflexivity).
  split; [exact Hrun|].
  exact (create_inequality_indices_frame scenario_3 scenario_3_result Hrun).
Defined.

Example create_inequality_indices_columns :
  column_names scenario_3_result
  = ["b_perc_low40_hh"; "b_perc_high20_hh"; "b_income_polarization";
     "b_income_ratio"].
Proof. vm_compute. reflexivity. Qed.

End TransformMore.

(** ** More of analyze.py and of phase 5b *)

Module AnalyzeMore.
Import PyStr Pandas Py Analyze RunPipeline.

Lemma append_assoc (s t u : string) : (s +:+ t) +:+ u = s +:+ (t +:+ u).
Proof. induction s as [|c s IH]; [done|]. rewrite !app_cons. by rewrite IH. Qed.

(** A string that continues another. *)
Definition extends (s t : string) : Prop := ∃ rest, t = s +:+ rest.

Lemma extends_refl (s : string) : extends s s.
Proof. exists "". by rewrite app_empty_r. Qed.

Lemma extends_app (s rest : string) : extends s (s +:+ rest).
Proof. by exists rest. Qed.

Lemma extends_trans (s t u : string) : extends s t → extends t u → extends s u.
Proof. intros [a ->] [b ->]. exists (a +:+ b). apply append_assoc. Qed.

Lemma add_terms_extends (formula : string) (terms : list string) :
  extends formula (add_terms formula terms).
Proof.
  unfold add_terms. destruct terms as [|t terms]; [apply extends_refl|].
  apply extends_app.
Qed.

Section FourLevel.
Context {numlib : NumLib} {runtime : Runtime} {statsmodels : StatsModels}.

(** *** [calculate_four_level_icc] *)




(** *** What [fit_four_level_models] needs *)

Lemma has_column_string_ids (data : DataFrame) (c : string) :
  forallb (has_column data) required_cols = true →
  has_column (string_ids data) c = has_column data c.
Proof.
  unfold required_cols. cbn [forallb].
  intros [Hb [Hw [Hg _]%andb_true_iff]%andb_true_iff]%andb_true_iff.
  apply has_column_true in Hb, Hw, Hg.
  apply eq_true_iff_eq. rewrite !has_column_true.
  unfold string_ids. cbn [foldl].
  rewrite !elem_of_names_assign. split; [|tauto].
  intros [->|[->|[->|?]]]; done.
Qed.

Lemma missing_none (data : DataFrame) :
  forallb (has_column data) required_cols = true →
  List.filter (λ c, negb (has_column data c)) required_cols = [].
Proof.
  unfold required_cols. cbn [forallb List.filter].
  intros [-> [-> [-> _]%andb_true_iff]%andb_true_iff]%andb_true_iff. done.
Qed.

Lemma elem_of_all_vars (df : DataFrame) (c : string) :
  c ∈ all_vars df →
  c ∈ ["DV_single"; "buurt_id"; "wijk_id"; "gemeente_id"; "b_perc_low40_hh";
       "w_perc_low40_hh"; "g_perc_low40_hh"; "age"; "sex"; "education";
       "employment_status"; "born_in_nl"; "b_pop_dens"; "b_pop_over_65";
       "b_pop_nonwest"; "b_perc_low_inc_hh"; "b_perc_soc_min_hh"; "w_pop_dens";
       "w_pop_over_65"; "w_pop_nonwest"; "w_perc_low_inc_hh";
       "w_perc_soc_min_hh"].
Proof.
  unfold all_vars. rewrite elem_of_remove_dups, !elem_of_app.
  unfold base_required, key_preds, ind_controls, buurt_ctrls, wijk_ctrls.
  intros [Hc|[Hc|[Hc|[Hc|Hc]]]].
  - repeat (apply elem_of_cons in Hc as [->|Hc]; [repeat constructor|]).
    by apply elem_of_nil in Hc.
  - destruct (has_column df "w_perc_low40_hh"), (has_column df "g_perc_low40_hh");
      cbn [app] in Hc;
      repeat (apply elem_of_cons in Hc as [->|Hc]; [repeat constructor|]);
      by apply elem_of_nil in Hc.
  - apply elem_of_bool_filter in Hc as [Hc _].
    repeat (apply elem_of_cons in Hc as [->|Hc]; [repeat constructor|]).
    by apply elem_of_nil in Hc.
  - apply elem_of_bool_filter in Hc as [Hc _].
    repeat (apply elem_of_cons in Hc as [->|Hc]; [repeat constructor|]).
    by apply elem_of_nil in Hc.
  - apply elem_of_bool_filter in Hc as [Hc _].
    repeat (apply elem_of_cons in Hc as [->|Hc]; [repeat constructor|]).
    by apply elem_of_nil in Hc.
Qed.

Lemma select_columns_names (cs : list string) (df : DataFrame) (c : string) :
  c ∈ column_names (select_columns cs df) → c ∈ cs.
Proof.
  unfold column_names, select_columns. cbn [columns].
  intros ([c' d] & -> & Hin)%list_elem_of_fmap.
  apply list_elem_of_omap in Hin as (c0 & Hc0 & Heq).
  destruct (lookup_dtype c0 (columns df)); [|done].
  simpl in Heq. by injection Heq as <- _.
Qed.

(** The table the models are fitted on has no [occupation] column. *)
Lemma model_frame_no_occupation (df df_model : DataFrame) :
  model_frame df = inr df_model → has_column df_model "occupation" = false.
Proof.
  unfold model_frame. destruct (select_strict (all_vars df) df) as [e|sub] eqn:Hs;
    [done|].
  intros [= <-]. unfold select_strict in Hs.
  destruct (List.filter _ (all_vars df)); [|done]. injection Hs as <-.
  destruct (has_column _ "occupation") eqn:Hocc; [|done].
  apply has_column_true in Hocc.
  change (column_names (Merge.dropna _ ?s)) with (column_names s) in Hocc.
  apply select_columns_names, elem_of_all_vars in Hocc.
  repeat (apply elem_of_cons in Hocc as [Hocc|Hocc]; [discriminate Hocc|]).
  by apply elem_of_nil in Hocc.
Qed.

(** The formulas of the four-level sequence grow: each one is the
    one before it with terms added at the end, and all of them have
    the key predictors.  The term [C(occupation)] never enters: the
    table the models are fitted on is cut down to columns among which
    [occupation] is not, so the test for that term is never met. *)
Theorem four_level_formulas_grow (df df_model : DataFrame) :
  model_frame df = inr df_model →
  extends "DV_single ~ b_perc_low40_hh" (m1_formula df) ∧
  extends (m1_formula df) (m2_formula df df_model) ∧
  extends (m2_formula df df_model) (m3_formula df df_model) ∧
  extends (m3_formula df df_model) (m4_formula df df_model) ∧
  m2_formula df df_model =
    add_terms (add_terms (m1_formula df) (num_vars df)) (cat_vars df).
Proof.
  intros Hframe.
  assert (Hm2 : m2_formula df df_model =
                add_terms (add_terms (m1_formula df) (num_vars df)) (cat_vars df)).
  { unfold m2_formula. by rewrite (model_frame_no_occupation _ _ Hframe). }
  split; [|split; [|split; [|split]]]; [| | | |done].
  - unfold m1_formula, key_preds.
    destruct (has_column df "w_perc_low40_hh"), (has_column df "g_perc_low40_hh");
      cbn [app join]; rewrite ?app_cons, ?app_empty_l;
      first [apply extends_refl | eexists; reflexivity].
  - rewrite Hm2. eapply extends_trans; apply add_terms_extends.
  - apply add_terms_extends.
  - apply add_terms_extends.
Qed.

Lemma for_each_coefficients (m4 : MixedLMResults) (vars : list string) :
  (∀ var, var ∈ vars → is_Some (assoc var (params m4)) →
          is_Some (assoc var (bse m4))) →
  outcome (for_each vars (coefficient_line m4)) = inr tt.
Proof.
  induction vars as [|var vars IH]; intros Hbse; [done|].
  cbn [for_each]. rewrite bind_outcome.
  assert (Hline : outcome (coefficient_line m4 var) = inr tt).
  { unfold coefficient_line.
    destruct (assoc var (params m4)) as [coef|] eqn:Hp; [|done].
    destruct (Hbse var) as [se Hse]; [left|by rewrite Hp|]. by rewrite Hse. }
  rewrite Hline. apply IH. intros v Hv. apply Hbse. by right.
Qed.

(** [fit_four_level_models] raises [ValueError], naming the columns,
    when one of the three id columns is missing, and [KeyError] when
    the outcome or the buurt-level key predictor is missing (the wijk
    and gemeente key predictors are used only when they are columns);
    in both cases before any model is fitted.  When the five fits
    return and the standard errors of the last model have an entry for
    every key predictor among its coefficients, the function returns
    the five models, each from its own formula. *)
Theorem fit_four_level_models_needs (data : DataFrame) :
  (∀ missing, missing = List.filter (λ c, negb (has_column data c)) required_cols →
     missing ≠ [] →
     fit_four_level_models data =
     IO [newline +:+ "Fitting four-level multilevel models...";
         "  Note: Using buurt as primary grouping with wijk/gemeente predictors"]
        (inl (ValueError ("Missing required columns for four-level models: "
                          +:+ repr_list missing)))) ∧
  (forallb (has_column data) required_cols = true →
   has_column data "DV_single" && has_column data "b_perc_low40_hh" = false →
   ∃ msg,
     fit_four_level_models data =
     IO [newline +:+ "Fitting four-level multilevel models...";
         "  Note: Using buurt as primary grouping with wijk/gemeente predictors"]
        (inl (KeyError msg))) ∧
  (∀ df_model m0 m1 m2 m3 m4,
     forallb (has_column data) required_cols = true →
     model_frame (string_ids data) = inr df_model →
     mixedlm_fit m0_formula df_model "buurt_id" = inr m0 →
     mixedlm_fit (m1_formula (string_ids data)) df_model "buurt_id" = inr m1 →
     mixedlm_fit (m2_formula (string_ids data) df_model) df_model "buurt_id"
       = inr m2 →
     mixedlm_fit (m3_formula (string_ids data) df_model) df_model "buurt_id"
       = inr m3 →
     mixedlm_fit (m4_formula (string_ids data) df_model) df_model "buurt_id"
       = inr m4 →
     (∀ var, var ∈ key_preds (string_ids data) →
             is_Some (assoc var (params m4)) → is_Some (assoc var (bse m4))) →
     outcome (fit_four_level_models data) =
     inr {| four_m0_empty := m0; four_m1_key_pred := m1;
            four_m2_ind_controls := m2; four_m3_buurt_controls := m3;
            four_m4_wijk_controls := m4 |}).
Proof.
  split; [|split].
  - intros missing -> Hne. unfold fit_four_level_models.
    destruct (List.filter _ required_cols) as [|c cs]; [done|]. by io_simpl.
  - intros Hids Hneed. unfold fit_four_level_models.
    rewrite (missing_none data Hids). io_simpl.
    assert (Hsel : ∃ c cs, List.filter (λ c, negb (has_column (string_ids data) c))
                             (all_vars (string_ids data)) = c :: cs).
    { assert (Hin : ∃ c, c ∈ all_vars (string_ids data) ∧
                         has_column (string_ids data) c = false).
      { apply andb_false_iff in Hneed as [Hd|Hk].
        - exists "DV_single". rewrite has_column_string_ids by done.
          split; [|done]. unfold all_vars, base_required.
          rewrite elem_of_remove_dups, !elem_of_app. left. repeat constructor.
        - exists "b_perc_low40_hh". rewrite has_column_string_ids by done.
          split; [|done]. unfold all_vars, key_preds.
          rewrite elem_of_remove_dups, !elem_of_app. right. left.
          destruct (has_column _ "w_perc_low40_hh"), (has_column _ "g_perc_low40_hh");
            repeat constructor. }
      destruct Hin as (c & Hc & Hno).
      destruct (List.filter _ (all_vars (string_ids data))) as [|c' cs] eqn:Hf;
        [|by eexists _, _].
      assert (Hcf : c ∈ List.filter (λ c, negb (has_column (string_ids data) c))
                      (all_vars (string_ids data))).
      { apply elem_of_bool_filter. by rewrite Hno. }
      rewrite Hf in Hcf. by apply elem_of_nil in Hcf. }
    destruct Hsel as (c & cs & Hsel).
    unfold model_frame, select_strict. rewrite Hsel. io_simpl. by eexists.
  - intros df_model m0 m1 m2 m3 m4 Hids Hframe H0 H1 H2 H3 H4 Hbse.
    unfold fit_four_level_models.
    rewrite (missing_none data Hids), Hframe. io_simpl.
    rewrite H0. io_simpl. rewrite H1. io_simpl. rewrite H2. io_simpl.
    rewrite H3. io_simpl. rewrite H4. io_simpl.
    pose proof (for_each_coefficients m4 _ Hbse) as Hloop.
    destruct (for_each (key_preds (string_ids data)) (coefficient_line m4))
      as [l [e|[]]]; [done|]. by io_simpl.
Qed.

(** Phase 5b never raises, whatever the data and whatever the fits
    do: it returns with the two-level models and their ICC as they
    were.  [four_level_models] is set exactly when
    [fit_four_level_models] returned, and keeps the fitted models also
    when [calculate_four_level_icc] raises afterwards; the line
    [Warning: Four-level models failed] is printed in that case too. *)
Theorem phase_5b_never_raises (data_final : DataFrame) (st : Locals) :
  ∃ st',
    outcome (phase_5b data_final st) = inr st' ∧
    models st' = models st ∧ icc_results st' = icc_results st ∧
    (forallb (has_column data_final) ["wijk_id"; "gemeente_id"] = false →
     four_level_models st' = None ∧ four_level_icc st' = None ∧
     printed (phase_5b data_final st) =
       (header ++ ["  Skipping: wijk_id or gemeente_id not available"])%list) ∧
    (forallb (has_column data_final) ["wijk_id"; "gemeente_id"] = true →
     match outcome (fit_four_level_models data_final) with
     | inl e =>
         four_level_models st' = None ∧ four_level_icc st' = None ∧
         last (printed (phase_5b data_final st)) = Some (failed_line e)
     | inr fitted =>
         four_level_models st' = Some fitted ∧
         match outcome (calculate_four_level_icc fitted) with
         | inl e =>
             four_level_icc st' = None ∧
             last (printed (phase_5b data_final st)) = Some (failed_line e)
         | inr results => four_level_icc st' = Some results
         end
     end).
Proof.
  unfold phase_5b, try_block.
  destruct (forallb (has_column data_final) ["wijk_id"; "gemeente_id"]).
  - destruct (fit_four_level_models data_final) as [l [e|fitted]]; io_simpl.
    + eexists. split; [reflexivity|]. cbn [models icc_results four_level_models
                                            four_level_icc].
      split; [done|]. split; [done|]. split; [by intros [=]|]. intros _.
      split; [done|]. split; [done|].
      by rewrite !last_cons, last_snoc.
    + destruct (calculate_four_level_icc fitted) as [l' [e|results]]; io_simpl.
      * eexists. split; [reflexivity|]. cbn [models icc_results four_level_models
                                              four_level_icc].
        split; [done|]. split; [done|]. split; [by intros [=]|]. intros _.
        split; [done|]. split; [done|].
        by rewrite !last_cons, last_snoc.
      * eexists. split; [reflexivity|]. cbn [models icc_results four_level_models
                                              four_level_icc].
        split; [done|]. split; [done|]. split; [by intros [=]|]. by intros _.
  - io_simpl. eexists. split; [reflexivity|]. cbn [models icc_results
                                                    four_level_models four_level_icc].
    split; [done|]. split; [done|]. split; [|by intros [=]]. by intros _.
Qed.

End FourLevel.

(** *** [fit_two_level_models] *)

Section TwoLevel.
Context {numlib : NumLib} {runtime : Runtime} {statsmodels : StatsModels}.

(** [df[c].notna().sum()] *)
Definition notna_count (df : DataFrame) (c : string) : nat :=
  length (List.filter notna (series df c)).

Definition two_level_m1_formula : string := "DV_single ~ b_perc_low40_hh".

Definition two_level_m2_formula (df : DataFrame) : string :=
  let m2_formula :=
    "DV_single ~ b_perc_low40_hh + age + C(sex) + education + " +:+
    "C(employment_status) + born_in_nl" in
  if has_column df "occupation" && (100 <? notna_count df "occupation")%nat
  then m2_formula +:+ " + C(occupation)" else m2_formula.

Definition two_level_buurt_controls (df : DataFrame) : list string :=
  List.filter (λ var, has_column df var && (100 <? notna_count df var)%nat)
    ["b_pop_dens"; "b_pop_over_65"; "b_pop_nonwest"; "b_perc_low_inc_hh";
     "b_perc_soc_min_hh"].

Definition two_level_m3_formula (df : DataFrame) : string :=
  add_terms (two_level_m2_formula df) (two_level_buurt_controls df).

Definition two_level_line (k : nat) : string :=
  match k with
  | 0%nat => "  Fitting m0 (empty model)..."
  | 1%nat => "  Fitting m1 (+ key predictor)..."
  | 2%nat => "  Fitting m2 (+ individual controls)..."
  | _ => "  Fitting m3 (+ buurt controls)..."
  end.

(** The table with [buurt_id] made a string column. *)
Definition grouping_frame (data : DataFrame) : DataFrame :=
  assign data "buurt_id" object (λ r, Str (astype_str (cell r "buurt_id"))).

(** [fit_two_level_models].  (The [warnings.filterwarnings] call is
    left out, as in [fit_four_level_models].) *)
Definition fit_two_level_models (data : DataFrame) : io TwoLevelModels :=
  print (newline +:+ "Fitting two-level multilevel models...");;
  df ← (if has_column data "buurt_id" then mret (grouping_frame data)
        else raise (KeyError "buurt_id"));
  print (two_level_line 0);;
  m0 ← lift (mixedlm_fit m0_formula df "buurt_id");
  let n_groups := Merge.nunique (series df "buurt_id") in
  print ("    N=" +:+ pretty (int_of_float (nobs m0)) +:+ ", groups=" +:+
         pretty n_groups);;
  print (two_level_line 1);;
  m1 ← lift (mixedlm_fit two_level_m1_formula df "buurt_id");
  print (two_level_line 2);;
  m2 ← lift (mixedlm_fit (two_level_m2_formula df) df "buurt_id");
  print (two_level_line 3);;
  m3 ← lift (mixedlm_fit (two_level_m3_formula df) df "buurt_id");
  print "  All models fitted successfully";;
  (match assoc "b_perc_low40_hh" (params m3) with
   | Some coef =>
       match assoc "b_perc_low40_hh" (bse m3) with
       | Some se =>
           print ("  Key predictor (m3): b_perc_low40_hh = " +:+
                  format_fixed 3 coef +:+ " (SE=" +:+ format_fixed 3 se +:+ ")")
       | None => raise (KeyError "b_perc_low40_hh")
       end
   | None => mret tt
   end);;
  mret {| m0_empty := m0; m1_key_pred := m1; m2_ind_controls := m2;
          m3_buurt_controls := m3 |}.

Definition two_level_formulas (df : DataFrame) : list string :=
  [m0_formula; two_level_m1_formula; two_level_m2_formula df;
   two_level_m3_formula df].

(** The lines printed up to the fit of model [length fitted]. *)
Definition two_level_attempt (df : DataFrame) (fitted : list MixedLMResults) :
    list string :=
  match fitted with
  | [] => [two_level_line 0]
  | m0 :: _ =>
      two_level_line 0 ::
      ("    N=" +:+ pretty (int_of_float (nobs m0)) +:+ ", groups=" +:+
       pretty (Merge.nunique (series df "buurt_id"))) ::
      map two_level_line (seq 1 (length fitted))
  end.

(** [fit_two_level_models] raises [KeyError] on a table without a
    [buurt_id] column, before any fit.  Its four models are fitted in
    order, each formula being the one before with terms added; the
    formula of m2 names the five individual controls whether or not
    they are columns of the table.  When the first fits return
    [fitted] and the next one raises [e], the function raises [e]
    there, having printed the progress line of that model last, and
    fits nothing more; when all four return and the standard errors of
    m3 have the key predictor if its coefficients have it, the four
    models are returned. *)
Theorem fit_two_level_models_sequence (data : DataFrame) :
  let df := grouping_frame data in
  (has_column data "buurt_id" = false →
   fit_two_level_models data =
   IO [newline +:+ "Fitting two-level multilevel models..."]
      (inl (KeyError "buurt_id"))) ∧
  (extends two_level_m1_formula (two_level_m2_formula df) ∧
   extends (two_level_m2_formula df) (two_level_m3_formula df) ∧
   extends ("DV_single ~ b_perc_low40_hh + age + C(sex) + education + " +:+
            "C(employment_status) + born_in_nl") (two_level_m2_formula df)) ∧
  (∀ fitted e,
     has_column data "buurt_id" = true →
     (length fitted < 4)%nat →
     (∀ j m f, fitted !! j = Some m → two_level_formulas df !! j = Some f →
               mixedlm_fit f df "buurt_id" = inr m) →
     (∀ f, two_level_formulas df !! length fitted = Some f →
           mixedlm_fit f df "buurt_id" = inl e) →
     fit_two_level_models data =
     IO ((newline +:+ "Fitting two-level multilevel models...") ::
         two_level_attempt df fitted) (inl e) ∧
     last (two_level_attempt df fitted) = Some (two_level_line (length fitted))) ∧
  (∀ m0 m1 m2 m3,
     has_column data "buurt_id" = true →
     mixedlm_fit m0_formula df "buurt_id" = inr m0 →
     mixedlm_fit two_level_m1_formula df "buurt_id" = inr m1 →
     mixedlm_fit (two_level_m2_formula df) df "buurt_id" = inr m2 →
     mixedlm_fit (two_level_m3_formula df) df "buurt_id" = inr m3 →
     (is_Some (assoc "b_perc_low40_hh" (params m3)) →
      is_Some (assoc "b_perc_low40_hh" (bse m3))) →
     outcome (fit_two_level_models data) =
     inr {| m0_empty := m0; m1_key_pred := m1; m2_ind_controls := m2;
            m3_buurt_controls := m3 |}).
Proof.
  intros df. split; [|split; [|split]].
  - intros Hno. unfold fit_two_level_models. rewrite Hno. by io_simpl.
  - assert (Hbase : extends
              ("DV_single ~ b_perc_low40_hh + age + C(sex) + education + " +:+
               "C(employment_status) + born_in_nl") (two_level_m2_formula df)).
    { unfold two_level_m2_formula. cbn zeta.
      destruct (_ && _); [apply extends_app|apply extends_refl]. }
    split; [|split; [apply add_terms_extends|done]].
    eapply extends_trans; [|exact Hbase].
    unfold two_level_m1_formula. eexists. reflexivity.
  - intros fitted e Hcol Hk Hfits Hfail. split.
    + unfold fit_two_level_models. rewrite Hcol. io_simpl. fold df.
      destruct fitted as [|m0 [|m1 [|m2 [|m3 rest]]]]; [| | | |simpl in Hk; lia].
      * rewrite (Hfail _ eq_refl). by io_simpl.
      * rewrite (Hfits 0%nat m0 _ eq_refl eq_refl). io_simpl.
        rewrite (Hfail _ eq_refl). by io_simpl.
      * rewrite (Hfits 0%nat m0 _ eq_refl eq_refl). io_simpl.
        rewrite (Hfits 1%nat m1 _ eq_refl eq_refl). io_simpl.
        rewrite (Hfail _ eq_refl). by io_simpl.
      * rewrite (Hfits 0%nat m0 _ eq_refl eq_refl). io_simpl.
        rewrite (Hfits 1%nat m1 _ eq_refl eq_refl). io_simpl.
        rewrite (Hfits 2%nat m2 _ eq_refl eq_refl). io_simpl.
        rewrite (Hfail _ eq_refl). by io_simpl.
    + destruct fitted as [|m0 [|m1 [|m2 [|m3 rest]]]]; simpl; try done.
      simpl in Hk. lia.
  - intros m0 m1 m2 m3 Hcol H0 H1 H2 H3 Hbse.
    unfold fit_two_level_models. rewrite Hcol. io_simpl. fold df.
    rewrite H0. io_simpl. rewrite H1. io_simpl. rewrite H2. io_simpl.
    rewrite H3. io_simpl.
    destruct (assoc "b_perc_low40_hh" (params m3)) as [coef|]; [|by io_simpl].
    destruct Hbse as [se ->]; [by eexists|]. by io_simpl.
Qed.

End TwoLevel.

(** *** [_extract_key_coef] and [run_sensitivity] *)

(** One row of the sensitivity table.  A coefficient that the model
    does not have is [nan] in Python and [None] here. *)
Record SensitivityRow := {
  specification : string;
  N : Z;
  coefficient : option Q;
  SE : option Q;
  significant : bool
}.

(** [abs(coef / se) > threshold] *)
Definition z_above (threshold coef se : Q) : bool :=
  negb (Qle_bool (Qabs (coef / se)) threshold).

Definition _extract_key_coef (model : MixedLMResults) (spec_name var : string) :
    SensitivityRow :=
  let coef := assoc var (params model) in
  let se := assoc var (bse model) in
  let significant :=
    match coef, se with
    | Some c, Some s => if negb (Qle_bool s 0) then z_above 1.96 c s else false
    | _, _ => false
    end in
  {| specification := spec_name; N := int_of_float (nobs model);
     coefficient := coef; SE := se; significant := significant |}.



(** The text that [results_df.to_string(index=False)] makes of the
    rows is decided by pandas. *)
Class FrameText := {
  to_string : list SensitivityRow → string
}.

Section Sensitivity.
Context {numlib : NumLib} {runtime : Runtime} {statsmodels : StatsModels}
        {frametext : FrameText}.

Definition sens_ind_controls : list string :=
  ["age"; "sex"; "education"; "employment_status"; "born_in_nl"].

Definition sens_buurt_controls (data : DataFrame) : list string :=
  List.filter (has_column data)
    ["b_pop_dens"; "b_pop_over_65"; "b_pop_nonwest"; "b_perc_low_inc_hh";
     "b_perc_soc_min_hh"].

(** The local function [prepare_data]. *)
Definition prepare_data (df : DataFrame) (required_vars : list string) :
    exn + DataFrame :=
  match select_strict required_vars df with
  | inl e => inl e
  | inr clean =>
      let clean := Merge.dropna (column_names clean) clean in
      if has_column clean "buurt_id"
      then inr (assign clean "buurt_id" object
                  (λ r, Str (astype_str (cell r "buurt_id"))))
      else inl (KeyError "buurt_id")
  end.

Definition ind_formula : string :=
  "age + C(sex) + education + C(employment_status) + born_in_nl".

Definition buurt_formula (data : DataFrame) : string :=
  join " + " (sens_buurt_controls data).

(** [" + " + buurt_formula if buurt_formula else ""] *)
Definition plus_buurt (data : DataFrame) : string :=
  match buurt_formula data with
  | EmptyString => ""
  | f => " + " +:+ f
  end.

Definition base_controls (data : DataFrame) : string :=
  ind_formula +:+ plus_buurt data.

(** The first three specifications differ in the outcome only. *)
Definition specification_rows (data : DataFrame) (dv name : string) :
    io (list SensitivityRow) :=
  df ← lift (prepare_data data
               ([dv; "b_perc_low40_hh"; "buurt_id"] ++
                sens_ind_controls ++ sens_buurt_controls data)%list);
  m ← lift (mixedlm_fit (dv +:+ " ~ b_perc_low40_hh + " +:+ base_controls data)
              df "buurt_id");
  mret [_extract_key_coef m name "b_perc_low40_hh"].

(** The fifth specification: the income ratio as predictor. *)
Definition ratio_rows (data : DataFrame) : io (list SensitivityRow) :=
  df ← lift (prepare_data data
               (["DV_single"; "b_income_ratio"; "buurt_id"] ++
                sens_ind_controls ++ sens_buurt_controls data)%list);
  m ← lift (mixedlm_fit ("DV_single ~ b_income_ratio + " +:+ base_controls data)
              df "buurt_id");
  mret [_extract_key_coef m "Income ratio (high/low)" "b_income_ratio"].

(** [Series.max()]: missing cells are skipped; comparing a string
    with a number raises [TypeError]. *)
Definition series_max (l : list value) : exn + value :=
  match numbers l with
  | None =>
      inl (LibraryError "TypeError"
             "'>' not supported between instances of 'str' and 'float'")
  | Some [] => inr NaN
  | Some (x :: xs) => inr (Num (foldl (λ a b, if Qle_bool a b then b else a) x xs))
  end.

Definition num_eqb (target : Q) (v : value) : bool :=
  match v with Num x => Qeq_bool x target | _ => false end.

(** The fourth specification: the respondents born in the
    Netherlands. *)
Definition dutch_rows (data : DataFrame) : io (list SensitivityRow) :=
  max_val ← lift (series_max (series data "born_in_nl"));
  let target :=
    match max_val with
    | Num m => if negb (Qle_bool m 1) then m else 1%Q
    | _ => 1%Q
    end in
  let df_dutch_raw := select_rows (λ r, num_eqb target (cell r "born_in_nl")) data in
  let dutch_controls :=
    "age + C(sex) + education + C(employment_status)" +:+ plus_buurt data in
  let vars_dutch :=
    (["DV_single"; "b_perc_low40_hh"; "buurt_id"; "age"; "sex"; "education";
      "employment_status"] ++ sens_buurt_controls data)%list in
  df_dutch ← lift (prepare_data df_dutch_raw vars_dutch);
  if (100 <? nrows df_dutch)%nat then
    m ← lift (mixedlm_fit ("DV_single ~ b_perc_low40_hh + " +:+ dutch_controls)
                df_dutch "buurt_id");
    mret [_extract_key_coef m "Dutch-born only" "b_perc_low40_hh"]
  else mret [].

(** The sixth specification: the model with the interaction, and a
    second row for the interaction term when the model has it. *)
Definition wealth_rows (data : DataFrame) : io (list SensitivityRow) :=
  df ← lift (prepare_data data
               (["DV_single"; "b_perc_low40_hh"; "wealth_index"; "buurt_id"] ++
                sens_ind_controls ++ sens_buurt_controls data)%list);
  m ← lift (mixedlm_fit ("DV_single ~ b_perc_low40_hh * wealth_index + " +:+
                         base_controls data) df "buurt_id");
  let main := _extract_key_coef m "With wealth interaction" "b_perc_low40_hh" in
  let interaction_coef := assoc "b_perc_low40_hh:wealth_index" (params m) in
  let interaction_se := assoc "b_perc_low40_hh:wealth_index" (bse m) in
  match interaction_coef with
  | Some c =>
      let z_high :=
        match interaction_se with
        | Some s => if negb (Qle_bool s 0) then z_above 1.96 c s else false
        | None => false
        end in
      mret [main;
            {| specification := "  -> Interaction term";
               N := int_of_float (nobs m); coefficient := Some c;
               SE := interaction_se; significant := z_high |}]
  | None => mret [main]
  end.

Definition error_line (e : exn) : string := "    Error: " +:+ str_exn e.

(** [try: ... results.append(...) / except Exception as e: print]:
    the rows of the block when it returns, none when it raises. *)
Definition attempt (body : io (list SensitivityRow)) : io (list SensitivityRow) :=
  match body with
  | IO l (inl e) => IO (l ++ [error_line e])%list (inr [])
  | IO l (inr rows) => IO l (inr rows)
  end.

(** A block that is run only when [test] holds, after its line. *)
Definition when (test : bool) (line : string)
    (body : io (list SensitivityRow)) : io (list SensitivityRow) :=
  if test then print line;; attempt body else mret [].

Definition run_sensitivity (data : DataFrame) : io (list SensitivityRow) :=
  print (newline +:+ "Running sensitivity analyses...");;
  r1 ← when true "  1. Base model (DV_single)..."
         (specification_rows data "DV_single" "Base (DV_single)");
  r2 ← when (has_column data "DV_2item_scaled") "  2. Two-item composite..."
         (specification_rows data "DV_2item_scaled" "2-item composite");
  r3 ← when (has_column data "DV_3item_scaled") "  3. Three-item composite..."
         (specification_rows data "DV_3item_scaled" "3-item composite");
  r4 ← when (has_column data "born_in_nl") "  4. Dutch-born only..."
         (dutch_rows data);
  r5 ← when (has_column data "b_income_ratio")
         "  5. Income ratio model (robustness)..." (ratio_rows data);
  r6 ← when (has_column data "wealth_index" && has_column data "b_perc_low40_hh")
         "  6. Wealth interaction (H3 test)..." (wealth_rows data);
  let results := (r1 ++ r2 ++ r3 ++ r4 ++ r5 ++ r6)%list in
  print (newline +:+ "  Sensitivity Summary:");;
  print (to_string results);;
  mret results.

(** What a block adds to the table. *)
Definition rows_of (test : bool) (body : io (list SensitivityRow)) :
    list SensitivityRow :=
  if test then match outcome body with inr rows => rows | inl _ => [] end
  else [].

Lemma when_outcome (test : bool) (line : string)
    (body : io (list SensitivityRow)) :
  outcome (when test line body) = inr (rows_of test body).
Proof.
  unfold when, rows_of, attempt. destruct test; [|done].
  by destruct body as [l [e|rows]].
Qed.

Lemma specification_rows_one (data : DataFrame) (dv name : string)
    (rows : list SensitivityRow) :
  outcome (specification_rows data dv name) = inr rows →
  ∃ m, rows = [_extract_key_coef m name "b_perc_low40_hh"].
Proof.
  unfold specification_rows. rewrite bind_outcome. unfold lift at 1.
  cbn [outcome]. destruct (prepare_data _ _) as [e|df]; [done|].
  rewrite bind_outcome. unfold lift at 1. cbn [outcome].
  destruct (mixedlm_fit _ _ _) as [e|m]; [done|]. io_simpl. intros [= <-].
  by exists m.
Qed.

Lemma rows_of_length (test : bool) (body : io (list SensitivityRow)) (n : nat) :
  (∀ rows, outcome body = inr rows → (length rows <= n)%nat) →
  (length (rows_of test body) <= n)%nat.
Proof.
  intros Hn. unfold rows_of. destruct test; [|simpl; lia].
  destruct (outcome body) as [e|rows]; [simpl; lia|]. by apply Hn.
Qed.

(** The rows of the blocks that returned, in the order of the
    specifications. *)
Definition sensitivity_table (data : DataFrame) : list SensitivityRow :=
  (rows_of true (specification_rows data "DV_single" "Base (DV_single)") ++
   rows_of (has_column data "DV_2item_scaled")
     (specification_rows data "DV_2item_scaled" "2-item composite") ++
   rows_of (has_column data "DV_3item_scaled")
     (specification_rows data "DV_3item_scaled" "3-item composite") ++
   rows_of (has_column data "born_in_nl") (dutch_rows data) ++
   rows_of (has_column data "b_income_ratio") (ratio_rows data) ++
   rows_of (has_column data "wealth_index" && has_column data "b_perc_low40_hh")
     (wealth_rows data))%list.

(** [run_sensitivity] never raises: each specification stands in
    its own [try] block, and a block that raises (a column that is
    missing, a fit that fails) prints the error and adds nothing to
    the table, while the blocks after it run as they would have.  The
    table is the rows of the blocks that returned, in the order of
    the specifications; it has at most seven rows, one for each
    specification and a second one for the wealth interaction. *)
Theorem run_sensitivity_never_raises (data : DataFrame) :
  outcome (run_sensitivity data) = inr (sensitivity_table data) ∧
  (length (sensitivity_table data) <= 7)%nat.
Proof.
  assert (Hout : outcome (run_sensitivity data) = inr (sensitivity_table data)).
  { unfold run_sensitivity.
    rewrite bind_outcome. cbn [print outcome].
    do 6 (rewrite bind_outcome, when_outcome).
    rewrite bind_outcome. cbn [print outcome].
    rewrite bind_outcome. cbn [print outcome]. done. }
  split; [exact Hout|]. unfold sensitivity_table.
  rewrite !List.length_app.
  pose proof (rows_of_length true
    (specification_rows data "DV_single" "Base (DV_single)") 1) as H1.
  pose proof (rows_of_length (has_column data "DV_2item_scaled")
    (specification_rows data "DV_2item_scaled" "2-item composite") 1) as H2.
  pose proof (rows_of_length (has_column data "DV_3item_scaled")
    (specification_rows data "DV_3item_scaled" "3-item composite") 1) as H3.
  pose proof (rows_of_length (has_column data "born_in_nl") (dutch_rows data) 1)
    as H4.
  pose proof (rows_of_length (has_column data "b_income_ratio")
    (ratio_rows data) 1) as H5.
  pose proof (rows_of_length (has_column data "wealth_index" &&
                              has_column data "b_perc_low40_hh")
    (wealth_rows data) 2) as H6.
  assert (Hspec : ∀ dv name rows,
            outcome (specification_rows data dv name) = inr rows →
            (length rows <= 1)%nat).
  { intros dv name rows Hr.
    by destruct (specification_rows_one _ _ _ _ Hr) as [m ->]. }
  specialize (H1 (Hspec _ _)). specialize (H2 (Hspec _ _)).
  specialize (H3 (Hspec _ _)).
  assert (L4 : (length (rows_of (has_column data "born_in_nl") (dutch_rows data))
                <= 1)%nat).
  { apply H4. intros rows. unfold dutch_rows. rewrite bind_outcome.
    unfold lift at 1. cbn [outcome].
    destruct (series_max _) as [e|max_val]; [done|].
    rewrite bind_outcome. unfold lift at 1. cbn [outcome].
    destruct (prepare_data _ _) as [e|df]; [done|].
    destruct (100 <? nrows df)%nat; [|io_simpl; intros [= <-]; simpl; lia].
    rewrite bind_outcome. unfold lift at 1. cbn [outcome].
    destruct (mixedlm_fit _ _ _) as [e|m]; [done|]. io_simpl.
    intros [= <-]. simpl. lia. }
  assert (L5 : (length (rows_of (has_column data "b_income_ratio")
                          (ratio_rows data)) <= 1)%nat).
  { apply H5. intros rows. unfold ratio_rows. rewrite bind_outcome.
    unfold lift at 1. cbn [outcome].
    destruct (prepare_data _ _) as [e|df]; [done|].
    rewrite bind_outcome. unfold lift at 1. cbn [outcome].
    destruct (mixedlm_fit _ _ _) as [e|m]; [done|]. io_simpl.
    intros [= <-]. simpl. lia. }
  assert (L6 : (length (rows_of (has_column data "wealth_index" &&
                                 has_column data "b_perc_low40_hh")
                          (wealth_rows data)) <= 2)%nat).
  { apply H6. intros rows. unfold wealth_rows. rewrite bind_outcome.
    unfold lift at 1. cbn [outcome].
    destruct (prepare_data _ _) as [e|df]; [done|].
    rewrite bind_outcome. unfold lift at 1. cbn [outcome].
    destruct (mixedlm_fit _ _ _) as [e|m]; [done|]. cbn zeta.
    destruct (assoc "b_perc_low40_hh:wealth_index" (params m));
      io_simpl; intros [= <-]; simpl; lia. }
  lia.
Qed.

End Sensitivity.

(** *** Examples *)

Definition example_four_models : FourLevelModels :=
  {| four_m0_empty := example_fit; four_m1_key_pred := example_fit;
     four_m2_ind_controls := example_fit; four_m3_buurt_controls := example_fit;
     four_m4_wijk_controls := example_fit |}.


Lemma four_level_formulas_grow_witness :
  model_frame (string_ids (numlib := reference_numlib) four_level_example)
    = inr four_level_frame ∧
  extends (m3_formula (string_ids (numlib := reference_numlib) four_level_example)
             four_level_frame)
          (m4_formula (string_ids (numlib := reference_numlib) four_level_example)
             four_level_frame).
Proof.
  assert (Hframe : model_frame (string_ids (numlib := reference_numlib)
                                  four_level_example) = inr four_level_frame)
    by (vm_compute; reflexivity).
  split; [exact Hframe|].
  exact (proj1 (proj2 (proj2 (proj2 (four_level_formulas_grow _ _ Hframe))))).
Defined.

Example four_level_formulas_example :
  formulas (string_ids (numlib := reference_numlib) four_level_example)
    four_level_frame =
  ["DV_single ~ 1"; "DV_single ~ b_perc_low40_hh";
   "DV_single ~ b_perc_low40_hh + age"; "DV_single ~ b_perc_low40_hh + age";
   "DV_single ~ b_perc_low40_hh + age"].
Proof. vm_compute. reflexivity. Qed.

Lemma fit_four_level_models_needs_witness :
  forallb (has_column four_level_example) required_cols = true ∧
  outcome (fit_four_level_models (numlib := reference_numlib)
             (runtime := reference_runtime) (statsmodels := always_fits)
             four_level_example) = inr example_four_models.
Proof.
  split; [reflexivity|].
  refine (proj2 (proj2 (fit_four_level_models_needs (numlib := reference_numlib)
                          (runtime := reference_runtime)
                          (statsmodels := always_fits) four_level_example))
            four_level_frame example_fit example_fit example_fit example_fit
            example_fit eq_refl _ eq_refl eq_refl eq_refl eq_refl eq_refl _).
  - vm_compute. reflexivity.
  - intros var Hvar _.
    assert (Hk : key_preds (string_ids (numlib := reference_numlib)
                              four_level_example) = ["b_perc_low40_hh"])
      by (vm_compute; reflexivity).
    rewrite Hk in Hvar. apply list_elem_of_singleton in Hvar as ->.
    vm_compute. by eexists.
Defined.

Example fit_four_level_models_no_ids :
  fit_four_level_models (numlib := reference_numlib)
    (runtime := reference_runtime) (statsmodels := always_fits)
    (mkDF [("DV_single", float64); ("buurt_id", object)] []) =
  IO [newline +:+ "Fitting four-level multilevel models...";
      "  Note: Using buurt as primary grouping with wijk/gemeente predictors"]
     (inl (ValueError
             "Missing required columns for four-level models: ['wijk_id', 'gemeente_id']")).
Proof. vm_compute. reflexivity. Qed.

Lemma phase_5b_never_raises_witness :
  forallb (has_column four_level_example) ["wijk_id"; "gemeente_id"] = true ∧
  ∃ st',
    outcome (phase_5b (numlib := reference_numlib) (runtime := reference_runtime)
               (statsmodels := singular_at_m2) four_level_example example_locals)
      = inr st' ∧
    models st' = models example_locals ∧ four_level_models st' = None.
Proof.
  split; [reflexivity|].
  destruct (phase_5b_never_raises (numlib := reference_numlib)
              (runtime := reference_runtime) (statsmodels := singular_at_m2)
              four_level_example example_locals)
    as (st' & Hout & Hmodels & _ & _ & Hboth).
  exists st'. split; [exact Hout|]. split; [exact Hmodels|].
  specialize (Hboth eq_refl).
  assert (Hfit : outcome (fit_four_level_models (numlib := reference_numlib)
                            (runtime := reference_runtime)
                            (statsmodels := singular_at_m2) four_level_example)
                 = inl singular) by (vm_compute; reflexivity).
  rewrite Hfit in Hboth. exact (proj1 Hboth).
Defined.

Lemma fit_two_level_models_sequence_witness :
  has_column four_level_example "buurt_id" = true ∧
  outcome (fit_two_level_models (numlib := reference_numlib)
             (runtime := reference_runtime) (statsmodels := always_fits)
             four_level_example) = inr example_models.
Proof.
  split; [reflexivity|].
  refine (proj2 (proj2 (proj2 (fit_two_level_models_sequence
                                 (numlib := reference_numlib)
                                 (runtime := reference_runtime)
                                 (statsmodels := always_fits)
                                 four_level_example)))
            example_fit example_fit example_fit example_fit
            eq_refl eq_refl eq_refl eq_refl eq_refl _).
  intros _. vm_compute. by eexists.
Defined.

(** The two-level sequence when the fit of m2 raises. *)
Example fit_two_level_models_example :
  fit_two_level_models (numlib := reference_numlib)
    (runtime := reference_runtime)
    (statsmodels :=
       {| mixedlm_fit formula data groups :=
            if String.eqb formula (two_level_m2_formula four_level_example)
            then inl singular else inr example_fit |})
    four_level_example =
  IO [newline +:+ "Fitting two-level multilevel models...";
      "  Fitting m0 (empty model)..."; "    N=2, groups=1";
      "  Fitting m1 (+ key predictor)...";
      "  Fitting m2 (+ individual controls)..."] (inl singular).
Proof. vm_compute. reflexivity. Qed.

Definition plain_text : FrameText :=
  {| to_string rows := join newline (map specification rows) |}.

(** On a table without the controls every block of
    [run_sensitivity] that runs raises [KeyError]: the function
    returns an empty table. *)
Example run_sensitivity_example :
  run_sensitivity (numlib := reference_numlib) (runtime := reference_runtime)
    (statsmodels := always_fits) (frametext := plain_text) four_level_example =
  IO [newline +:+ "Running sensitivity analyses...";
      "  1. Base model (DV_single)...";
      "    Error: '['sex', 'education', 'employment_status', 'born_in_nl'] not in index'";
      newline +:+ "  Sensitivity Summary:"; ""] (inr []).
Proof. vm_compute. reflexivity. Qed.

End AnalyzeMore.

(** ** report.py: the stars of a coefficient *)

Module Report.
Import PyStr Pandas Py Analyze AnalyzeMore.





End Report.

(** ** More of merge.py *)

Module MergeMore.
Import PyStr Pandas Py Merge.

Lemma filter_all {A : Type} (p : A → bool) (l : list A) :
  (∀ x, x ∈ l → p x = true) → List.filter p l = l.
Proof.
  induction l as [|x l IH]; intros Hp; [done|]. simpl.
  rewrite (Hp x) by left. f_equal. apply IH. intros y Hy. apply Hp. by right.
Qed.

Lemma filter_sublist {A : Type} (p : A → bool) (l : list A) :
  sublist (List.filter p l) l.
Proof.
  induction l as [|x l IH]; [constructor|]. simpl.
  destruct (p x); by constructor.
Qed.

Section SampleAgain.
Context `{Runtime}.

(** [create_analysis_sample] takes respondents away and does
    nothing else: the rows it returns are rows of its input, in the
    order of the input, and the columns are those of the input.  Run
    on a sample it has returned, it returns that same sample, if the
    sample has a row; on a sample without rows it raises
    [ZeroDivisionError], from the share it prints. *)
Theorem create_analysis_sample_again (data sample : DataFrame)
    (include_occupation : bool) :
  outcome (create_analysis_sample data include_occupation) = inr sample →
  sublist (rows sample) (rows data) ∧ columns sample = columns data ∧
  outcome (create_analysis_sample sample include_occupation) =
    if (nrows sample =? 0)%nat then inl ZeroDivisionError else inr sample.
Proof.
  rewrite create_analysis_sample_outcome.
  destruct (nrows data =? 0)%nat; [done|].
  destruct (has_column data "buurt_id") eqn:Hb; [|done]. intros [= <-].
  set (C := complete_cases data include_occupation).
  set (S := large_clusters C).
  split; [|split; [done|]].
  - transitivity (rows C); apply filter_sublist.
  - rewrite create_analysis_sample_outcome.
    destruct (nrows S =? 0)%nat; [done|].
    change (has_column S "buurt_id") with (has_column data "buurt_id").
    rewrite Hb. f_equal.
    assert (HC : complete_cases S include_occupation = S).
    { unfold complete_cases, dropna, select_rows.
      change (required_columns S include_occupation)
        with (required_columns data include_occupation).
      rewrite filter_all; [done|].
      intros r Hr. apply forallb_forall. intros c Hc%list_elem_of_In.
      unfold notna. apply negb_true_iff.
      apply (dropna_complete (required_columns data include_occupation) data r c);
        [|done].
      subst S. unfold large_clusters, select_rows in Hr. cbn [rows] in Hr.
      by apply elem_of_bool_filter in Hr as [Hr _]. }
    rewrite HC. unfold large_clusters at 1, select_rows.
    rewrite filter_all; [done|].
    intros r Hr. apply Nat.leb_le. by apply large_clusters_sizes.
Qed.

End SampleAgain.

(** *** What a join puts into a row *)

Lemma NoDup_fmap_inj {A B : Type} (f : A → B) (l : list A) (x y : A) :
  NoDup (f <$> l) → x ∈ l → y ∈ l → f x = f y → x = y.
Proof.
  induction l as [|a l IH]; intros Hnd Hx Hy Hf; [by apply elem_of_nil in Hx|].
  rewrite fmap_cons in Hnd. apply NoDup_cons in Hnd as [Ha Hnd].
  apply elem_of_cons in Hx as [->|Hx], Hy as [->|Hy]; [done| | |by apply IH].
  - exfalso. apply Ha. rewrite Hf. apply list_elem_of_fmap. by exists y.
  - exfalso. apply Ha. rewrite <- Hf. apply list_elem_of_fmap. by exists x.
Qed.

Lemma cell_union_l (m1 m2 : row) (k : string) :
  is_Some (m1 !! k) → cell (m1 ∪ m2) k = cell m1 k.
Proof.
  intros [v Hv]. unfold cell.
  by rewrite (lookup_union_Some_l m1 m2 k v Hv), Hv.
Qed.

Lemma cell_union_r (m1 m2 : row) (k : string) :
  m1 !! k = None → cell (m1 ∪ m2) k = cell m2 k.
Proof. intros Hn. unfold cell. by rewrite lookup_union_r. Qed.

Lemma rebuild_row_lookup (cs : list string) (ren : string → string) (r : row)
    (k : string) :
  is_Some (rebuild_row cs ren r !! k) ↔ k ∈ ren <$> cs.
Proof.
  unfold rebuild_row. induction cs as [|c cs IH].
  { simpl. rewrite lookup_empty. split; [by intros [? ?]|by intros ?%elem_of_nil]. }
  simpl. rewrite ?fmap_cons, elem_of_cons.
  destruct (decide (ren c = k)) as [->|Hne].
  - rewrite lookup_insert_eq. split; [by left|by eexists].
  - rewrite lookup_insert_ne by done. rewrite IH. split; [by right|].
    by intros [?|?].
Qed.

Lemma joined_names (key : string) (left right : DataFrame) :
  (joined_columns key left right).*1 =
  ((left_name key left right <$> column_names left) ++
   (right_name key left right <$> (right_columns key right).*1))%list.
Proof.
  unfold joined_columns, column_names. cbn zeta.
  rewrite fmap_app. f_equal.
  - rewrite <- !list_fmap_compose. by apply list_fmap_ext.
  - rewrite <- !list_fmap_compose. by apply list_fmap_ext.
Qed.

(** The cells of one row of a join, when it returned. *)
Lemma joined_row_cells (key : string) (left right merged : DataFrame)
    (l : row) (o : option row) :
  merge_left left right key = inr merged →
  (∀ c, c ∈ column_names left →
        cell (joined_row key left right l o) (left_name key left right c)
        = cell l c) ∧
  (∀ c, c ∈ (right_columns key right).*1 →
        cell (joined_row key left right l o) (right_name key left right c)
        = match o with Some r => cell r c | None => NaN end).
Proof.
  unfold merge_left.
  destruct (dtype_of left key); [|done]. destruct (dtype_of right key); [|done].
  destruct (keys_comparable _ _ _ _); [|done].
  destruct (bool_decide (NoDup _)) eqn:Hnd; [|done]. intros _.
  apply bool_decide_eq_true in Hnd. rewrite joined_names in Hnd.
  apply NoDup_app in Hnd as (HL & Hdisj & HR).
  unfold joined_row. split.
  - intros c Hc. rewrite cell_union_l.
    + apply cell_rebuild_row; [done|done|].
      intros c' Hc' Heq. by rewrite (NoDup_fmap_inj _ _ c' c HL Hc' Hc Heq).
    + apply rebuild_row_lookup. apply list_elem_of_fmap. by exists c.
  - intros c Hc. rewrite cell_union_r.
    + assert (Hcell : ∀ r, cell (rebuild_row (right_columns key right).*1
                                   (right_name key left right) r)
                             (right_name key left right c) = cell r c).
      { intros r. apply cell_rebuild_row; [done|done|].
        intros c' Hc' Heq. by rewrite (NoDup_fmap_inj _ _ c' c HR Hc' Hc Heq). }
      rewrite Hcell. by destruct o.
    + destruct (rebuild_row _ _ l !! _) eqn:Hl; [|done]. exfalso.
      apply (Hdisj (right_name key left right c)).
      * apply (proj1 (rebuild_row_lookup _ _ l _)). by eexists.
      * apply list_elem_of_fmap. by exists c.
Qed.

Lemma flat_map_singletons {A B : Type} (f : A → list B) (g : A → B)
    (l : list A) :
  (∀ x, x ∈ l → f x = [g x]) → flat_map f l = map g l.
Proof.
  induction l as [|x l IH]; intros Hf; [done|]. simpl.
  rewrite (Hf x) by left. simpl. f_equal. apply IH. intros y Hy. apply Hf.
  by right.
Qed.

Lemma merge_left_rows (left right merged : DataFrame) (key : string) :
  distinct_keys key (rows right) = true →
  merge_left left right key = inr merged →
  rows merged =
  map (λ l, joined_row key left right l (head (matches key right l)))
      (rows left).
Proof.
  intros Hd Hm. unfold merge_left in Hm.
  destruct (dtype_of left key); [|done]. destruct (dtype_of right key); [|done].
  destruct (keys_comparable _ _ _ _); [|done].
  destruct (bool_decide (NoDup _)); [|done]. injection Hm as <-. cbn [rows].
  apply flat_map_singletons. intros l _. unfold joined_rows.
  pose proof (distinct_keys_matches key (rows right) (cell l key) Hd) as Hlen.
  fold (matches key right l) in Hlen.
  destruct (matches key right l) as [|r [|r' ms]]; [done|done|].
  simpl in Hlen. lia.
Qed.

(** A left join on a table without an id twice keeps every left
    row, in place, with all its cells: the row at each position of the
    result has the cells of the left row at that position (under the
    names of the result, which are the left names unless a name is
    also one of the right table), and beside them the cells of the one
    right row with the same key, or missing cells when there is
    none. *)
Theorem merge_left_keeps_cells (left right merged : DataFrame) (key : string)
    (i : nat) (l : row) :
  distinct_keys key (rows right) = true →
  merge_left left right key = inr merged →
  rows left !! i = Some l →
  ∃ m, rows merged !! i = Some m ∧
    (∀ c, c ∈ column_names left →
          cell m (left_name key left right c) = cell l c) ∧
    cell m key = cell l key ∧
    match matches key right l with
    | [] => ∀ c, c ∈ (right_columns key right).*1 →
                 cell m (right_name key left right c) = NaN
    | r :: _ =>
        value_eqb (cell l key) (cell r key) = true ∧
        ∀ c, c ∈ (right_columns key right).*1 →
             cell m (right_name key left right c) = cell r c
    end.
Proof.
  intros Hd Hm Hl. rewrite (merge_left_rows _ _ _ _ Hd Hm).
  rewrite list_lookup_fmap, Hl. cbn [fmap option_fmap option_map].
  eexists. split; [reflexivity|].
  destruct (joined_row_cells key left right merged l
              (head (matches key right l)) Hm) as [HL HR].
  split; [exact HL|]. split.
  - assert (Hkey : key ∈ column_names left).
    { unfold merge_left in Hm. destruct (dtype_of left key) as [dk|] eqn:Hk;
        [|done].
      unfold dtype_of in Hk. clear -Hk. unfold column_names.
      induction (columns left) as [|[c d] cols IH]; [done|]. simpl in Hk.
      rewrite fmap_cons. destruct (String.eqb c key) eqn:E.
      - apply String.eqb_eq in E as ->. by left.
      - right. by apply IH. }
    rewrite <- (HL key Hkey). f_equal. unfold left_name, overlap.
    by rewrite String.eqb_refl.
  - destruct (matches key right l) as [|r ms] eqn:Hms; [exact HR|].
    split; [|exact HR].
    assert (Hin : r ∈ matches key right l) by (rewrite Hms; left).
    unfold matches in Hin. by apply elem_of_bool_filter in Hin as [_ ?].
Qed.


(** *** The survey through the three joins *)

Lemma has_column_dtype (df : DataFrame) (c : string) :
  has_column df c = true ↔ is_Some (dtype_of df c).
Proof.
  rewrite has_column_true. unfold dtype_of, column_names.
  induction (columns df) as [|[c' d] cols IH].
  { split; [by intros ?%elem_of_nil|by intros [? ?]]. }
  rewrite fmap_cons, elem_of_cons. simpl.
  destruct (String.eqb c' c) eqn:E.
  - apply String.eqb_eq in E as ->. split; [by eexists|by left].
  - apply String.eqb_neq in E. rewrite <- IH. split; [|by right].
    by intros [->|?].
Qed.

(** One block of [merge_survey_admin] keeps a column of the table
    it extends, name and cells, when the column is the key of the
    join or is no column of the level table. *)
Lemma merge_level_keeps (level key label : string)
    (admin : gmap string DataFrame) (merged merged' : DataFrame) (c : string) :
  outcome (merge_level level key label admin merged) = inr merged' →
  level_distinct level key admin = true →
  has_column merged c = true →
  (∀ t, admin !! level = Some t → c = key ∨ has_column t c = false) →
  has_column merged' c = true ∧
  ∀ i l, rows merged !! i = Some l →
    ∃ m, rows merged' !! i = Some m ∧ cell m c = cell l c.
Proof.
  unfold merge_level, level_distinct.
  destruct (admin !! level) as [t|] eqn:Ht;
    [|intros [= <-] _ Hc _; split; [done|]; intros i l Hl; by exists l].
  destruct (0 <? nrows t)%nat;
    [|intros [= <-] _ Hc _; split; [done|]; intros i l Hl; by exists l].
  rewrite bind_outcome. unfold lift. cbn [outcome].
  destruct (merge_left merged t key) as [e|m'] eqn:Hm; [done|].
  io_simpl. intros [= <-] Hd Hc Hkey.
  assert (Hname : left_name key merged t c = c).
  { unfold left_name, overlap. destruct (Hkey t eq_refl) as [->|Hno].
    - by rewrite String.eqb_refl.
    - by rewrite Hno, andb_false_r. }
  apply has_column_true in Hc. split.
  - apply has_column_true. unfold column_names.
    assert (Hcols : columns m' = joined_columns key merged t).
    { unfold merge_left in Hm. destruct (dtype_of merged key); [|done].
      destruct (dtype_of t key); [|done].
      destruct (keys_comparable _ _ _ _); [|done].
      destruct (bool_decide (NoDup _)); [|done]. by injection Hm as <-. }
    rewrite Hcols, joined_names. apply elem_of_app. left.
    apply list_elem_of_fmap. exists c. by rewrite Hname.
  - intros i l Hl.
    destruct (merge_left_keeps_cells merged t m' key i l Hd Hm Hl)
      as (m & Hmi & Hcells & _).
    exists m. split; [done|]. rewrite <- (Hcells c Hc). by rewrite Hname.
Qed.

Section Pipeline.
Context `{NumLib}.

(** The names of the indicator columns of the three level tables. *)
Definition indicator_names : list string :=
  prefix ← ["b_"; "w_"; "g_"]; (λ var, prefix +:+ var) <$> Transform.indicator_vars.

Lemma level_table_names (admin : DataFrame) (avail : list string)
    (level prefix : string) (w : nat) (c : string) :
  has_column (Transform.level_table admin avail level prefix w) c = true →
  c = lower level +:+ "_id" ∨ ∃ var, var ∈ avail ∧ c = prefix +:+ var.
Proof.
  unfold Transform.level_table. destruct (Nat.eqb _ 0).
  { intros Hc. apply has_column_true in Hc. by apply elem_of_nil in Hc. }
  intros Hc. apply has_column_true in Hc.
  unfold column_names, drop_duplicates in Hc. cbn [columns] in Hc.
  unfold select_columns in Hc. cbn [columns] in Hc.
  apply list_elem_of_fmap in Hc as ([c' d] & -> & Hin).
  apply list_elem_of_omap in Hin as (c0 & Hc0 & Heq).
  destruct (lookup_dtype c0 _); [|done]. simpl in Heq.
  apply (inj Some) in Heq. injection Heq as <- _. simpl.
  apply elem_of_cons in Hc0 as [->|Hc0]; [by left|]. right.
  apply list_elem_of_fmap in Hc0 as ([v1 v2] & -> & Hin).
  apply list_elem_of_fmap in Hin as (var & [= -> ->] & Hvar).
  apply elem_of_bool_filter in Hvar as [Hvar _]. by exists var.
Qed.

(** Phases 2 and 3 of the pipeline together.  Let [create_geo_ids]
    and [prepare_admin_by_level] return, and let the merge of their
    results return.  Then the merged table has exactly the rows of the
    raw survey and the merge prints no warning; and every column of
    the survey with its identifiers, unless it bears the name of an
    indicator column of a level table, is a column of the merged table
    and has in each row the cell it had. *)
Theorem pipeline_merge_keeps_survey (survey admin_raw s1 merged : DataFrame)
    (tables : gmap string DataFrame) :
  Transform.create_geo_ids survey = Some s1 →
  Transform.prepare_admin_by_level admin_raw = Some tables →
  outcome (merge_survey_admin s1 tables) = inr merged →
  nrows merged = nrows survey ∧
  printed (merge_survey_admin s1 tables) =
    ("Merging survey with administrative data..." ::
     printed (three_joins s1 tables) ++ [final_line merged])%list ∧
  ∀ c, has_column s1 c = true → c ∉ indicator_names →
    has_column merged c = true ∧
    ∀ i r, rows s1 !! i = Some r →
      ∃ m, rows merged !! i = Some m ∧ cell m c = cell r c.
Proof.
  intros Hgeo Hprep Hmerge.
  pose proof (prepared_levels_distinct _ _ Hprep) as Hd.
  destruct (merge_survey_admin_joins s1 tables) as [Hout Hlog].
  rewrite Hout in Hmerge. rewrite Hmerge in Hlog.
  destruct (three_joins_inr _ _ _ Hmerge) as [_ Hrows]. specialize (Hrows Hd).
  assert (Hn : nrows s1 = nrows survey).
  { unfold Transform.create_geo_ids in Hgeo.
    destruct (has_column survey "Buurtcode"); [|done].
    apply (inj Some) in Hgeo as <-. unfold nrows. cbn [rows assign loc_set].
    by rewrite !length_map. }
  split; [by rewrite Hrows|]. split.
  { rewrite Hlog. rewrite bool_decide_eq_false_2 by (intros ?; done). done. }
  intros c Hc Hnot.
  assert (Hkeys : ∀ level key code prefix w t,
            (level, key, code, prefix, w) ∈ Transform.level_codes →
            tables !! key = Some t →
            c = key +:+ "_id" ∨ has_column t c = false).
  { intros level key code prefix w t Hin Ht.
    unfold Transform.prepare_admin_by_level in Hprep.
    destruct (Transform.find_region_col admin_raw) as [rc|]; [|done].
    cbn [mbind option_bind] in Hprep. apply (inj Some) in Hprep as <-.
    rewrite (Transform.tables_lookup _ level key code prefix w Hin) in Ht.
    apply (inj Some) in Ht as <-.
    destruct (has_column (Transform.level_table _ _ _ _ _) c) eqn:Hcol;
      [|by right]. left.
    destruct (Transform.level_codes_inv _ _ _ _ _ Hin) as [-> Hlev].
    apply level_table_names in Hcol as [->|(var & Hvar & ->)]; [done|].
    exfalso. apply Hnot. unfold indicator_names.
    apply list_elem_of_bind. exists prefix. split.
    - apply list_elem_of_fmap. exists var. split; [done|].
      by apply elem_of_bool_filter in Hvar as [Hvar _].
    - unfold Transform.level_codes in Hin.
      repeat (apply elem_of_cons in Hin as [[= _ _ _ -> _]|Hin];
              [repeat constructor|]).
      by apply elem_of_nil in Hin. }
  unfold levels_distinct in Hd.
  apply andb_true_iff in Hd as [[D1 D2]%andb_true_iff D3].
  unfold three_joins in Hmerge. rewrite bind_outcome in Hmerge.
  destruct (outcome (merge_level "buurt" _ _ _ _)) as [e|m1] eqn:H1; [done|].
  rewrite bind_outcome in Hmerge.
  destruct (outcome (merge_level "wijk" _ _ _ _)) as [e|m2] eqn:H2; [done|].
  destruct (merge_level_keeps _ _ _ _ _ _ c H1 D1 Hc) as [Hc1 K1].
  { intros t Ht. apply (Hkeys "Buurt" "buurt" "BU" "b_" 8%nat t); [|done].
    unfold Transform.level_codes. repeat constructor. }
  destruct (merge_level_keeps _ _ _ _ _ _ c H2 D2 Hc1) as [Hc2 K2].
  { intros t Ht. apply (Hkeys "Wijk" "wijk" "WK" "w_" 6%nat t); [|done].
    unfold Transform.level_codes. repeat constructor. }
  destruct (merge_level_keeps _ _ _ _ _ _ c Hmerge D3 Hc2) as [Hc3 K3].
  { intros t Ht. apply (Hkeys "Gemeente" "gemeente" "GM" "g_" 4%nat t); [|done].
    unfold Transform.level_codes. repeat constructor. }
  split; [done|]. intros i r Hr.
  destruct (K1 i r Hr) as (r1 & Hr1 & E1).
  destruct (K2 i r1 Hr1) as (r2 & Hr2 & E2).
  destruct (K3 i r2 Hr2) as (r3 & Hr3 & E3).
  exists r3. split; [done|]. congruence.
Qed.

End Pipeline.

(** *** [validate_merge] *)

Record MergeValidation := {
  level : string;
  n_matched : nat;
  n_missing : nat;
  pct_matched : value
}.

Definition level_checks : list (string * string) :=
  [("Buurt", "b_pop_total"); ("Wijk", "w_pop_total"); ("Gemeente", "g_pop_total")].

(** [n / total * 100] of a numpy integer and a Python integer:
    [0 / 0] is [nan], with a warning and without an exception. *)
Definition share_of (n total : nat) : value :=
  if (total =? 0)%nat then NaN else Num (nat_Q n / nat_Q total * 100)%Q.

Section Validation.
Context `{Runtime}.

(** [f"{x:.1f}"] of a float that can be [nan]. *)
Definition format_share (v : value) : string :=
  match v with
  | Num q => format_fixed 1 q
  | _ => "nan"
  end.

(** The result of one level whose indicator is a column. *)
Definition level_result (data : DataFrame) (lc : string * string) :
    MergeValidation :=
  let total_n := nrows data in
  let n_matched := length (List.filter notna (series data lc.2)) in
  {| level := lc.1; n_matched := n_matched; n_missing := total_n - n_matched;
     pct_matched := share_of n_matched total_n |}.

(** One turn of the loop over the levels. *)
Definition check_level (data : DataFrame) (lc : string * string) :
    io (list MergeValidation) :=
  if has_column data lc.2 then
    let result := level_result data lc in
    let status := if ge_num 80 (pct_matched result) then "OK" else "LOW" in
    print ("  " +:+ lc.1 +:+ ": " +:+ pretty (n_matched result) +:+ "/" +:+
           pretty (nrows data) +:+ " matched (" +:+
           format_share (pct_matched result) +:+ "%) [" +:+ status +:+ "]");;
    mret [result]
  else
    print ("  " +:+ lc.1 +:+ ": indicator column '" +:+ lc.2 +:+ "' not found");;
    mret [].

Fixpoint check_levels (data : DataFrame) (lcs : list (string * string)) :
    io (list MergeValidation) :=
  match lcs with
  | [] => mret []
  | lc :: rest =>
      r ← check_level data lc;
      rs ← check_levels data rest;
      mret (r ++ rs)%list
  end.

(** [validate_merge] *)
Definition validate_merge (data : DataFrame) : io (list MergeValidation) :=
  print (newline +:+ "Validating merge quality...");;
  check_levels data level_checks.

Lemma check_levels_outcome (data : DataFrame) (lcs : list (string * string)) :
  outcome (check_levels data lcs) =
  inr (level_result data <$> List.filter (λ lc, has_column data lc.2) lcs).
Proof.
  induction lcs as [|lc lcs IH]; [done|]. cbn [check_levels List.filter].
  rewrite bind_outcome. unfold check_level at 1.
  destruct (has_column data lc.2); io_simpl;
    rewrite bind_outcome, IH; io_simpl; done.
Qed.

Lemma length_filter_le {A : Type} (p : A → bool) (l : list A) :
  (length (List.filter p l) <= length l)%nat.
Proof. induction l as [|x l IH]; simpl; [lia|]. destruct (p x); simpl; lia. Qed.

(** [validate_merge] never raises, also on a table without rows.
    It gives one result for each level whose indicator column
    ([b_pop_total], [w_pop_total], [g_pop_total]) is a column of the
    table, in the order buurt, wijk, gemeente.  In each result the
    matched and the missing rows add up to the rows of the table; the
    percentage is [nan] for a table without rows and otherwise lies
    between 0 and 100. *)
Theorem validate_merge_counts (data : DataFrame) :
  ∃ results,
    outcome (validate_merge data) = inr results ∧
    level <$> results =
      (List.filter (λ lc, has_column data lc.2) level_checks).*1 ∧
    ∀ v, v ∈ results →
      (n_matched v + n_missing v)%nat = nrows data ∧
      match pct_matched v with
      | Num q =>
          (0 < nrows data)%nat ∧ (0 <= q <= 100)%Q ∧
          (q == nat_Q (n_matched v) / nat_Q (nrows data) * 100)%Q
      | NaN => nrows data = 0%nat
      | Str _ => False
      end.
Proof.
  eexists. split.
  { unfold validate_merge. rewrite bind_outcome. cbn [print outcome].
    apply check_levels_outcome. }
  split.
  { rewrite <- list_fmap_compose. by apply list_fmap_ext. }
  intros v (lc & -> & _)%list_elem_of_fmap.
  unfold level_result. cbn [n_matched n_missing pct_matched].
  pose proof (length_filter_le notna (series data lc.2)) as Hle.
  rewrite length_series in Hle. split; [lia|].
  unfold share_of. destruct (nrows data =? 0)%nat eqn:Hn.
  { by apply Nat.eqb_eq in Hn. }
  apply Nat.eqb_neq in Hn. split; [lia|]. split; [|reflexivity].
  set (n := length (List.filter notna (series data lc.2))) in *.
  assert (Ht : (0 < nat_Q (nrows data))%Q).
  { unfold nat_Q. change 0%Q with (inject_Z 0). rewrite <- Zlt_Qlt. lia. }
  assert (Hn0 : (0 <= nat_Q n)%Q).
  { unfold nat_Q. change 0%Q with (inject_Z 0). rewrite <- Zle_Qle. lia. }
  assert (Hnt : (nat_Q n <= nat_Q (nrows data))%Q).
  { unfold nat_Q. rewrite <- Zle_Qle. lia. }
  assert (E : (nat_Q n / nat_Q (nrows data) * 100 ==
               (100 * nat_Q n) / nat_Q (nrows data))%Q) by (field; lra).
  rewrite E. split.
  - apply Qle_shift_div_l; [done|]. lra.
  - apply Qle_shift_div_r; [done|]. lra.
Qed.

End Validation.

(** *** Examples *)

Lemma create_analysis_sample_again_witness :
  outcome (create_analysis_sample (H := reference_runtime) sample_example true)
    = inr sample_example_result ∧
  outcome (create_analysis_sample (H := reference_runtime)
             sample_example_result true) = inr sample_example_result.
Proof.
  assert (Hout : outcome (create_analysis_sample (H := reference_runtime)
                            sample_example true) = inr sample_example_result)
    by (vm_compute; reflexivity).
  split; [exact Hout|].
  exact (proj2 (proj2 (create_analysis_sample_again (H := reference_runtime)
                         sample_example sample_example_result true Hout))).
Defined.

(** A sample that loses every row to the cluster filter cannot be
    given to the function again. *)
Example create_analysis_sample_empty_again :
  ∃ sample,
    outcome (create_analysis_sample (H := reference_runtime)
               (mkDF [("DV_single", float64); ("buurt_id", object)]
                  [ {["DV_single" := Num 50; "buurt_id" := Str "00010001"]} ])
               true) = inr sample ∧
    nrows sample = 0%nat ∧
    outcome (create_analysis_sample (H := reference_runtime) sample true)
      = inl ZeroDivisionError.
Proof. eexists. repeat split; vm_compute; reflexivity. Qed.

Definition buurt_table : DataFrame :=
  mkDF [("buurt_id", object); ("b_pop_total", float64)]
    [ {["buurt_id" := Str "00010001"; "b_pop_total" := Num 100]} ].

Definition joined_example : DataFrame :=
  match merge_left survey_example buurt_table "buurt_id" with
  | inr merged => merged
  | inl _ => empty_frame
  end.

Lemma merge_left_keeps_cells_witness :
  distinct_keys "buurt_id" (rows buurt_table) = true ∧
  merge_left survey_example buurt_table "buurt_id" = inr joined_example ∧
  ∃ l m, rows survey_example !! 1%nat = Some l ∧
    rows joined_example !! 1%nat = Some m ∧
    cell m "buurt_id" = cell l "buurt_id".
Proof.
  assert (Hm : merge_left survey_example buurt_table "buurt_id"
               = inr joined_example) by (vm_compute; reflexivity).
  split; [reflexivity|]. split; [exact Hm|].
  destruct (merge_left_keeps_cells survey_example buurt_table joined_example
              "buurt_id" 1%nat _ eq_refl Hm eq_refl) as (m & Hmi & _ & Hkey & _).
  eexists _, m. split; [reflexivity|]. split; [exact Hmi|exact Hkey].
Defined.

Definition geo_example : DataFrame :=
  default empty_frame
    (Transform.create_geo_ids (H := reference_numlib) Transform.scenario_1).

Definition tables_example : gmap string DataFrame :=
  default ∅
    (Transform.prepare_admin_by_level (H := reference_numlib)
       Transform.admin_example).

Definition pipeline_example : DataFrame :=
  match outcome (merge_survey_admin geo_example tables_example) with
  | inr merged => merged
  | inl _ => empty_frame
  end.

Lemma pipeline_merge_keeps_survey_witness :
  Transform.create_geo_ids (H := reference_numlib) Transform.scenario_1
    = Some geo_example ∧
  Transform.prepare_admin_by_level (H := reference_numlib)
    Transform.admin_example = Some tables_example ∧
  outcome (merge_survey_admin geo_example tables_example) = inr pipeline_example ∧
  nrows pipeline_example = nrows Transform.scenario_1.
Proof.
  assert (Hgeo : Transform.create_geo_ids (H := reference_numlib)
                   Transform.scenario_1 = Some geo_example)
    by (vm_compute; reflexivity).
  assert (Hprep : Transform.prepare_admin_by_level (H := reference_numlib)
                    Transform.admin_example = Some tables_example)
    by (vm_compute; reflexivity).
  assert (Hout : outcome (merge_survey_admin geo_example tables_example)
                 = inr pipeline_example) by (vm_compute; reflexivity).
  split; [exact Hgeo|]. split; [exact Hprep|]. split; [exact Hout|].
  exact (proj1 (pipeline_merge_keeps_survey (H := reference_numlib)
                  Transform.scenario_1 Transform.admin_example geo_example
                  pipeline_example tables_example Hgeo Hprep Hout)).
Defined.

(** The respondent of the first scenario after the merge: the
    identifiers, and the population of the buurt, the wijk and the
    gemeente. *)
Example pipeline_merge_example :
  map (λ r, map (cell r) ["Buurtcode"; "buurt_id"; "wijk_id"; "gemeente_id";
                          "b_pop_total"; "w_pop_total"; "g_pop_total"])
      (rows pipeline_example) =
  [[Str "3630100"; Str "03630100"; Str "036301"; Str "0363"; Num 10; Num 20;
    Num 40]].
Proof. vm_compute. reflexivity. Qed.

Example validate_merge_example :
  printed (validate_merge (H := reference_runtime) merged_example) =
  [newline +:+ "Validating merge quality...";
   "  Buurt: 1/2 matched (50.0%) [LOW]"; "  Wijk: 2/2 matched (100.0%) [OK]";
   "  Gemeente: indicator column 'g_pop_total' not found"] ∧
  printed (validate_merge (H := reference_runtime)
             (mkDF [("b_pop_total", float64)] [])) =
  [newline +:+ "Validating merge quality..."; "  Buurt: 0/0 matched (nan%) [LOW]";
   "  Wijk: indicator column 'w_pop_total' not found";
   "  Gemeente: indicator column 'g_pop_total' not found"].
Proof. split; vm_compute; reflexivity. Qed.

End MergeMore.

(** ** The validation of extract.py *)

Module Extract.
Import PyStr Pandas Py Merge MergeMore.

(** The dict that [validate_raw_data] fills and returns. *)
Record RawValidation := {
  survey_n : nat;
  survey_complete_geo : nat;
  admin_n : nat;
  admin_buurt : nat;
  admin_wijk : nat;
  admin_gemeente : nat;
  issues : list string;
  passed : bool
}.

(** [results["survey_complete_geo"] = n] *)
Definition set_complete_geo (n : nat) (res : RawValidation) : RawValidation :=
  {| survey_n := survey_n res; survey_complete_geo := n;
     admin_n := admin_n res; admin_buurt := admin_buurt res;
     admin_wijk := admin_wijk res; admin_gemeente := admin_gemeente res;
     issues := issues res; passed := passed res |}.

(** The three assignments from [type_counts]. *)
Definition set_admin_counts (b w g : nat) (res : RawValidation) : RawValidation :=
  {| survey_n := survey_n res; survey_complete_geo := survey_complete_geo res;
     admin_n := admin_n res; admin_buurt := b; admin_wijk := w;
     admin_gemeente := g; issues := issues res; passed := passed res |}.

(** [results["issues"].append(msg)] followed by
    [results["passed"] = False]. *)
Definition add_issue (msg : string) (res : RawValidation) : RawValidation :=
  {| survey_n := survey_n res; survey_complete_geo := survey_complete_geo res;
     admin_n := admin_n res; admin_buurt := admin_buurt res;
     admin_wijk := admin_wijk res; admin_gemeente := admin_gemeente res;
     issues := (issues res ++ [msg])%list; passed := false |}.

(** [v < q], which is false for [nan]. *)
Definition lt_num (v : value) (q : Q) : bool :=
  match v with
  | Num x => negb (Qle_bool q x)
  | _ => false
  end.

(** [type_counts.get(name, 0)] of [admin["region_type"].value_counts()]. *)
Definition type_count (admin : DataFrame) (name : string) : nat :=
  length (List.filter (λ v, value_eqb v (Str name)) (series admin "region_type")).

Section Validate.
Context `{Runtime}.

(** The survey checks. *)
Definition survey_checks (survey : DataFrame) (res : RawValidation) :
    io RawValidation :=
  if has_column survey "Buurtcode" then
    let res := set_complete_geo
                 (length (List.filter notna (series survey "Buurtcode"))) res in
    let geo_pct := share_of (survey_complete_geo res) (nrows survey) in
    print ("  Survey: " +:+ pretty (nrows survey) +:+ " respondents, " +:+
           format_share geo_pct +:+ "% with geocode");;
    if lt_num geo_pct 90
    then mret (add_issue ("Low geocode coverage: " +:+ format_share geo_pct +:+ "%")
                 res)
    else mret res
  else mret (add_issue "No Buurtcode column in survey" res).

(** The admin checks. *)
Definition admin_checks (admin : DataFrame) (res : RawValidation) :
    io RawValidation :=
  if has_column admin "region_type" then
    let res := set_admin_counts (type_count admin "Buurt") (type_count admin "Wijk")
                 (type_count admin "Gemeente") res in
    print ("  Admin: " +:+ pretty (admin_buurt res) +:+ " buurt, " +:+
           pretty (admin_wijk res) +:+ " wijk, " +:+
           pretty (admin_gemeente res) +:+ " gemeente");;
    mret res
  else
    print ("  Admin: " +:+ pretty (nrows admin) +:+
           " total rows (region type not identified)");;
    mret res.

(** The check of the minimum count. *)
Definition minimum_check (res : RawValidation) : RawValidation :=
  if (survey_n res <? 5000)%nat
  then add_issue ("Survey N too low: " +:+ pretty (survey_n res)) res
  else res.

(** [validate_raw_data] *)
Definition validate_raw_data (survey admin : DataFrame) : io RawValidation :=
  print (newline +:+ "Validating raw data...");;
  let results :=
    {| survey_n := nrows survey; survey_complete_geo := 0;
       admin_n := nrows admin; admin_buurt := 0; admin_wijk := 0;
       admin_gemeente := 0; issues := []; passed := true |} in
  results ← survey_checks survey results;
  results ← admin_checks admin results;
  let results := minimum_check results in
  (if passed results then print "  Validation PASSED"
   else print ("  Validation FAILED: " +:+ repr_list (issues results)));;
  mret results.

(** The dict that is returned, without the printing. *)
Definition survey_part (survey : DataFrame) (res : RawValidation) :
    RawValidation :=
  if has_column survey "Buurtcode" then
    let res := set_complete_geo
                 (length (List.filter notna (series survey "Buurtcode"))) res in
    let geo_pct := share_of (survey_complete_geo res) (nrows survey) in
    if lt_num geo_pct 90
    then add_issue ("Low geocode coverage: " +:+ format_share geo_pct +:+ "%") res
    else res
  else add_issue "No Buurtcode column in survey" res.

Definition admin_part (admin : DataFrame) (res : RawValidation) : RawValidation :=
  if has_column admin "region_type" then
    set_admin_counts (type_count admin "Buurt") (type_count admin "Wijk")
      (type_count admin "Gemeente") res
  else res.

Definition validation_of (survey admin : DataFrame) : RawValidation :=
  minimum_check
    (admin_part admin
       (survey_part survey
          {| survey_n := nrows survey; survey_complete_geo := 0;
             admin_n := nrows admin; admin_buurt := 0; admin_wijk := 0;
             admin_gemeente := 0; issues := []; passed := true |})).

Lemma validate_raw_data_outcome (survey admin : DataFrame) :
  outcome (validate_raw_data survey admin) = inr (validation_of survey admin).
Proof.
  unfold validate_raw_data, validation_of. rewrite bind_outcome. cbn [print outcome].
  rewrite bind_outcome.
  set (res0 := {| survey_n := nrows survey; survey_complete_geo := 0;
                  admin_n := nrows admin; admin_buurt := 0; admin_wijk := 0;
                  admin_gemeente := 0; issues := []; passed := true |}).
  assert (Hs : outcome (survey_checks survey res0) = inr (survey_part survey res0)).
  { unfold survey_checks, survey_part.
    destruct (has_column survey "Buurtcode"); [|done].
    cbv zeta. rewrite bind_outcome. cbn [print outcome].
    by destruct (lt_num _ 90). }
  rewrite Hs. rewrite bind_outcome.
  assert (Ha : ∀ res, outcome (admin_checks admin res) = inr (admin_part admin res)).
  { intros res. unfold admin_checks, admin_part.
    destruct (has_column admin "region_type"); cbv zeta;
      rewrite bind_outcome; done. }
  rewrite Ha. rewrite bind_outcome.
  by destruct (passed _).
Qed.

(** The three kinds of region are counted among the rows of the
    admin table, each row at most once. *)
Lemma type_counts_le (admin : DataFrame) :
  (type_count admin "Buurt" + type_count admin "Wijk" +
   type_count admin "Gemeente" <= nrows admin)%nat.
Proof.
  unfold type_count. rewrite <- (length_series admin "region_type").
  induction (series admin "region_type") as [|v l IH]; [done|].
  cbn [List.filter length].
  destruct v as [|q|s]; cbn [value_eqb]; [lia..|].
  destruct (String.eqb s "Buurt") eqn:E1.
  { apply String.eqb_eq in E1 as ->. cbn. lia. }
  destruct (String.eqb s "Wijk") eqn:E2.
  { apply String.eqb_eq in E2 as ->. cbn. lia. }
  destruct (String.eqb s "Gemeente"); cbn [length]; lia.
Qed.

Lemma lt_num_share (c n : nat) :
  lt_num (share_of c n) 90 = false ↔ n = 0%nat ∨ (9 * n <= 10 * c)%nat.
Proof.
  unfold share_of. destruct (n =? 0)%nat eqn:Hn.
  { apply Nat.eqb_eq in Hn. cbn [lt_num]. split; [by left|done]. }
  apply Nat.eqb_neq in Hn. cbn [lt_num]. rewrite negb_false_iff, Qle_bool_iff.
  assert (Ht : (0 < nat_Q n)%Q).
  { unfold nat_Q. change 0%Q with (inject_Z 0). rewrite <- Zlt_Qlt. lia. }
  assert (E : (nat_Q c / nat_Q n * 100 == (100 * nat_Q c) / nat_Q n)%Q)
    by (field; lra).
  assert (Hz : (90 * nat_Q n <= 100 * nat_Q c)%Q ↔ (9 * n <= 10 * c)%nat).
  { unfold nat_Q.
    change 90%Q with (inject_Z 90). change 100%Q with (inject_Z 100).
    rewrite <- !inject_Z_mult, <- Zle_Qle. lia. }
  split.
  - intros H90. right. apply Hz.
    assert (H1 : (90 <= 100 * nat_Q c / nat_Q n)%Q).
    { eapply Qle_trans; [exact H90|]. apply Qle_lteq. by right. }
    apply (Qmult_le_r _ _ (nat_Q n)) in H1; [|done].
    eapply Qle_trans; [exact H1|]. apply Qle_lteq. right. field. lra.
  - intros [->|H9]; [done|].
    eapply Qle_trans; [|apply Qle_lteq; right; symmetry; exact E].
    apply Qle_shift_div_l; [done|]. by apply Hz.
Qed.

(** The flag and the list go together. *)
Definition consistent (res : RawValidation) : Prop :=
  passed res = true ↔ issues res = [].

Lemma add_issue_consistent (msg : string) (res : RawValidation) :
  consistent (add_issue msg res).
Proof.
  unfold consistent, add_issue. cbn [passed issues]. split; [done|].
  intros E. by apply app_eq_nil in E as [_ ?].
Qed.

Lemma survey_part_spec (survey : DataFrame) (res : RawValidation) :
  passed res = true → issues res = [] →
  let c := length (List.filter notna (series survey "Buurtcode")) in
  let res' := survey_part survey res in
  consistent res' ∧
  survey_n res' = survey_n res ∧ admin_n res' = admin_n res ∧
  admin_buurt res' = admin_buurt res ∧ admin_wijk res' = admin_wijk res ∧
  admin_gemeente res' = admin_gemeente res ∧
  (if has_column survey "Buurtcode" then survey_complete_geo res' = c
   else survey_complete_geo res' = survey_complete_geo res) ∧
  (passed res' = true ↔
   has_column survey "Buurtcode" = true ∧
   (nrows survey = 0%nat ∨ (9 * nrows survey <= 10 * c)%nat)).
Proof.
  intros Hp Hi c res'. subst res'. unfold survey_part.
  destruct (has_column survey "Buurtcode").
  - cbv zeta. cbn [set_complete_geo survey_complete_geo]. fold c.
    pose proof (lt_num_share c (nrows survey)) as Hshare.
    destruct (lt_num (share_of c (nrows survey)) 90) eqn:Hlt.
    + split; [apply add_issue_consistent|]. cbn. do 6 (split; [done|]).
      split; [done|]. intros [_ Hc]. apply Hshare in Hc. done.
    + split; [by split|]. cbn. do 6 (split; [done|]).
      split; [|done]. intros _. split; [done|]. by apply Hshare.
  - split; [apply add_issue_consistent|]. cbn. do 6 (split; [done|]).
    split; [done|]. by intros [? _].
Qed.

Lemma minimum_check_spec (res : RawValidation) :
  consistent res →
  let res' := minimum_check res in
  consistent res' ∧
  survey_n res' = survey_n res ∧ admin_n res' = admin_n res ∧
  survey_complete_geo res' = survey_complete_geo res ∧
  admin_buurt res' = admin_buurt res ∧ admin_wijk res' = admin_wijk res ∧
  admin_gemeente res' = admin_gemeente res ∧
  (passed res' = true ↔ passed res = true ∧ (5000 <= survey_n res)%nat).
Proof.
  intros Hc res'. subst res'. unfold minimum_check.
  destruct (survey_n res <? 5000)%nat eqn:Hmin.
  - apply Nat.ltb_lt in Hmin. split; [apply add_issue_consistent|]. cbn.
    do 6 (split; [done|]). split; [done|]. intros [_ ?]. lia.
  - apply Nat.ltb_ge in Hmin. split; [done|]. do 6 (split; [done|]).
    split; [by intros ?|by intros [? _]].
Qed.

(** [validate_raw_data] never raises, also on an empty survey, whose
    coverage is [nan] and so not low.  The data pass exactly when no
    issue is listed, and that is exactly when the survey has a
    [Buurtcode] column, at least 5000 respondents, and a code for at
    least 90% of them.  The respondents with a code are counted among
    the respondents, and the regions of the three kinds among the rows
    of the admin table; without a [region_type] column the three
    counts stay 0 and nothing is held against the data. *)
Theorem validate_raw_data_passed (survey admin : DataFrame) :
  ∃ res,
    outcome (validate_raw_data survey admin) = inr res ∧
    survey_n res = nrows survey ∧ admin_n res = nrows admin ∧
    (passed res = true ↔ issues res = []) ∧
    (passed res = true ↔
       has_column survey "Buurtcode" = true ∧ (5000 <= nrows survey)%nat ∧
       (9 * nrows survey <= 10 * survey_complete_geo res)%nat) ∧
    (survey_complete_geo res <= survey_n res)%nat ∧
    (admin_buurt res + admin_wijk res + admin_gemeente res <= admin_n res)%nat ∧
    (has_column admin "region_type" = false →
     admin_buurt res = 0%nat ∧ admin_wijk res = 0%nat ∧
     admin_gemeente res = 0%nat).
Proof.
  exists (validation_of survey admin). split; [apply validate_raw_data_outcome|].
  unfold validation_of.
  set (res0 := {| survey_n := nrows survey; survey_complete_geo := 0;
                  admin_n := nrows admin; admin_buurt := 0; admin_wijk := 0;
                  admin_gemeente := 0; issues := []; passed := true |}).
  pose proof (length_filter_le notna (series survey "Buurtcode")) as Hle.
  rewrite length_series in Hle.
  pose proof (type_counts_le admin) as Hta.
  destruct (survey_part_spec survey res0 eq_refl eq_refl)
    as (Hc1 & Hn1 & Ha1 & Hb1 & Hw1 & Hg1 & Hgeo1 & Hp1).
  set (res1 := survey_part survey res0) in *.
  set (res2 := admin_part admin res1).
  assert (H2 : consistent res2 ∧ survey_n res2 = survey_n res1 ∧
               admin_n res2 = admin_n res1 ∧
               survey_complete_geo res2 = survey_complete_geo res1 ∧
               passed res2 = passed res1 ∧
               (admin_buurt res2 + admin_wijk res2 + admin_gemeente res2
                <= nrows admin)%nat ∧
               (has_column admin "region_type" = false →
                admin_buurt res2 = 0%nat ∧ admin_wijk res2 = 0%nat ∧
                admin_gemeente res2 = 0%nat)).
  { subst res2. unfold admin_part.
    destruct (has_column admin "region_type").
    - cbn. do 5 (split; [done|]). split; [exact Hta|done].
    - do 5 (split; [done|]). rewrite Hb1, Hw1, Hg1. cbn. split; [lia|done]. }
  destruct H2 as (Hc2 & Hn2 & Ha2 & Hgeo2 & Hp2 & Hcount2 & Hnone2).
  destruct (minimum_check_spec res2 Hc2)
    as (Hc3 & Hn3 & Ha3 & Hgeo3 & Hb3 & Hw3 & Hg3 & Hp3).
  set (res3 := minimum_check res2) in *.
  assert (Hgeo : survey_complete_geo res3 =
                 if has_column survey "Buurtcode"
                 then length (List.filter notna (series survey "Buurtcode"))
                 else 0%nat).
  { rewrite Hgeo3, Hgeo2. by destruct (has_column survey "Buurtcode"). }
  split; [by rewrite Hn3, Hn2, Hn1|]. split; [by rewrite Ha3, Ha2, Ha1|].
  split; [exact Hc3|]. split.
  { rewrite Hp3, Hp2, Hp1, Hn2, Hn1, Hgeo. cbn [survey_n res0].
    destruct (has_column survey "Buurtcode");
      [|split; [by intros [[? _] _]|by intros [? _]]].
    split.
    - intros [[_ [E|E]] Hmin]; (split; [done|]); lia.
    - intros (_ & Hmin & E). split; [|done]. split; [done|]. by right. }
  split.
  { rewrite Hgeo, Hn3, Hn2, Hn1. cbn [survey_n res0].
    destruct (has_column survey "Buurtcode"); lia. }
  split.
  { rewrite Hb3, Hw3, Hg3, Ha3, Ha2, Ha1. exact Hcount2. }
  intros Hreg. rewrite Hb3, Hw3, Hg3. by apply Hnone2.
Qed.

End Validate.

(** A survey of two respondents, one with a code. *)
Definition small_survey : DataFrame :=
  mkDF [("Buurtcode", object)]
    [ {["Buurtcode" := Str "03630100"]}; {["Buurtcode" := NaN]} ].

Definition small_admin : DataFrame :=
  mkDF [("region_type", object)]
    [ {["region_type" := Str "Buurt"]}; {["region_type" := Str "Wijk"]};
      {["region_type" := Str "Buurt"]}; {["region_type" := NaN]} ].

Example validate_raw_data_small :
  printed (validate_raw_data (H := reference_runtime) small_survey small_admin)
  = [newline +:+ "Validating raw data...";
     "  Survey: 2 respondents, 50.0% with geocode";
     "  Admin: 2 buurt, 1 wijk, 0 gemeente";
     "  Validation FAILED: ['Low geocode coverage: 50.0%', 'Survey N too low: 2']"] ∧
  printed (validate_raw_data (H := reference_runtime) empty_frame empty_frame)
  = [newline +:+ "Validating raw data...";
     "  Admin: 0 total rows (region type not identified)";
     "  Validation FAILED: ['No Buurtcode column in survey', 'Survey N too low: 0']"] ∧
  printed (validate_raw_data (H := reference_runtime)
             (mkDF [("Buurtcode", object)] []) empty_frame)
  = [newline +:+ "Validating raw data...";
     "  Survey: 0 respondents, nan% with geocode";
     "  Admin: 0 total rows (region type not identified)";
     "  Validation FAILED: ['Survey N too low: 0']"].
Proof. repeat split; vm_compute; reflexivity. Qed.

End Extract.
